(** * pytorch-frame: the California house price tutorial and the encoder package

    A shallow embedding of

    - [examples/tutorials/california_house_price.py]: the command line, the
      text embedder [SimpleTextToEmbedding], the stype rename after
      materialization, the encoder dictionary, [train], [test] and the epoch
      loop with its best-metric selection and printed lines;
    - [torch_frame/nn/encoder/__init__.py]: the re-export list.

    Python [float]s are IEEE 754 binary64 numbers, taken from the Standard
    Library's executable specification ([SpecFloat], precision 53, maximal
    exponent 1024).  Calls into torch, torch_frame, transformers and tqdm are
    external: they go through one handler, a variable of the development, and
    every call is recorded with its outcome in a trace. *)

From Stdlib Require Import ZArith List Bool Lia Ascii String.
From Stdlib Require Import Floats.SpecFloat.
From Stdlib Require Import DecimalString.
From stdpp Require Import base option gmap strings list finite.

Local Open Scope Z_scope.

(** ** Python floats: IEEE 754 binary64 *)

Module PyFloat.

Definition prec : Z := 53.
Definition emax : Z := 1024.

Definition float : Type := spec_float.

Definition zero : float := S754_zero false.
Definition inf : float := S754_infinity false.
Definition nan : float := S754_nan.
Definition one : float := SFone prec emax.

Definition add : float -> float -> float := SFadd prec emax.
Definition mul : float -> float -> float := SFmul prec emax.
Definition div : float -> float -> float := SFdiv prec emax.
Definition sqrt : float -> float := SFsqrt prec emax.

(** [x < y], [x <= y] and [x == y] on floats: all false on NaN. *)
Definition ltb (x y : float) : bool := SFltb x y.
Definition leb (x y : float) : bool := SFleb x y.
Definition eqb (x y : float) : bool := SFeqb x y.

Definition is_nan (x : float) : bool :=
  match x with S754_nan => true | _ => false end.

Definition is_finite (x : float) : bool :=
  match x with S754_zero _ | S754_finite _ _ _ => true | _ => false end.

(** [x == 0.0]: true on both zeros. *)
Definition is_zero (x : float) : bool :=
  match x with S754_zero _ => true | _ => false end.

(** The nearest binary64 number to the integer [n] (ties to even); an
    infinity when [n] is out of range. *)
Definition of_Z (n : Z) : float := binary_normalize prec emax n 0 false.

(** The exact comparison of a float with an integer, as Python compares a
    [float] with an [int]: [None] on NaN. *)
Definition compare_Z (x : float) (n : Z) : option comparison :=
  match x with
  | S754_nan => None
  | S754_infinity s => Some (if s then Lt else Gt)
  | S754_zero _ => Some (Z.compare 0 n)
  | S754_finite s m e =>
      let v := if s then Z.neg m else Z.pos m in
      Some (if 0 <=? e then Z.compare (v * 2 ^ e) n
            else Z.compare v (n * 2 ^ (- e)))
  end.

End PyFloat.

Abbreviation float := PyFloat.float.

(** ** Exceptions and outcomes *)

(** The exceptions the script can meet.  [FrameworkError] stands for whatever
    an external call raises.  [OutsideModel] marks the places where Python
    continues in a way this development has no model for: a negative float
    raised to the power [0.5] is a [complex], tensors of two dtypes are
    compared after a promotion, and a tensor of floats is summed in its own
    precision. *)
Inductive exn : Type :=
| ZeroDivisionError
| OverflowError
| KeyError (key : string)
| TypeError
| ValueError
| SystemExit (code : Z)
| FrameworkError (msg : string)
| OutsideModel (what : string).

Inductive outcome (A : Type) : Type :=
| Ok (a : A)
| Raise (e : exn).
Arguments Ok {A} a.
Arguments Raise {A} e.

Definition outcome_bind {A B} (o : outcome A) (k : A -> outcome B) : outcome B :=
  match o with
  | Ok a => k a
  | Raise e => Raise e
  end.

(** ** Python numbers: [int] and [float] *)

Inductive num : Type :=
| Int (n : Z)
| Float (x : float).

Module PyNum.
Import PyFloat.

(** [float(n)] for an [int]: OverflowError when [n] is too large. *)
Definition float_of_int (n : Z) : outcome float :=
  let x := of_Z n in
  if is_finite x then Ok x else Raise OverflowError.

Definition to_float (a : num) : outcome float :=
  match a with
  | Int n => float_of_int n
  | Float x => Ok x
  end.

(** [a + b] *)
Definition add (a b : num) : outcome num :=
  match a, b with
  | Int m, Int n => Ok (Int (m + n))
  | _, _ =>
      outcome_bind (to_float a) (fun x =>
      outcome_bind (to_float b) (fun y =>
      Ok (Float (PyFloat.add x y))))
  end.

(** [a * b] *)
Definition mul (a b : num) : outcome num :=
  match a, b with
  | Int m, Int n => Ok (Int (m * n))
  | _, _ =>
      outcome_bind (to_float a) (fun x =>
      outcome_bind (to_float b) (fun y =>
      Ok (Float (PyFloat.mul x y))))
  end.

(** The correctly rounded quotient of two integers, [n <> 0]. *)
Definition int_true_divide (m n : Z) : outcome float :=
  let s := xorb (m <? 0) (n <? 0) in
  if m =? 0 then Ok (S754_zero s)
  else
    let '(q, e, l) := SFdiv_core_binary prec emax (Z.abs m) 0 (Z.abs n) 0 in
    let x := binary_round_aux prec emax s q e l in
    if is_finite x then Ok x else Raise OverflowError.

(** [a / b]: true division; ZeroDivisionError on a zero divisor. *)
Definition truediv (a b : num) : outcome num :=
  match a, b with
  | Int m, Int n =>
      if n =? 0 then Raise ZeroDivisionError
      else outcome_bind (int_true_divide m n) (fun x => Ok (Float x))
  | _, _ =>
      outcome_bind (to_float a) (fun x =>
      outcome_bind (to_float b) (fun y =>
      if is_zero y then Raise ZeroDivisionError
      else Ok (Float (PyFloat.div x y))))
  end.

(** What the C library's [pow(x, 0.5)] gives for a base [x] that is finite,
    positive and not 1: the finite positive double [m * 2^e].  Which of the
    neighbouring doubles it is depends on the library, so it is a reply of
    the platform and nothing is said of its last bit. *)
Record pow_reply : Type := {
  pow_mantissa : positive;
  pow_exponent : Z
}.

Definition pow_value (p : pow_reply) : float :=
  S754_finite false (pow_mantissa p) (pow_exponent p).

(** [x ** 0.5] on a float, by the cases that CPython's [float_pow] sorts out
    before it calls the C library: NaN stays NaN, both infinities give
    [inf], both zeros give [0.0], a negative base gives a complex number,
    and 1.0 gives 1.0.  [None] is every other base: it goes to the C
    library's [pow]. *)
Definition float_pow_half (x : float) : outcome (option float) :=
  match x with
  | S754_nan => Ok (Some nan)
  | S754_infinity _ => Ok (Some inf)
  | S754_zero _ => Ok (Some zero)
  | S754_finite true _ _ => Raise (OutsideModel "complex")
  | S754_finite false _ _ => if eqb x one then Ok (Some one) else Ok None
  end.

(** The three-way comparison behind [<] and [>]: [None] when a NaN is
    involved. *)
Definition compare (a b : num) : option comparison :=
  match a, b with
  | Int m, Int n => Some (Z.compare m n)
  | Float x, Float y => SFcompare x y
  | Float x, Int n => compare_Z x n
  | Int m, Float y => CompOpp <$> compare_Z y m
  end.

(** [a < b] *)
Definition lt (a b : num) : bool :=
  match compare a b with Some Lt => true | _ => false end.

(** [a > b] *)
Definition gt (a b : num) : bool :=
  match compare a b with Some Gt => true | _ => false end.

(** [a == b] *)
Definition eq (a b : num) : bool :=
  match compare a b with Some Eq => true | _ => false end.

End PyNum.

(** ** String formatting: [str(n)] and the format spec [.4f] *)

Module PyFormat.
Import PyFloat.

(** The decimal digits of a natural number. *)
Definition decimal (n : Z) : string :=
  NilZero.string_of_uint (N.to_uint (Z.to_N n)).

(** [str(n)] for an [int]. *)
Definition str_int (n : Z) : string :=
  if n <? 0 then String "-" (decimal (- n)) else decimal n.

Definition digit (d : Z) : ascii := ascii_of_N (48 + Z.to_N d).

(** The four decimals of [n mod 10000], zero padded. *)
Definition four_digits (n : Z) : string :=
  String (digit (n / 1000 mod 10))
    (String (digit (n / 100 mod 10))
       (String (digit (n / 10 mod 10))
          (String (digit (n mod 10)) EmptyString))).

(** [m * 2^e * 10^4] rounded to the nearest integer, ties to even. *)
Definition scaled_round (m : positive) (e : Z) : Z :=
  if 0 <=? e then Z.pos m * 2 ^ e * 10000
  else
    let den := 2 ^ (- e) in
    let q := (Z.pos m * 10000) / den in
    let r := (Z.pos m * 10000) mod den in
    match Z.compare (2 * r) den with
    | Lt => q
    | Gt => q + 1
    | Eq => if Z.even q then q else q + 1
    end.

(** A magnitude given in ten-thousandths, printed with four decimals. *)
Definition fixed4 (n : Z) : string :=
  (decimal (n / 10000) ++ String "." (four_digits (n mod 10000)))%string.

Definition sign_prefix (s : bool) (body : string) : string :=
  if s then String "-" body else body.

(** [format(x, ".4f")] for a float: correctly rounded, with the sign of a
    negative zero kept and no decimals on [nan] and [inf]. *)
Definition float_4f (x : float) : string :=
  match x with
  | S754_nan => "nan"
  | S754_infinity s => sign_prefix s "inf"
  | S754_zero s => sign_prefix s (fixed4 0)
  | S754_finite s m e => sign_prefix s (fixed4 (scaled_round m e))
  end.

(** [format(a, ".4f")]: an [int] is converted to a float first. *)
Definition num_4f (a : num) : outcome string :=
  outcome_bind (PyNum.to_float a) (fun x => Ok (float_4f x)).

End PyFormat.

(** ** The data model *)

(** Modelled from the spec: the members of [torch_frame.stype].  The enum is
    declared outside the files at hand; these are the members that the
    glossary of the spec and the script name. *)
Inductive stype : Type :=
| categorical
| numerical
| embedding
| multicategorical
| timestamp
| text_embedded.

#[global] Instance stype_eq_dec : EqDecision stype.
Proof. solve_decision. Defined.

Definition stype_to_nat (s : stype) : nat :=
  match s with
  | categorical => 0 | numerical => 1 | embedding => 2
  | multicategorical => 3 | timestamp => 4 | text_embedded => 5
  end%nat.

Definition stype_of_nat (n : nat) : option stype :=
  match n with
  | 0 => Some categorical | 1 => Some numerical | 2 => Some embedding
  | 3 => Some multicategorical | 4 => Some timestamp | 5 => Some text_embedded
  | _ => None
  end%nat.

#[global] Instance stype_countable : Countable stype.
Proof.
  apply (inj_countable stype_to_nat stype_of_nat).
  intros []; reflexivity.
Defined.

Definition stype_name (s : stype) : string :=
  match s with
  | categorical => "categorical" | numerical => "numerical"
  | embedding => "embedding" | multicategorical => "multicategorical"
  | timestamp => "timestamp" | text_embedded => "text_embedded"
  end.

(** An opaque reference to an object that lives in the framework: a
    tokenizer, a network, a dataset on disk, a loader, an optimizer. *)
Definition obj : Type := N.

Inductive device : Type := Cuda | Cpu.

(** Tensors by dtype, with their shape and their entries in row-major
    order.  A float entry is given as the binary64 number that [float()]
    converts it to.  Devices and autograd graphs are no part of the value. *)
Inductive Tensor : Type :=
| FloatTensor (shape : list Z) (data : list float)
| LongTensor (shape : list Z) (data : list Z)
| BoolTensor (shape : list Z) (data : list bool).

Definition shape (t : Tensor) : list Z :=
  match t with
  | FloatTensor s _ | LongTensor s _ | BoolTensor s _ => s
  end.

(** Modelled from the spec: the label tensor of a tensor frame.  The class
    [TensorFrame] is declared outside the files at hand; it keeps one label
    per row, class indices for classification and real targets for
    regression, so the label tensor is one-dimensional. *)
Inductive Labels : Type :=
| ClassLabels (l : list Z)
| Targets (l : list float).

(** A batch container: the column tensors and the column names, both grouped
    by semantic type, and the labels. *)
Record TensorFrame : Type := {
  feat_dict : gmap stype Tensor;
  col_names_dict : gmap stype (list string);
  labels : Labels
}.

(** [tf.y] *)
Definition y (tf : TensorFrame) : Tensor :=
  match labels tf with
  | ClassLabels l => LongTensor [Z.of_nat (length l)] l
  | Targets l => FloatTensor [Z.of_nat (length l)] l
  end.

(** The number of rows of a frame. *)
Definition num_rows (tf : TensorFrame) : Z :=
  match labels tf with
  | ClassLabels l => Z.of_nat (length l)
  | Targets l => Z.of_nat (length l)
  end.

Inductive NAStrategy : Type := MEDIAN_TIMESTAMP.

Inductive encoder_class : Type :=
| EmbeddingEncoder
| LinearEncoder
| LinearEmbeddingEncoder
| MultiCategoricalEmbeddingEncoder
| TimestampEncoder.

(** An encoder as constructed by the script: its class and the one keyword
    argument the script passes. *)
Record StypeEncoder : Type := {
  enc_class : encoder_class;
  na_strategy : option NAStrategy
}.

(** A materialized dataset. *)
Record Dataset : Type := {
  ds_ref : obj;
  tensor_frame : TensorFrame;
  is_classification : bool;
  num_classes : Z;
  col_stats : obj
}.

(** The parsed command line. *)
Record Args : Type := {
  arg_dataset : string;
  arg_channels : Z;
  arg_num_layers : Z;
  arg_batch_size : Z;
  arg_lr : float;
  arg_epochs : Z;
  arg_seed : Z;
  arg_model : string;
  arg_pooling : string;
  arg_compile : bool
}.

(** ** Tensor operations the script applies itself *)

Module Torch.

(** [len(t)]: the size of the first dimension. *)
Definition len (t : Tensor) : outcome Z :=
  match shape t with
  | n :: _ => Ok n
  | [] => Raise TypeError
  end.

(** [float(t)]: the entry of a one-element tensor. *)
Definition item (t : Tensor) : outcome float :=
  match t with
  | FloatTensor _ [x] => Ok x
  | LongTensor _ [n] => Ok (PyFloat.of_Z n)
  | BoolTensor _ [b] => Ok (if b then PyFloat.one else PyFloat.zero)
  | _ => Raise ValueError
  end.

Definition shape_eqb (s1 s2 : list Z) : bool := bool_decide (s1 = s2).

(** The shape that two shapes broadcast to, all three read from the last
    dimension to the first: two sizes go together when they are equal or one
    of them is 1, and the shorter shape is filled up with the dimensions of
    the longer one. *)
Fixpoint broadcast_rev (s1 s2 : list Z) : option (list Z) :=
  match s1 with
  | [] => Some s2
  | d1 :: s1' =>
      match s2 with
      | [] => Some s1
      | d2 :: s2' =>
          if d1 =? d2 then cons d1 <$> broadcast_rev s1' s2'
          else if d1 =? 1 then cons d2 <$> broadcast_rev s1' s2'
          else if d2 =? 1 then cons d1 <$> broadcast_rev s1' s2'
          else None
      end
  end.

Definition broadcast_shapes (s1 s2 : list Z) : option (list Z) :=
  @rev Z <$> broadcast_rev (rev s1) (rev s2).

(** The indices of a tensor of the shape [s], in row-major order. *)
Fixpoint indices (s : list Z) : list (list Z) :=
  match s with
  | [] => [[]]
  | d :: s' => flat_map (fun i => map (cons i) (indices s')) (seqZ 0 d)
  end.

(** Where a tensor of the shape [s] keeps the entry that the index [idx] of
    the broadcast shape reads: the leading dimensions that [s] lacks are
    dropped, and a dimension of size 1 is read at 0. *)
Definition offset (s : list Z) (idx : list Z) : Z :=
  fold_left (fun acc di => acc * fst di + (if fst di =? 1 then 0 else snd di))
    (combine s (drop (length idx - length s) idx)) 0.

(** The entries of a tensor of the shape [s] expanded to the shape [out]. *)
Definition expand {A} (s out : list Z) (data : list A) : option (list A) :=
  mapM (fun idx => data !! Z.to_nat (offset s idx)) (indices out).

(** [a == b] on tensors of one dtype: entry by entry on tensors of one shape,
    and on the two tensors expanded to their common shape when the shapes
    differ and can be broadcast.  Dtype promotion is left out. *)
Definition eq_entries {A} (f : A -> A -> bool) (sa sb : list Z)
    (u v : list A) : outcome Tensor :=
  if shape_eqb sa sb then Ok (BoolTensor sa (zip_with f u v))
  else
    match broadcast_shapes sa sb with
    | None => Raise (FrameworkError "the shapes cannot be broadcast")
    | Some s =>
        match expand sa s u, expand sb s v with
        | Some u', Some v' => Ok (BoolTensor s (zip_with f u' v'))
        | _, _ => Raise (OutsideModel "a tensor with too few entries")
        end
    end.

Definition eq (a b : Tensor) : outcome Tensor :=
  match a, b with
  | LongTensor sa u, LongTensor sb v => eq_entries Z.eqb sa sb u v
  | FloatTensor sa u, FloatTensor sb v => eq_entries PyFloat.eqb sa sb u v
  | BoolTensor sa u, BoolTensor sb v => eq_entries Bool.eqb sa sb u v
  | _, _ => Raise (OutsideModel "dtype promotion")
  end.

Definition count_true (v : list bool) : Z :=
  Z.of_nat (length (List.filter (fun b => b) v)).

(** [t.sum()]: a 0-dim integer tensor for a tensor of booleans or integers. *)
Definition sum (t : Tensor) : outcome Tensor :=
  match t with
  | BoolTensor _ v => Ok (LongTensor [] [count_true v])
  | LongTensor _ v => Ok (LongTensor [] [foldr Z.add 0 v])
  | FloatTensor _ _ => Raise (OutsideModel "float32 summation")
  end.

(** [t.view(-1)] *)
Definition view_flat (t : Tensor) : Tensor :=
  match t with
  | FloatTensor _ d => FloatTensor [Z.of_nat (length d)] d
  | LongTensor _ d => LongTensor [Z.of_nat (length d)] d
  | BoolTensor _ d => BoolTensor [Z.of_nat (length d)] d
  end.

(** The rows [b*T*D .. b*T*D + D) of the flat data, for [b < B]. *)
Fixpoint first_rows {A} (B : nat) (stride D : nat) (data : list A) : list A :=
  match B with
  | O => []
  | S B' => take D data ++ first_rows B' stride D (drop stride data)
  end.

(** [t[:, 0, :]] on a tensor of shape [[B; T; D]]. *)
Definition select_first (t : Tensor) : outcome Tensor :=
  match t with
  | FloatTensor [B; T; D] data =>
      if T <=? 0 then Raise (FrameworkError "index 0 is out of bounds")
      else Ok (FloatTensor [B; D]
                 (first_rows (Z.to_nat B) (Z.to_nat (T * D)) (Z.to_nat D) data))
  | _ => Raise (FrameworkError "too many indices")
  end.

End Torch.

(** ** External calls *)

(** The text embedder object of the script: [SimpleTextToEmbedding]. *)
Record SimpleTextToEmbedding : Type := {
  tokenizer : obj;
  model : obj;
  emb_device : device
}.

Record TextEmbedderConfig : Type := {
  text_embedder : SimpleTextToEmbedding;
  cfg_batch_size : Z
}.

(** What a tokenizer output holds under a key. *)
Inductive value : Type :=
| VTensor (t : Tensor)
| VOther (o : obj).

Record ModelOutput : Type := { last_hidden_state : Tensor }.

Inductive reduction : Type := Mean | Sum.

(** The calls into torch, torch_frame, transformers, tqdm, the file system
    and the C library ([LibmPow x] is [pow(x, 0.5)]), indexed by the type of
    their result.  Moving a tensor, a frame or
    a network to a device, and detaching a tensor, leave the value as it is
    in this model, so those calls return nothing: they can only fail. *)
Inductive ext : Type -> Type :=
| ManualSeed (seed : Z) : ext unit
| CudaIsAvailable : ext bool
| TokenizerFromPretrained (name : string) : ext obj
| ModelFromPretrained (name : string) : ext obj
| ModuleTo (m : obj) (d : device) : ext unit
| ScriptDir : ext string
| MultimodalTextBenchmark (root name : string) (num_rows : Z)
    (text_stype : stype) (col_to_text_embedder_cfg : TextEmbedderConfig) : ext obj
| Materialize (ds : obj) (path : string) : ext Dataset
| Slice (ds : Dataset) (lo hi : option float) : ext Dataset
| DataLoader (tf : TensorFrame) (batch_size : Z) (shuffle : bool) : ext obj
| FTTransformer (channels out_channels num_layers : Z) (stats : obj)
    (names : gmap stype (list string))
    (stype_encoder_dict : gmap stype StypeEncoder) : ext obj
| TorchCompile (m : obj) : ext obj
| AdamW (m : obj) (lr : float) : ext obj
| ModelTrain (m : obj) : ext unit
| ModelEval (m : obj) : ext unit
| Iterate (loader : obj) (desc : option string) : ext (list TensorFrame)
| FrameTo (tf : TensorFrame) (d : device) : ext unit
| Forward (m : obj) (tf : TensorFrame) : ext Tensor
| CrossEntropy (pred target : Tensor) : ext Tensor
| MseLoss (pred target : Tensor) (r : reduction) : ext Tensor
| Argmax (t : Tensor) : ext Tensor
| ZeroGrad (opt : obj) : ext unit
| Backward (loss : Tensor) : ext unit
| Step (opt : obj) : ext unit
| Tokenize (tok : obj) (sentences : list string) : ext (list (string * value))
| TensorTo (t : Tensor) (d : device) : ext unit
| TextModelCall (m : obj) (inputs : list (string * value)) : ext ModelOutput
| Detach (t : Tensor) : ext unit
| LibmPow (x : float) : ext PyNum.pow_reply.

(** A call together with what it gave. *)
Inductive event : Type :=
| Called {A : Type} (c : ext A) (r : outcome A).

Definition raised (ev : event) : option exn :=
  match ev with
  | Called _ (Raise e) => Some e
  | Called _ (Ok _) => None
  end.

(** ** The script monad: framework state, trace of calls, standard output *)

Section Script.

(** The state of the framework (weights, gradients, optimizer moments, random
    generators, files) and its behaviour on every call. *)
Variable W : Type.
Variable handle : forall A : Type, ext A -> W -> outcome A * W.

(** The gradient mode of torch: reading and switching it cannot fail. *)
Variable is_grad_enabled : W -> bool.
Variable set_grad_enabled : bool -> W -> W.

Record state : Type := {
  world : W;
  trace : list event;
  stdout : list string
}.

Definition M (A : Type) : Type := state -> outcome A * state.

Definition ret {A} (a : A) : M A := fun s => (Ok a, s).

Definition bind {A B} (m : M A) (k : A -> M B) : M B :=
  fun s =>
    match m s with
    | (Ok a, s') => k a s'
    | (Raise e, s') => (Raise e, s')
    end.

Definition raise {A} (e : exn) : M A := fun s => (Raise e, s).

(** A computation of the script itself that may raise. *)
Definition lift {A} (o : outcome A) : M A := fun s => (o, s).

(** An external call: the handler runs on the framework state and the call
    is appended to the trace with its outcome. *)
Definition call {A} (c : ext A) : M A :=
  fun s =>
    let '(r, w) := handle A c (world s) in
    (r, {| world := w; trace := trace s ++ [Called c r]; stdout := stdout s |}).

(** [print(line)] *)
Definition print (line : string) : M unit :=
  fun s =>
    (Ok tt, {| world := world s; trace := trace s; stdout := stdout s ++ [line] |}).

Definition with_world (f : W -> W) (s : state) : state :=
  {| world := f (world s); trace := trace s; stdout := stdout s |}.

(** The decorator [@torch.no_grad()]: the gradient mode is switched off for
    the call and put back afterwards, also when the call raises. *)
Definition no_grad {A} (m : M A) : M A :=
  fun s =>
    let prev := is_grad_enabled (world s) in
    let '(r, s') := m (with_world (set_grad_enabled false) s) in
    (r, with_world (set_grad_enabled prev) s').

(** A [for] loop over a list that updates the local variables [acc]. *)
Fixpoint for_each {A S} (l : list A) (body : A -> S -> M S) (acc : S) : M S :=
  match l with
  | [] => ret acc
  | x :: l' => bind (body x acc) (for_each l' body)
  end.

End Script.

Arguments ret {W A} a.
Arguments bind {W A B} m k.
Arguments raise {W A} e.
Arguments lift {W A} o.
Arguments call {W} handle {A} c.
Arguments print {W} line.
Arguments no_grad {W} is_grad_enabled set_grad_enabled {A} m.
Arguments for_each {W A S} l body acc.
Arguments with_world {W} f s.
Arguments world {W} s.
Arguments trace {W} s.
Arguments stdout {W} s.

Declare Scope script_scope.
Delimit Scope script_scope with script.
Notation "x <- m ;; k" := (bind m (fun x => k))
  (at level 100, m at next level, right associativity) : script_scope.
Notation "m ;;; k" := (bind m (fun _ => k))
  (at level 100, right associativity) : script_scope.
Local Open Scope script_scope.

(** ** The training script: [train], [test] and the epoch loop *)

(** [range(lo, hi)] *)
Definition range (lo hi : Z) : list Z :=
  map (fun i => lo + Z.of_nat i) (seq 0 (Z.to_nat (hi - lo))).

(** The module-level names that [train], [test] and the epoch loop read. *)
Record globals : Type := {
  g_device : device;
  g_is_classification : bool;
  g_model : obj;
  g_optimizer : obj;
  g_train_loader : obj;
  g_val_loader : obj;
  g_test_loader : obj
}.

(** The label of the metric and the initial best metrics. *)
Definition metric_name (is_cls : bool) : string :=
  if is_cls then "Acc" else "RMSE".

Definition initial_best (is_cls : bool) : num * num :=
  if is_cls then (Int 0, Int 0) else (Float PyFloat.inf, Float PyFloat.inf).

(** The [if]/[elif] of the epoch loop on the pair
    [(best_val_metric, best_test_metric)]. *)
Definition update_best (is_cls : bool) (val_metric test_metric : num)
    (best : num * num) : num * num :=
  if is_cls && PyNum.gt val_metric (fst best) then (val_metric, test_metric)
  else if negb is_cls && PyNum.lt val_metric (fst best) then (val_metric, test_metric)
  else best.

(** The line printed at the end of every epoch. *)
Definition epoch_line (metric : string)
    (train_loss train_metric val_metric test_metric : num) : outcome string :=
  outcome_bind (PyFormat.num_4f train_loss) (fun a =>
  outcome_bind (PyFormat.num_4f train_metric) (fun b =>
  outcome_bind (PyFormat.num_4f val_metric) (fun c =>
  outcome_bind (PyFormat.num_4f test_metric) (fun d =>
  Ok ("Train Loss: " ++ a ++ ", Train " ++ metric ++ ": " ++ b ++ ", "
      ++ "Val " ++ metric ++ ": " ++ c ++ ", Test " ++ metric ++ ": " ++ d)%string)))).

(** The line printed after the loop. *)
Definition best_line (metric : string) (best : num * num) : outcome string :=
  outcome_bind (PyFormat.num_4f (fst best)) (fun a =>
  outcome_bind (PyFormat.num_4f (snd best)) (fun b =>
  Ok ("Best Val " ++ metric ++ ": " ++ a ++ ", "
      ++ "Best Test " ++ metric ++ ": " ++ b)%string)).

Section Training.

Variable W : Type.
Variable handle : forall A : Type, ext A -> W -> outcome A * W.
Variable is_grad_enabled : W -> bool.
Variable set_grad_enabled : bool -> W -> W.
Variable g : globals.

#[local] Abbreviation call := (call handle).

(** The loss of one batch. *)
Definition batch_loss (pred : Tensor) (tf : TensorFrame) : M W Tensor :=
  if g_is_classification g then call (CrossEntropy pred (y tf))
  else call (MseLoss (Torch.view_flat pred) (Torch.view_flat (y tf)) Mean).

(** The body of the loop of [train], on [(loss_accum, total_count)]. *)
Definition train_step (tf : TensorFrame) (acc : num * num) : M W (num * num) :=
  call (FrameTo tf (g_device g)) ;;;
  pred <- call (Forward (g_model g) tf) ;;
  loss <- batch_loss pred tf ;;
  call (ZeroGrad (g_optimizer g)) ;;;
  call (Backward loss) ;;;
  l <- lift (Torch.item loss) ;;
  n <- lift (Torch.len (y tf)) ;;
  weighted <- lift (PyNum.mul (Float l) (Int n)) ;;
  loss_accum <- lift (PyNum.add (fst acc) weighted) ;;
  n' <- lift (Torch.len (y tf)) ;;
  total_count <- lift (PyNum.add (snd acc) (Int n')) ;;
  call (Step (g_optimizer g)) ;;;
  ret (loss_accum, total_count).

(** [train(epoch)] *)
Definition train (epoch : Z) : M W num :=
  call (ModelTrain (g_model g)) ;;;
  batches <- call (Iterate (g_train_loader g)
                     (Some ("Epoch: " ++ PyFormat.str_int epoch)%string)) ;;
  acc <- for_each batches train_step (Int 0, Int 0) ;;
  lift (PyNum.truediv (fst acc) (snd acc)).

(** What one batch adds to [accum] in [test]. *)
Definition batch_score (pred : Tensor) (tf : TensorFrame) : M W float :=
  if g_is_classification g then
    pred_class <- call (Argmax pred) ;;
    hits <- lift (Torch.eq (y tf) pred_class) ;;
    count <- lift (Torch.sum hits) ;;
    lift (Torch.item count)
  else
    sse <- call (MseLoss (Torch.view_flat pred) (Torch.view_flat (y tf)) Sum) ;;
    lift (Torch.item sse).

(** The body of the loop of [test], on [(accum, total_count)]. *)
Definition test_step (tf : TensorFrame) (acc : num * num) : M W (num * num) :=
  call (FrameTo tf (g_device g)) ;;;
  pred <- call (Forward (g_model g) tf) ;;
  score <- batch_score pred tf ;;
  accum <- lift (PyNum.add (fst acc) (Float score)) ;;
  n <- lift (Torch.len (y tf)) ;;
  total_count <- lift (PyNum.add (snd acc) (Int n)) ;;
  ret (accum, total_count).

(** [a ** 0.5]: the cases of [float_pow], and the C library's [pow] for the
    bases that it leaves. *)
Definition pow_half (a : num) : M W num :=
  x <- lift (PyNum.to_float a) ;;
  special <- lift (PyNum.float_pow_half x) ;;
  match special with
  | Some r => ret (Float r)
  | None => p <- call (LibmPow x) ;; ret (Float (PyNum.pow_value p))
  end.

(** [test(loader)], under [@torch.no_grad()]. *)
Definition test (loader : obj) : M W num :=
  no_grad is_grad_enabled set_grad_enabled (
    call (ModelEval (g_model g)) ;;;
    batches <- call (Iterate loader None) ;;
    acc <- for_each batches test_step (Int 0, Int 0) ;;
    if g_is_classification g then
      lift (PyNum.truediv (fst acc) (snd acc))
    else
      mse <- lift (PyNum.truediv (fst acc) (snd acc)) ;;
      pow_half mse).

(** The body of the epoch loop, on [(best_val_metric, best_test_metric)]. *)
Definition epoch_body (epoch : Z) (best : num * num) : M W (num * num) :=
  train_loss <- train epoch ;;
  train_metric <- test (g_train_loader g) ;;
  val_metric <- test (g_val_loader g) ;;
  test_metric <- test (g_test_loader g) ;;
  let best' := update_best (g_is_classification g) val_metric test_metric best in
  line <- lift (epoch_line (metric_name (g_is_classification g))
                  train_loss train_metric val_metric test_metric) ;;
  print line ;;;
  ret best'.

(** Lines 171 to 197: the initial best metrics, the epoch loop and the last
    line. *)
Definition epoch_loop (epochs : Z) : M W unit :=
  let metric := metric_name (g_is_classification g) in
  best <- for_each (range 1 (epochs + 1)) epoch_body
            (initial_best (g_is_classification g)) ;;
  line <- lift (best_line metric best) ;;
  print line.

End Training.

(** ** [train]: one optimizer cycle per batch and the weighted average *)

(** What happened on one batch of [train]: the frame, the prediction of the
    network and the loss tensor. *)
Record train_batch : Type := {
  tb_frame : TensorFrame;
  tb_pred : Tensor;
  tb_loss : Tensor;
  tb_loss_value : float
}.

(** [len(tf.y)]: the size of the batch. *)
Definition tb_size (b : train_batch) : Z := num_rows (tb_frame b).

(** The loss call of a batch: cross entropy against [tf.y] for
    classification, mean squared error on the flattened tensors otherwise. *)
Definition loss_event (is_cls : bool) (b : train_batch) : event :=
  if is_cls
  then Called (CrossEntropy (tb_pred b) (y (tb_frame b))) (Ok (tb_loss b))
  else Called (MseLoss (Torch.view_flat (tb_pred b))
                 (Torch.view_flat (y (tb_frame b))) Mean) (Ok (tb_loss b)).

(** The calls of one batch, in order. *)
Definition train_batch_events (g : globals) (b : train_batch) : list event :=
  [ Called (FrameTo (tb_frame b) (g_device g)) (Ok tt);
    Called (Forward (g_model g) (tb_frame b)) (Ok (tb_pred b));
    loss_event (g_is_classification g) b;
    Called (ZeroGrad (g_optimizer g)) (Ok tt);
    Called (Backward (tb_loss b)) (Ok tt);
    Called (Step (g_optimizer g)) (Ok tt) ].

(** The loss value is what [float(loss)] reads off the loss tensor. *)
Definition train_batch_read (b : train_batch) : Prop :=
  Torch.item (tb_loss b) = Ok (tb_loss_value b).

(** The sample-count-weighted average of per-batch losses, as the spec words
    it: the sum of loss times batch size, divided by the total sample
    count. *)
Definition weighted_loss_sum (bs : list train_batch) : float :=
  fold_left (fun acc b =>
    PyFloat.add acc (PyFloat.mul (tb_loss_value b) (PyFloat.of_Z (tb_size b))))
    bs PyFloat.zero.

Definition total_samples (bs : list train_batch) : Z :=
  foldr (fun b n => tb_size b + n) 0 bs.

Definition weighted_average (bs : list train_batch) : float :=
  PyFloat.div (weighted_loss_sum bs) (PyFloat.of_Z (total_samples bs)).

(** The optimizer calls among a list of events. *)
Definition is_optimizer_call (ev : event) : bool :=
  match ev with
  | Called (ZeroGrad _) _ | Called (Backward _) _ | Called (Step _) _ => true
  | Called _ _ => false
  end.

Definition optimizer_cycle (g : globals) (b : train_batch) : list event :=
  [ Called (ZeroGrad (g_optimizer g)) (Ok tt);
    Called (Backward (tb_loss b)) (Ok tt);
    Called (Step (g_optimizer g)) (Ok tt) ].

(** ** [test]: the accuracy and the root mean squared error *)

(** What happened on one batch of [test]: the frame, the prediction, the
    tensor computed from it (the predicted classes, or the sum of squared
    errors) and the number added to [accum]. *)
Record test_batch : Type := {
  eb_frame : TensorFrame;
  eb_pred : Tensor;
  eb_aux : Tensor;
  eb_score : float
}.

Definition eb_size (b : test_batch) : Z := num_rows (eb_frame b).

Definition score_event (is_cls : bool) (b : test_batch) : event :=
  if is_cls
  then Called (Argmax (eb_pred b)) (Ok (eb_aux b))
  else Called (MseLoss (Torch.view_flat (eb_pred b))
                 (Torch.view_flat (y (eb_frame b))) Sum) (Ok (eb_aux b)).

Definition test_batch_events (g : globals) (b : test_batch) : list event :=
  [ Called (FrameTo (eb_frame b) (g_device g)) (Ok tt);
    Called (Forward (g_model g) (eb_frame b)) (Ok (eb_pred b));
    score_event (g_is_classification g) b ].

(** The number of rows whose label equals the predicted class, for predicted
    classes that come one per row. *)
Definition correct_count (tf : TensorFrame) (pred_class : Tensor) : Z :=
  match labels tf, pred_class with
  | ClassLabels l, LongTensor _ v =>
      Z.of_nat (length (List.filter (fun p => Z.eqb (fst p) (snd p)) (combine l v)))
  | Targets l, FloatTensor _ v =>
      Z.of_nat (length (List.filter (fun p => PyFloat.eqb (fst p) (snd p)) (combine l v)))
  | _, _ => 0
  end.

(** The number that a batch adds to [accum]: [float((tf.y ==
    pred_class).sum())] for classification, the float of the sum of squared
    errors that [mse_loss] returned otherwise. *)
Definition test_batch_read (is_cls : bool) (b : test_batch) : Prop :=
  if is_cls
  then exists hits count,
         Torch.eq (y (eb_frame b)) (eb_aux b) = Ok hits /\
         Torch.sum hits = Ok count /\
         Torch.item count = Ok (eb_score b)
  else Torch.item (eb_aux b) = Ok (eb_score b).

(** The predicted classes of a batch come one per row, as the labels do. *)
Definition one_per_row (b : test_batch) : Prop :=
  shape (eb_aux b) = shape (y (eb_frame b)).

(** How [x ** 0.5] came to the value [q], with the calls [evs]: by one of the
    cases of [float_pow] and no call, or by the C library's [pow]. *)
Definition pow_half_run (x : float) (evs : list event) (q : float) : Prop :=
  (PyNum.float_pow_half x = Ok (Some q) /\ evs = []) \/
  (PyNum.float_pow_half x = Ok None /\
   exists p, evs = [Called (LibmPow x) (Ok p)] /\ q = PyNum.pow_value p).

Definition score_sum (bs : list test_batch) : float :=
  fold_left (fun acc b => PyFloat.add acc (eb_score b)) bs PyFloat.zero.

Definition total_rows (bs : list test_batch) : Z :=
  foldr (fun b n => eb_size b + n) 0 bs.

(** [accum / total_count] at the end of [test]. *)
Definition mean_score (bs : list test_batch) : float :=
  PyFloat.div (score_sum bs) (PyFloat.of_Z (total_rows bs)).

Definition total_correct (bs : list test_batch) : Z :=
  foldr (fun b n => correct_count (eb_frame b) (eb_aux b) + n) 0 bs.


(** ** The epoch loop: runs, best-metric selection *)

(** The four numbers of an epoch. *)
Record epoch_metrics : Type := {
  em_train_loss : num;
  em_train_metric : num;
  em_val_metric : num;
  em_test_metric : num
}.

Section EpochRuns.

Variable W : Type.
Variable handle : forall A : Type, ext A -> W -> outcome A * W.
Variable is_grad_enabled : W -> bool.
Variable set_grad_enabled : bool -> W -> W.
Variable g : globals.

(** [runs_epochs epochs s ms s']: from state [s] the epochs [epochs] ran one
    after the other, each with one call of [train], three calls of [test]
    and one printed line, gave the metrics [ms] and ended in state [s']. *)
Inductive runs_epochs : list Z -> state W -> list epoch_metrics -> state W -> Prop :=
| runs_done s : runs_epochs [] s [] s
| runs_epoch epoch epochs s s1 s2 s3 s4 s5 s' m ms line :
    train W handle g epoch s = (Ok (em_train_loss m), s1) ->
    test W handle is_grad_enabled set_grad_enabled g (g_train_loader g) s1
      = (Ok (em_train_metric m), s2) ->
    test W handle is_grad_enabled set_grad_enabled g (g_val_loader g) s2
      = (Ok (em_val_metric m), s3) ->
    test W handle is_grad_enabled set_grad_enabled g (g_test_loader g) s3
      = (Ok (em_test_metric m), s4) ->
    epoch_line (metric_name (g_is_classification g))
      (em_train_loss m) (em_train_metric m) (em_val_metric m) (em_test_metric m)
      = Ok line ->
    print line s4 = (Ok tt, s5) ->
    runs_epochs epochs s5 ms s' ->
    runs_epochs (epoch :: epochs) s (m :: ms) s'.

End EpochRuns.

(** [a] is strictly better than [b]: greater for an accuracy, smaller for an
    error. *)
Definition improves (is_cls : bool) (a b : num) : bool :=
  if is_cls then PyNum.gt a b else PyNum.lt a b.

(** [a] is at most as good as [b]. *)
Definition no_better (is_cls : bool) (a b : num) : Prop :=
  PyNum.eq a b = true \/ improves is_cls b a = true.

(** Best-metric selection as the spec words it.  When no epoch strictly
    improves on the initial value, both best metrics keep their initial
    values.  Otherwise the best validation metric is the best one among the
    epochs that strictly improved on the initial value, and the best test
    metric is the test metric of the earliest epoch whose validation metric
    equals it. *)
Definition best_selection (is_cls : bool) (ms : list epoch_metrics)
    (best : num * num) : Prop :=
  let init := initial_best is_cls in
  ((forall m, In m ms -> improves is_cls (em_val_metric m) (fst init) = false) ->
   best = init) /\
  ((exists m, In m ms /\ improves is_cls (em_val_metric m) (fst init) = true) ->
   exists i m,
     ms !! i = Some m /\
     improves is_cls (em_val_metric m) (fst init) = true /\
     best = (em_val_metric m, em_test_metric m) /\
     (forall m', In m' ms ->
        improves is_cls (em_val_metric m') (fst init) = true ->
        no_better is_cls (em_val_metric m') (em_val_metric m)) /\
     (forall j m', (j < i)%nat -> ms !! j = Some m' ->
        PyNum.eq (em_val_metric m') (em_val_metric m) = false)).

(** The comparison of two positive finite floats given by exponent and
    mantissa. *)
Definition fcmp (e1 : Z) (m1 : positive) (e2 : Z) (m2 : positive) : comparison :=
  match Z.compare e1 e2 with
  | Lt => Lt
  | Gt => Gt
  | Eq => Pos.compare m1 m2
  end.

(** The numbers that the best metrics range over: a float, or the integer
    [0] that the accuracy starts from. *)
Definition is_metric (a : num) : Prop :=
  match a with
  | Float _ => True
  | Int n => n = 0
  end.

Definition metric_key (a : num) : float :=
  match a with
  | Float x => x
  | Int _ => PyFloat.zero
  end.

(** The comparison result that counts as an improvement. *)
Definition better_side (is_cls : bool) : comparison :=
  if is_cls then Gt else Lt.

(** The loop invariant of the epoch loop on the best metrics, after the
    epochs with metrics [ms]. *)
Definition best_invariant (is_cls : bool) (ms : list epoch_metrics)
    (best : num * num) : Prop :=
  let init := initial_best is_cls in
  (best = init /\
   forall m, In m ms -> improves is_cls (em_val_metric m) (fst init) = false) \/
  (exists i m,
     ms !! i = Some m /\
     improves is_cls (em_val_metric m) (fst init) = true /\
     best = (em_val_metric m, em_test_metric m) /\
     (forall m', In m' ms ->
        improves is_cls (em_val_metric m') (em_val_metric m) = false) /\
     (forall j m', (j < i)%nat -> ms !! j = Some m' ->
        PyNum.eq (em_val_metric m') (em_val_metric m) = false)).

(** ** The command line: [argparse] *)

Module Argparse.

Inductive arg_type : Type := type_str | type_int | type_float.

(** The values of a namespace. *)
Inductive pyval : Type :=
| PStr (s : string)
| PInt (n : Z)
| PFloat (x : float)
| PBool (b : bool).

#[global] Instance spec_float_eq_dec : EqDecision spec_float.
Proof. solve_decision. Defined.

#[global] Instance pyval_eq_dec : EqDecision pyval.
Proof. unfold float, PyFloat.float. solve_decision. Defined.

Inductive action : Type :=
| store (type : arg_type) (choices : option (list pyval))
| store_true
| help.

Record argument : Type := {
  option_strings : list string;
  dest : string;
  act : action;
  default : option pyval
}.

(** [argparse.ArgumentParser()]: a parser that knows [-h] and [--help]. *)
Definition ArgumentParser : list argument :=
  [ {| option_strings := ["-h"; "--help"]; dest := "help"; act := help;
       default := None |} ].

(** [parser.add_argument(flag, ...)] for a flag that starts with two dashes. *)
Definition add_argument (parser : list argument) (flag : string)
    (a : action) (d : pyval) : list argument :=
  parser ++ [ {| option_strings := [flag];
                 dest := String.substring 2 (String.length flag - 2) flag;
                 act := a; default := Some d |} ].

(** The nearest float to the decimal literal [n / d], for integers that
    floats represent exactly. *)
Definition float_literal (n d : Z) : float :=
  PyFloat.div (PyFloat.of_Z n) (PyFloat.of_Z d).

(** Lines 29 to 41. *)
Definition parser : list argument :=
  let p := ArgumentParser in
  let p := add_argument p "--dataset" (store type_str None)
             (PStr "california_house_price") in
  let p := add_argument p "--channels" (store type_int None) (PInt 256) in
  let p := add_argument p "--num_layers" (store type_int None) (PInt 4) in
  let p := add_argument p "--batch_size" (store type_int None) (PInt 512) in
  let p := add_argument p "--lr" (store type_float None)
             (PFloat (float_literal 1 10000)) in
  let p := add_argument p "--epochs" (store type_int None) (PInt 100) in
  let p := add_argument p "--seed" (store type_int None) (PInt 0) in
  let p := add_argument p "--model" (store type_str None)
             (PStr "sentence-transformers/all-distilroberta-v1") in
  let p := add_argument p "--pooling"
             (store type_str (Some [PStr "mean"; PStr "cls"])) (PStr "mean") in
  let p := add_argument p "--compile" store_true (PBool false) in
  p.

(** The arguments that the script adds: all but the built-in help. *)
Definition added_arguments : list argument :=
  List.filter (fun a => match act a with help => false | _ => true end) parser.

Definition is_digit (c : ascii) : bool :=
  let n := N_of_ascii c in ((48 <=? n) && (n <=? 57))%N.

Fixpoint all_digits (s : string) : bool :=
  match s with
  | EmptyString => true
  | String c s' => is_digit c && all_digits s'
  end.

(** The digits at the head of a string and what follows them. *)
Fixpoint span_digits (s : string) : string * string :=
  match s with
  | String c s' =>
      if is_digit c
      then let '(d, r) := span_digits s' in (String c d, r)
      else (EmptyString, s)
  | EmptyString => (EmptyString, EmptyString)
  end.

(** A string without its last character when that is a newline. *)
Fixpoint chomp (s : string) : string :=
  match s with
  | EmptyString => EmptyString
  | String c EmptyString => if Ascii.eqb c "010" then EmptyString else s
  | String c s' => String c (chomp s')
  end.

(** argparse's test for a negative number, the regular expression
    [^-\d+$|^-\d*\.\d+$] on a word of ASCII characters: a dash and digits,
    or a dash, digits, a dot and at least one digit; [$] also matches before
    a newline that ends the word. *)
Definition negative_number_like (s : string) : bool :=
  match chomp s with
  | String "-" rest =>
      let '(d, r) := span_digits rest in
      match r with
      | EmptyString => negb (String.eqb d EmptyString)
      | String "." frac =>
          negb (String.eqb frac EmptyString) && all_digits frac
      | _ => false
      end
  | _ => false
  end.

Fixpoint has_space (s : string) : bool :=
  match s with
  | EmptyString => false
  | String c s' => Ascii.eqb c " " || has_space s'
  end.

(** The part before the first [=] and the part after it, when there is
    one. *)
Fixpoint split_eq (s : string) : string * option string :=
  match s with
  | EmptyString => (EmptyString, None)
  | String c s' =>
      if Ascii.eqb c "="
      then (EmptyString, Some s')
      else let '(a, b) := split_eq s' in (String c a, b)
  end.

(** The argument with the option string [o], when there is one. *)
Definition find_option (p : list argument) (o : string) : option argument :=
  List.find (fun a => existsb (String.eqb o) (option_strings a)) p.

(** The arguments with an option string that starts with [prefix], once per
    such option string. *)
Definition abbreviations (p : list argument) (prefix : string) : list argument :=
  flat_map (fun a =>
    map (fun _ => a)
      (List.filter (fun o => String.prefix prefix o) (option_strings a))) p.

(** For a word with one dash: the arguments with the short option that the
    word starts with, the rest of the word being an explicit value, and the
    arguments with an option string that the word abbreviates. *)
Definition short_candidates (p : list argument) (w : string)
    : list (argument * option string) :=
  let short := String.substring 0 2 w in
  let rest := String.substring 2 (String.length w - 2) w in
  flat_map (fun a =>
    flat_map (fun o =>
      if String.eqb o short then [(a, Some rest)]
      else if String.prefix w o then [(a, None)]
      else []) (option_strings a)) p.

(** How argparse reads one word of the command line. *)
Inductive word_class : Type :=
| Positional
| Optional (a : argument) (explicit : option string)
| Unknown
| Ambiguous.

Definition classify (p : list argument) (w : string) : word_class :=
  match w with
  | String c0 (String c _) =>
      if negb (Ascii.eqb c0 "-") then Positional else
      match find_option p w with
      | Some a => Optional a None
      | None =>
          let '(name, explicit) := split_eq w in
          match explicit, find_option p name with
          | Some v, Some a => Optional a (Some v)
          | _, _ =>
              let candidates :=
                if Ascii.eqb c "-"
                then map (fun a => (a, explicit)) (abbreviations p name)
                else short_candidates p w in
              match candidates with
              | [(a, e)] => Optional a e
              | _ :: _ :: _ => Ambiguous
              | [] =>
                  if negative_number_like w then Positional
                  else if has_space w then Positional
                  else Unknown
              end
          end
      end
  | _ => Positional
  end.

Abbreviation namespace := (gmap string pyval).

Section Parse.

(** The built-in conversions [int(s)] and [float(s)] on a string; [None]
    when they raise ValueError. *)
Variable int_of_str : string -> option Z.
Variable float_of_str : string -> option float.

Definition convert (t : arg_type) (s : string) : option pyval :=
  match t with
  | type_str => Some (PStr s)
  | type_int => PInt <$> int_of_str s
  | type_float => PFloat <$> float_of_str s
  end.

(** The value that a [store] action keeps for the word [s]: the converted
    word, when it is one of the choices. *)
Definition get_value (t : arg_type) (choices : option (list pyval))
    (s : string) : option pyval :=
  match convert t s with
  | Some v =>
      match choices with
      | Some allowed => if bool_decide (v ∈ allowed) then Some v else None
      | None => Some v
      end
  | None => None
  end.

(** A string of one or more letters [h]. *)
Fixpoint only_h (s : string) : bool :=
  match s with
  | EmptyString => false
  | String c EmptyString => Ascii.eqb c "h"
  | String c s' => Ascii.eqb c "h" && only_h s'
  end.

(** The loop over the words.  A word that is no option and no value of one
    is remembered in [extras] and reported at the end.  Every error leaves
    with status 2, the help action with status 0.  The separator [--] makes
    itself and every word behind it such a word: the script has no
    positional argument to take them.  A value joined to an option that
    takes none is an error, but for the short flags joined in one word:
    [-hh] is [-h -h]. *)
Fixpoint consume (p : list argument) (words : list string) (ns : namespace)
    (extras : bool) : outcome namespace :=
  match words with
  | [] => if extras then Raise (SystemExit 2) else Ok ns
  | w :: rest =>
      if String.eqb w "--" then Raise (SystemExit 2) else
      match classify p w with
      | Positional | Unknown => consume p rest ns true
      | Ambiguous => Raise (SystemExit 2)
      | Optional a explicit =>
          match act a, explicit with
          | help, None => Raise (SystemExit 0)
          | help, Some s =>
              if negb (String.prefix "--" w) && only_h s
              then Raise (SystemExit 0)
              else Raise (SystemExit 2)
          | store_true, None => consume p rest (<[dest a := PBool true]> ns) extras
          | store t choices, Some s =>
              match get_value t choices s with
              | Some v => consume p rest (<[dest a := v]> ns) extras
              | None => Raise (SystemExit 2)
              end
          | store t choices, None =>
              match rest with
              | s :: rest' =>
                  match classify p s with
                  | Positional =>
                      if String.eqb s "--" then Raise (SystemExit 2) else
                      match get_value t choices s with
                      | Some v => consume p rest' (<[dest a := v]> ns) extras
                      | None => Raise (SystemExit 2)
                      end
                  | _ => Raise (SystemExit 2)
                  end
              | [] => Raise (SystemExit 2)
              end
          | _, Some _ => Raise (SystemExit 2)
          end
      end
  end.

(** The namespace of the defaults. *)
Definition defaults (p : list argument) : namespace :=
  foldr (fun a ns =>
    match default a with
    | Some d => <[dest a := d]> ns
    | None => ns
    end) ∅ p.

(** The words before the separator [--]. *)
Fixpoint before_separator (words : list string) : list string :=
  match words with
  | [] => []
  | w :: rest => if String.eqb w "--" then [] else w :: before_separator rest
  end.

(** An abbreviation that fits several options is an error before any action
    runs; the words from the separator [--] on are not read as options. *)
Definition any_ambiguous (p : list argument) (words : list string) : bool :=
  existsb (fun w => match classify p w with Ambiguous => true | _ => false end)
    (before_separator words).

(** [parser.parse_args()] on the words of the command line. *)
Definition parse_args (words : list string) : outcome namespace :=
  if any_ambiguous parser words then Raise (SystemExit 2)
  else consume parser words (defaults parser) false.

End Parse.

Definition get_str (ns : namespace) (k : string) : outcome string :=
  match ns !! k with Some (PStr s) => Ok s | _ => Raise TypeError end.
Definition get_int (ns : namespace) (k : string) : outcome Z :=
  match ns !! k with Some (PInt n) => Ok n | _ => Raise TypeError end.
Definition get_float (ns : namespace) (k : string) : outcome float :=
  match ns !! k with Some (PFloat x) => Ok x | _ => Raise TypeError end.
Definition get_bool (ns : namespace) (k : string) : outcome bool :=
  match ns !! k with Some (PBool b) => Ok b | _ => Raise TypeError end.

(** The attributes that the script reads off [args]. *)
Definition to_args (ns : namespace) : outcome Args :=
  outcome_bind (get_str ns "dataset") (fun dataset =>
  outcome_bind (get_int ns "channels") (fun channels =>
  outcome_bind (get_int ns "num_layers") (fun num_layers =>
  outcome_bind (get_int ns "batch_size") (fun batch_size =>
  outcome_bind (get_float ns "lr") (fun lr =>
  outcome_bind (get_int ns "epochs") (fun epochs =>
  outcome_bind (get_int ns "seed") (fun seed =>
  outcome_bind (get_str ns "model") (fun model =>
  outcome_bind (get_str ns "pooling") (fun pooling =>
  outcome_bind (get_bool ns "compile") (fun compile =>
  Ok {| arg_dataset := dataset; arg_channels := channels;
        arg_num_layers := num_layers; arg_batch_size := batch_size;
        arg_lr := lr; arg_epochs := epochs; arg_seed := seed;
        arg_model := model; arg_pooling := pooling;
        arg_compile := compile |})))))))))).

(** The namespace when the command line is empty. *)
Definition default_args : Args :=
  {| arg_dataset := "california_house_price"; arg_channels := 256;
     arg_num_layers := 4; arg_batch_size := 512;
     arg_lr := float_literal 1 10000; arg_epochs := 100; arg_seed := 0;
     arg_model := "sentence-transformers/all-distilroberta-v1";
     arg_pooling := "mean"; arg_compile := false |}.


End Argparse.

(** ** The script before the epoch loop *)

(** [d.pop(k)]: the value under [k] and the dict without [k]; KeyError when
    [k] is missing. *)
Definition dict_pop {V} (d : gmap stype V) (k : stype)
    : outcome (V * gmap stype V) :=
  match d !! k with
  | Some v => Ok (v, delete k d)
  | None => Raise (KeyError (stype_name k))
  end.

(** Lines 87 and 88: the entry under [stype.text_embedded] moves to
    [stype.embedding], first in [col_names_dict], then in [feat_dict]. *)
Definition rename_text_embedded (tf : TensorFrame) : outcome TensorFrame :=
  outcome_bind (dict_pop (col_names_dict tf) text_embedded) (fun popped =>
  let tf1 := {| feat_dict := feat_dict tf;
                col_names_dict := <[embedding := fst popped]> (snd popped);
                labels := labels tf |} in
  outcome_bind (dict_pop (feat_dict tf1) text_embedded) (fun popped' =>
  Ok {| feat_dict := <[embedding := fst popped']> (snd popped');
        col_names_dict := col_names_dict tf1;
        labels := labels tf1 |})).

(** Lines 103 to 109: the dict display, entry by entry in source order. *)
Definition stype_encoder_dict : gmap stype StypeEncoder :=
  let d := ∅ in
  let d := <[categorical :=
             {| enc_class := EmbeddingEncoder; na_strategy := None |}]> d in
  let d := <[numerical :=
             {| enc_class := LinearEncoder; na_strategy := None |}]> d in
  let d := <[embedding :=
             {| enc_class := LinearEmbeddingEncoder; na_strategy := None |}]> d in
  let d := <[multicategorical :=
             {| enc_class := MultiCategoricalEmbeddingEncoder;
                na_strategy := None |}]> d in
  let d := <[timestamp :=
             {| enc_class := TimestampEncoder;
                na_strategy := Some MEDIAN_TIMESTAMP |}]> d in
  d.

(** [posixpath.join] of two components. *)
Definition join2 (a b : string) : string :=
  if String.prefix "/" b then b
  else if String.eqb a "" then b
  else if String.eqb (String.substring (String.length a - 1) 1 a) "/"
       then (a ++ b)%string
       else (a ++ "/" ++ b)%string.

(** [osp.join(a, *parts)] *)
Definition osp_join (a : string) (parts : list string) : string :=
  fold_left join2 parts a.

(** [s.replace('/', '')] *)
Fixpoint remove_slashes (s : string) : string :=
  match s with
  | EmptyString => EmptyString
  | String c s' =>
      if Ascii.eqb c "/" then remove_slashes s' else String c (remove_slashes s')
  end.

Section ScriptBody.

Variable W : Type.
Variable handle : forall A : Type, ext A -> W -> outcome A * W.
Variable is_grad_enabled : W -> bool.
Variable set_grad_enabled : bool -> W -> W.
Variable int_of_str : string -> option Z.
Variable float_of_str : string -> option float.

#[local] Abbreviation call := (call handle).

(** [SimpleTextToEmbedding.__init__] *)
Definition SimpleTextToEmbedding_init (name : string) (d : device)
    : M W SimpleTextToEmbedding :=
  tok <- call (TokenizerFromPretrained name) ;;
  net <- call (ModelFromPretrained name) ;;
  call (ModuleTo net d) ;;;
  ret {| tokenizer := tok; model := net; emb_device := d |}.

(** The loop over the keys of [inputs]: a tensor is moved to the device and
    stored back under its key. *)
Definition move_input (d : device) (entry : string * value)
    (inputs : list (string * value)) : M W (list (string * value)) :=
  match snd entry with
  | VTensor t => call (TensorTo t d) ;;; ret inputs
  | VOther _ => ret inputs
  end.

(** [SimpleTextToEmbedding.__call__]: the tokenizer runs with
    [truncation=True], [padding="max_length"] and [return_tensors="pt"]. *)
Definition SimpleTextToEmbedding_call (self : SimpleTextToEmbedding)
    (sentences : list string) : M W Tensor :=
  inputs <- call (Tokenize (tokenizer self) sentences) ;;
  inputs <- for_each inputs (move_input (emb_device self)) inputs ;;
  out <- call (TextModelCall (model self) inputs) ;;
  first <- lift (Torch.select_first (last_hidden_state out)) ;;
  call (Detach first) ;;;
  call (TensorTo first Cpu) ;;;
  ret first.

(** The text embedder that the script builds from the command line. *)
Definition text_encoder (args : Args) (d : device) : M W SimpleTextToEmbedding :=
  SimpleTextToEmbedding_init (arg_model args) d.

(** Lines 44 to 125, after the command line is parsed: everything up to the
    optimizer.  It gives the names that the rest of the script reads. *)
Definition setup (args : Args) : M W globals :=
  call (ManualSeed (arg_seed args)) ;;;
  cuda <- call CudaIsAvailable ;;
  let dev := if cuda then Cuda else Cpu in
  encoder <- text_encoder args dev ;;
  let cfg := {| text_embedder := encoder; cfg_batch_size := 5 |} in
  dir <- call ScriptDir ;;
  let path := osp_join dir [".."; ".."; "data"; arg_dataset args] in
  raw <- call (MultimodalTextBenchmark path (arg_dataset args) 5000
                 text_embedded cfg) ;;
  let model_name := remove_slashes (arg_model args) in
  let filename := (model_name ++ "_data.pt")%string in
  dataset <- call (Materialize raw (osp_join path [filename])) ;;
  tf <- lift (rename_text_embedded (tensor_frame dataset)) ;;
  let dataset := {| ds_ref := ds_ref dataset; tensor_frame := tf;
                    is_classification := is_classification dataset;
                    num_classes := num_classes dataset;
                    col_stats := col_stats dataset |} in
  let is_cls := is_classification dataset in
  train_dataset <- call (Slice dataset None (Some (Argparse.float_literal 4 5))) ;;
  val_dataset <- call (Slice dataset (Some (Argparse.float_literal 4 5))
                         (Some (Argparse.float_literal 9 10))) ;;
  test_dataset <- call (Slice dataset (Some (Argparse.float_literal 9 10)) None) ;;
  let train_tensor_frame := tensor_frame train_dataset in
  let val_tensor_frame := tensor_frame val_dataset in
  let test_tensor_frame := tensor_frame test_dataset in
  train_loader <- call (DataLoader train_tensor_frame (arg_batch_size args) true) ;;
  val_loader <- call (DataLoader val_tensor_frame (arg_batch_size args) false) ;;
  test_loader <- call (DataLoader test_tensor_frame (arg_batch_size args) false) ;;
  let output_channels := if is_cls then num_classes dataset else 1 in
  net <- call (FTTransformer (arg_channels args) output_channels
                 (arg_num_layers args) (col_stats dataset)
                 (col_names_dict train_tensor_frame) stype_encoder_dict) ;;
  call (ModuleTo net dev) ;;;
  net <- (if arg_compile args then call (TorchCompile net) else ret net) ;;
  optimizer <- call (AdamW net (arg_lr args)) ;;
  ret {| g_device := dev; g_is_classification := is_cls;
         g_model := net; g_optimizer := optimizer;
         g_train_loader := train_loader; g_val_loader := val_loader;
         g_test_loader := test_loader |}.

(** The whole script on the words of the command line. *)
Definition script (argv : list string) : M W unit :=
  ns <- lift (Argparse.parse_args int_of_str float_of_str argv) ;;
  args <- lift (Argparse.to_args ns) ;;
  g <- setup args ;;
  epoch_loop W handle is_grad_enabled set_grad_enabled g (arg_epochs args).

End ScriptBody.

(** ** [torch_frame/nn/encoder/__init__.py] *)

Module EncoderInit.

(** What a name of the package can be bound to: a name imported from a
    submodule, a submodule, a list object on the heap, or a function or
    class that the module defines itself. *)
Inductive binding : Type :=
| Imported (submodule name : string)
| Submodule (name : string)
| ListObject (address : nat)
| OwnFunction (name : string)
| OwnClass (name : string).

(** The state of the module while its body runs: the names that the body
    has bound so far, on top of the attributes that every module starts
    with, and the list objects created so far. *)
Record module_state : Type := {
  names : gmap string binding;
  heap : list (list string)
}.

Definition empty_module : module_state := {| names := ∅; heap := [] |}.

(** [from .submodule import n1, n2, ...]: the import system loads the
    submodule and binds it under its name in the package, then the
    statement binds the imported names. *)
Definition import_from (submodule : string) (imported : list string)
    (st : module_state) : module_state :=
  {| names := foldl (fun ns n => <[n := Imported submodule n]> ns)
                (<[submodule := Submodule submodule]> (names st)) imported;
     heap := heap st |}.

(** [t1 = t2 = ... = [s1, s2, ...]]: the list display is evaluated once and
    every target is bound to that one object. *)
Definition assign_list (targets : list string) (items : list string)
    (st : module_state) : module_state :=
  let address := length (heap st) in
  {| names := foldl (fun ns t => <[t := ListObject address]> ns) (names st) targets;
     heap := heap st ++ [items] |}.

(** The body of the module, statement by statement. *)
Definition module_body : module_state :=
  let st := empty_module in
  let st := import_from "encoder" ["FeatureEncoder"] st in
  let st := import_from "stypewise_encoder" ["StypeWiseFeatureEncoder"] st in
  let st := import_from "stype_encoder"
              ["StypeEncoder"; "EmbeddingEncoder"; "LinearEncoder";
               "PiecewiseLinearEncoder"] st in
  let st := assign_list ["__all__"; "classes"]
              ["FeatureEncoder"; "StypeWiseFeatureEncoder"; "StypeEncoder";
               "EmbeddingEncoder"; "LinearEncoder"; "PiecewiseLinearEncoder"] st in
  st.

(** The list that a name is bound to. *)
Definition list_of (st : module_state) (name : string) : option (list string) :=
  match names st !! name with
  | Some (ListObject a) => heap st !! a
  | _ => None
  end.

Definition is_import (b : binding) : bool :=
  match b with Imported _ _ => true | _ => false end.

Definition is_own_definition (b : binding) : bool :=
  match b with OwnFunction _ | OwnClass _ => true | _ => false end.

(** The three submodules that the body imports from. *)
Definition submodules : list string :=
  ["encoder"; "stypewise_encoder"; "stype_encoder"].

(** The six names of the re-export list. *)
Definition exported : list string :=
  ["FeatureEncoder"; "StypeWiseFeatureEncoder"; "StypeEncoder";
   "EmbeddingEncoder"; "LinearEncoder"; "PiecewiseLinearEncoder"].

End EncoderInit.

(** ** Notions for the statements on runs *)

(** The encoder dict of a call that builds the network. *)
Definition encoder_dict_of (ev : event) : option (gmap stype StypeEncoder) :=
  match ev with
  | Called (FTTransformer _ _ _ _ _ d) _ => Some d
  | Called _ _ => None
  end.

Definition returned (ev : event) : Prop := raised ev = None.

(** The calls [evs] of a run with outcome [r] show no handling of
    exceptions: either every call returned, or every call but the last one
    returned, the last one raised [e], and the run ends with [e] itself. *)
Definition unhandled {A} (evs : list event) (r : outcome A) : Prop :=
  Forall returned evs \/
  exists evs0 ev e,
    evs = evs0 ++ [ev] /\ Forall returned evs0 /\
    raised ev = Some e /\ r = Raise e.

(** A computation of the script in which exceptions propagate. *)
Definition propagates {W A} (m : M W A) : Prop :=
  forall s r s', m s = (r, s') ->
    exists evs, trace s' = trace s ++ evs /\ unhandled evs r.

(** The command line with another value of [--pooling]. *)
Definition with_pooling (p : string) (a : Args) : Args :=
  {| arg_dataset := arg_dataset a; arg_channels := arg_channels a;
     arg_num_layers := arg_num_layers a; arg_batch_size := arg_batch_size a;
     arg_lr := arg_lr a; arg_epochs := arg_epochs a; arg_seed := arg_seed a;
     arg_model := arg_model a; arg_pooling := p;
     arg_compile := arg_compile a |}.

(** The entry [(b, t, d)] of a tensor of shape [[B; T; D]] and the entry
    [(b, d)] of a tensor of shape [[B; D]], in row-major order. *)
Definition entry3 (T D : nat) (data : list float) (b t d : nat) : option float :=
  data !! (b * (T * D) + t * D + d)%nat.

Definition entry2 (D : nat) (data : list float) (b d : nat) : option float :=
  data !! (b * D + d)%nat.

(** ** A small framework to run the script on *)

Module Demo.

(** The framework state counts the calls. *)
Definition W : Type := nat.

Record config : Type := {
  classification : bool;
  sum_squared_error : float
}.

Definition half : float := Argparse.float_literal 1 2.

Definition frame (cfg : config) : TensorFrame :=
  {| feat_dict :=
       <[text_embedded := FloatTensor [2; 2]
                            [PyFloat.one; PyFloat.zero; half; half]]>
         (<[numerical := FloatTensor [2; 1] [PyFloat.one; half]]> ∅);
     col_names_dict :=
       <[text_embedded := ["Summary"]]> (<[numerical := ["Bedrooms"]]> ∅);
     labels := if classification cfg
               then ClassLabels [1; 0]
               else Targets [PyFloat.one; PyFloat.of_Z 2] |}.

Definition dataset (cfg : config) : Dataset :=
  {| ds_ref := 3%N; tensor_frame := frame cfg;
     is_classification := classification cfg;
     num_classes := 2; col_stats := 4%N |}.

Definition answer (cfg : config) (A : Type) (c : ext A) : outcome A :=
  match c in ext T return outcome T with
  | ManualSeed _ => Ok tt
  | CudaIsAvailable => Ok false
  | TokenizerFromPretrained _ => Ok 1%N
  | ModelFromPretrained _ => Ok 2%N
  | ModuleTo _ _ => Ok tt
  | ScriptDir => Ok "/repo/examples/tutorials"
  | MultimodalTextBenchmark _ _ _ _ _ => Ok 3%N
  | Materialize _ _ => Ok (dataset cfg)
  | Slice ds _ _ => Ok ds
  | DataLoader _ _ shuffle => Ok (if shuffle then 5%N else 6%N)
  | FTTransformer _ _ _ _ _ _ => Ok 7%N
  | TorchCompile _ => Ok 8%N
  | AdamW _ _ => Ok 9%N
  | ModelTrain _ => Ok tt
  | ModelEval _ => Ok tt
  | Iterate _ _ => Ok [frame cfg]
  | FrameTo _ _ => Ok tt
  | Forward _ _ => Ok (FloatTensor [2; 2] [half; PyFloat.one; PyFloat.zero; half])
  | CrossEntropy _ _ => Ok (FloatTensor [] [half])
  | MseLoss _ _ Mean => Ok (FloatTensor [] [half])
  | MseLoss _ _ Sum => Ok (FloatTensor [] [sum_squared_error cfg])
  | Argmax _ => Ok (LongTensor [2] [1; 1])
  | ZeroGrad _ => Ok tt
  | Backward _ => Ok tt
  | Step _ => Ok tt
  | Tokenize _ _ => Ok [("input_ids", VTensor (LongTensor [1; 2] [0; 2]));
                        ("length", VOther 10%N)]
  | TensorTo _ _ => Ok tt
  | TextModelCall _ _ =>
      Ok {| last_hidden_state :=
              FloatTensor [1; 2; 2] [half; PyFloat.one; PyFloat.zero; half] |}
  | Detach _ => Ok tt
  | LibmPow x =>
      match PyFloat.sqrt x with
      | S754_finite false m e =>
          Ok {| PyNum.pow_mantissa := m; PyNum.pow_exponent := e |}
      | _ => Raise ValueError
      end
  end.

Definition handle (cfg : config) (A : Type) (c : ext A) (w : W) : outcome A * W :=
  (answer cfg A c, S w).

Definition is_grad_enabled (w : W) : bool := true.
Definition set_grad_enabled (b : bool) (w : W) : W := w.

(** The conversions of the command line, on the few words the examples
    use. *)
Definition int_of_str (s : string) : option Z :=
  if String.eqb s "0" then Some 0
  else if String.eqb s "1" then Some 1
  else if String.eqb s "2" then Some 2
  else None.

Definition float_of_str (s : string) : option float :=
  if String.eqb s "0.5" then Some half else None.

Definition start : state W := {| world := O; trace := []; stdout := [] |}.

Definition regression : config :=
  {| classification := false; sum_squared_error := PyFloat.of_Z 2 |}.

Definition classifier : config :=
  {| classification := true; sum_squared_error := PyFloat.zero |}.

(** A model that has diverged: the sum of squared errors is not a number. *)
Definition diverged : config :=
  {| classification := false; sum_squared_error := PyFloat.nan |}.

Definition globals_of (cfg : config) : globals :=
  {| g_device := Cpu; g_is_classification := classification cfg;
     g_model := 7%N; g_optimizer := 9%N;
     g_train_loader := 5%N; g_val_loader := 6%N; g_test_loader := 6%N |}.

Definition run (cfg : config) (argv : list string) : outcome unit * state W :=
  script W (handle cfg) is_grad_enabled set_grad_enabled
    int_of_str float_of_str argv start.

End Demo.

(** A value printed with four decimal places, as the spec words it: the
    fixed-point rendering of the float, or of the float of the integer that
    the best accuracy starts from. *)
Definition four_decimals (a : num) : string :=
  PyFormat.float_4f (metric_key a).

(** The line of an epoch and the last line, as the spec words them. *)
Definition printed_epoch (label : string) (m : epoch_metrics) : string :=
  ("Train Loss: " ++ four_decimals (em_train_loss m)
   ++ ", Train " ++ label ++ ": " ++ four_decimals (em_train_metric m)
   ++ ", Val " ++ label ++ ": " ++ four_decimals (em_val_metric m)
   ++ ", Test " ++ label ++ ": " ++ four_decimals (em_test_metric m))%string.

Definition printed_best (label : string) (best : num * num) : string :=
  ("Best Val " ++ label ++ ": " ++ four_decimals (fst best)
   ++ ", Best Test " ++ label ++ ": " ++ four_decimals (snd best))%string.

(** A string of the form sign, digits, point, four digits. *)
Definition has_four_decimals (s : string) : Prop :=
  exists sign whole frac,
    s = (sign ++ whole ++ "." ++ frac)%string /\
    (sign = "" \/ sign = "-")%string /\
    whole <> ""%string /\ Argparse.all_digits whole = true /\
    String.length frac = 4%nat /\ Argparse.all_digits frac = true.

(** A string with a decimal point in it. *)
Fixpoint has_point (s : string) : bool :=
  match s with
  | EmptyString => false
  | String c s' => Ascii.eqb c "." || has_point s'
  end.

(** ** Frameworks at the bounds of [test] *)

Module Probe.

(** These frameworks have no state. *)
Definition W : Type := unit.

Definition is_grad_enabled (w : W) : bool := true.
Definition set_grad_enabled (b : bool) (w : W) : W := w.

Definition start : state W := {| world := tt; trace := []; stdout := [] |}.

(** The globals of a classification run and of a regression run. *)
Definition g : globals := Demo.globals_of Demo.classifier.
Definition g_regression : globals := Demo.globals_of Demo.regression.

(** A frame of class labels without columns. *)
Definition class_frame (l : list Z) : TensorFrame :=
  {| feat_dict := ∅; col_names_dict := ∅; labels := ClassLabels l |}.

(** A framework whose network is right on every sample: the loaders give
    the batches [batches], the network gives the labels of the batch for its
    output, and [argmax] leaves them as they are. *)
Definition exact (batches : list TensorFrame) (A : Type) (c : ext A) (w : W)
    : outcome A * W :=
  match c in ext T return outcome T * W with
  | Iterate _ _ => (Ok batches, w)
  | Forward _ tf => (Ok (y tf), w)
  | Argmax t => (Ok t, w)
  | c' => (Demo.answer Demo.classifier _ c', w)
  end.

(** What [test] sees of a batch with the labels [l] in this framework:
    every row counts. *)
Definition exact_batch (l : list Z) : test_batch :=
  {| eb_frame := class_frame l;
     eb_pred := y (class_frame l);
     eb_aux := y (class_frame l);
     eb_score := PyFloat.of_Z (Z.of_nat (length l)) |}.

(** [2^53] samples of the class 0. *)
Definition many : list Z := repeat 0 (Z.to_nat (2 ^ 53)).

(** A framework whose network gives scores of the shape [[B; 1; C]]: the
    classes of greatest score along the last dimension have the shape
    [[B; 1]].  Its loaders give one batch of two samples of the class 1. *)
Definition column (A : Type) (c : ext A) (w : W) : outcome A * W :=
  match c in ext T return outcome T * W with
  | Iterate _ _ => (Ok [class_frame [1; 1]], w)
  | Forward _ _ =>
      (Ok (FloatTensor [2; 1; 2]
             [PyFloat.zero; PyFloat.one; PyFloat.zero; PyFloat.one]), w)
  | Argmax _ => (Ok (LongTensor [2; 1] [1; 1]), w)
  | c' => (Demo.answer Demo.classifier _ c', w)
  end.

(** The float32 number 15.261621475219727 and its double. *)
Definition mean_square : float := S754_finite false 8591529098608640 (-49).
Definition twice_mean_square : float := S754_finite false 8591529098608640 (-48).

(** A regression run whose two samples have the squared errors
    [twice_mean_square] in sum, on a platform whose C library gives
    [pow(15.261621475219727, 0.5) = 3.906612532005155], as glibc does. *)
Definition glibc (A : Type) (c : ext A) (w : W) : outcome A * W :=
  match c in ext T return outcome T * W with
  | MseLoss _ _ Sum => (Ok (FloatTensor [] [twice_mean_square]), w)
  | LibmPow _ =>
      (Ok {| PyNum.pow_mantissa := 8796909371709663;
             PyNum.pow_exponent := -51 |}, w)
  | c' => (Demo.answer Demo.regression _ c', w)
  end.

End Probe.

(** ** Notions for binary64 arithmetic *)

(** The end of [binary_round_aux]: a rounded mantissa of 53 digits with an exponent in
    range is the result. *)
Definition round_tail (s : bool) (m e : Z) : spec_float :=
  let '(mrs, e') := shr_fexp PyFloat.prec PyFloat.emax m e loc_Exact in
  match shr_m mrs with
  | Z0 => S754_zero s
  | Zpos p => if e' <=? PyFloat.emax - PyFloat.prec then S754_finite s p e' else S754_infinity s
  | Zneg _ => S754_nan
  end.

(** The float of a positive integer below [2^53]: the integer itself, its
    mantissa shifted to 53 digits. *)
Definition normal (v : Z) : spec_float :=
  let d := Zdigits2 v in
  S754_finite false (Z.to_pos (v * 2 ^ (53 - d))) (d - 53).

(** A float in the interval from zero to one, both included: a positive
    finite float whose exponent is below [-52], or one itself. *)
Definition unit_float (x : spec_float) : Prop :=
  exists p e, x = S754_finite false p e /\
              (e < -52 \/ (e = -52 /\ p = 4503599627370496%positive)).

(** A float with sign [s] that is no NaN. *)
Definition signed (s : bool) (x : spec_float) : Prop :=
  match x with
  | S754_zero s' | S754_infinity s' | S754_finite s' _ _ => s' = s
  | S754_nan => False
  end.

(** ** Notions for the statements on every run *)

(** A monitor reads the calls of a run one after the other, from a state
    [q], and stops at the first call that it forbids. *)
Fixpoint scan {Q} (step : Q -> event -> option Q) (q : Q) (evs : list event)
    : option Q :=
  match evs with
  | [] => Some q
  | ev :: evs' =>
      match step q ev with
      | Some q' => scan step q' evs'
      | None => None
      end
  end.

(** A computation whose calls the monitor [step] allows from the state
    [pre], and that leaves the monitor in the state [post] when it
    returns. *)
Definition tracks {W A Q} (step : Q -> event -> option Q) (m : M W A)
    (pre post : Q) : Prop :=
  forall s r s', m s = (r, s') ->
    exists evs q,
      trace s' = trace s ++ evs /\ scan step pre evs = Some q /\
      (forall a, r = Ok a -> q = post).

(** A computation whose calls the monitor allows from every state. *)
Definition safe {W A Q} (step : Q -> event -> option Q) (m : M W A) : Prop :=
  forall q s r s', m s = (r, s') ->
    exists evs q', trace s' = trace s ++ evs /\ scan step q evs = Some q'.

(** The mode of the network: [model.train()] or [model.eval()] was called
    last. *)
Inductive mode : Type := Training | Evaluation.

(** The monitor of the mode: [zero_grad], [backward], [step] and the
    training losses are allowed in training mode only; [argmax] and the
    summed squared error in evaluation mode only.  A call that raises ends
    the run, so the mode is switched without a look at the outcome. *)
Definition mode_step (q : option mode) (ev : event) : option (option mode) :=
  match ev with
  | Called (ModelTrain _) _ => Some (Some Training)
  | Called (ModelEval _) _ => Some (Some Evaluation)
  | Called (ZeroGrad _) _ | Called (Backward _) _ | Called (Step _) _
  | Called (CrossEntropy _ _) _ | Called (MseLoss _ _ Mean) _ =>
      match q with Some Training => Some q | _ => None end
  | Called (Argmax _) _ | Called (MseLoss _ _ Sum) _ =>
      match q with Some Evaluation => Some q | _ => None end
  | Called _ _ => Some q
  end.

(** The calls that change what the network has learnt or how it is run:
    the optimizer calls and [model.train()]. *)
Definition changes_training (ev : event) : bool :=
  match ev with
  | Called (ModelTrain _) _ => true
  | Called _ _ => is_optimizer_call ev
  end.

(** The monitor that forbids the calls [bad]. *)
Definition forbid (bad : event -> bool) (q : unit) (ev : event) : option unit :=
  if bad ev then None else Some tt.

(** Two computations that run alike from every state in which the gradient
    mode is off, and leave it off. *)
Definition agree_off {W A} (is_grad_enabled : W -> bool) (m m' : M W A) : Prop :=
  forall s, is_grad_enabled (world s) = false ->
    m s = m' s /\ is_grad_enabled (world (snd (m s))) = false.

(** ** Projections of the calls of the set-up *)

(** The seed of the first call of a list of calls. *)
Definition first_seed (evs : list event) : option Z :=
  match evs with
  | Called (ManualSeed n) _ :: _ => Some n
  | _ => None
  end.

(** The network that a call to [torch.compile] got, and the one it gave. *)
Definition compiled (ev : event) : option (obj * obj) :=
  match ev with
  | Called (TorchCompile m) (Ok m') => Some (m, m')
  | Called _ _ => None
  end.

(** The network that [FTTransformer] built, with its output channels. *)
Definition built (ev : event) : option (Z * obj) :=
  match ev with
  | Called (FTTransformer _ out _ _ _ _) (Ok m) => Some (out, m)
  | Called _ _ => None
  end.

(** The network and the learning rate of an optimizer, and the optimizer. *)
Definition optimized (ev : event) : option (obj * float * obj) :=
  match ev with
  | Called (AdamW m lr) (Ok opt) => Some (m, lr, opt)
  | Called _ _ => None
  end.

(** The device that a network or a batch is moved to. *)
Definition moved_to (ev : event) : option device :=
  match ev with
  | Called (ModuleTo _ d) _ => Some d
  | Called (FrameTo _ d) _ => Some d
  | Called _ _ => None
  end.

(** The reply of [torch.cuda.is_available()]. *)
Definition cuda_reply (ev : event) : option bool :=
  match ev with
  | Called CudaIsAvailable (Ok b) => Some b
  | Called _ _ => None
  end.

(** The directory of the script, as the file system gave it. *)
Definition script_dir_reply (ev : event) : option string :=
  match ev with
  | Called ScriptDir (Ok dir) => Some dir
  | Called _ _ => None
  end.

(** The materialized dataset, with the root directory of the benchmark and
    the path of the cache file. *)
Definition dataset_root (ev : event) : option string :=
  match ev with
  | Called (MultimodalTextBenchmark root _ _ _ _) _ => Some root
  | Called _ _ => None
  end.

Definition materialize_path (ev : event) : option string :=
  match ev with
  | Called (Materialize _ path) _ => Some path
  | Called _ _ => None
  end.

Definition materialized (ev : event) : option Dataset :=
  match ev with
  | Called (Materialize _ _) (Ok ds) => Some ds
  | Called _ _ => None
  end.

(** The dataset that a slice is taken of, with the bounds. *)
Definition sliced (ev : event) : option (Dataset * option float * option float) :=
  match ev with
  | Called (Slice ds lo hi) _ => Some (ds, lo, hi)
  | Called _ _ => None
  end.

(** The slice that came back. *)
Definition slice_reply (ev : event) : option Dataset :=
  match ev with
  | Called (Slice _ _ _) (Ok ds) => Some ds
  | Called _ _ => None
  end.

(** The frame, the batch size and the shuffle flag of a loader, and the
    loader. *)
Definition loaded (ev : event) : option (TensorFrame * Z * bool * obj) :=
  match ev with
  | Called (DataLoader tf n shuffle) (Ok l) => Some (tf, n, shuffle, l)
  | Called _ _ => None
  end.

(** A string with a slash in it. *)
Fixpoint has_slash (s : string) : bool :=
  match s with
  | EmptyString => false
  | String c s' => Ascii.eqb c "/" || has_slash s'
  end.

(** The tensors among the values of a tokenizer output, in key order. *)
Definition tensor_inputs (inputs : list (string * value)) : list Tensor :=
  omap (fun entry => match snd entry with
                     | VTensor t => Some t
                     | VOther _ => None
                     end) inputs.

(** The strings that a string starts with, the string itself left out. *)
Fixpoint proper_prefixes (s : string) : list string :=
  match s with
  | EmptyString => []
  | String c s' => EmptyString :: map (String c) (proper_prefixes s')
  end.

(** ** Notions for the best metrics *)

(** The pair [(best_val_metric, best_test_metric)] after the epochs with
    the metrics [ms]. *)
Definition best_after (is_cls : bool) (ms : list epoch_metrics) : num * num :=
  fold_left (fun b m =>
    update_best is_cls (em_val_metric m) (em_test_metric m) b)
    ms (initial_best is_cls).

(** The last line of a run in which no epoch improved on the initial best
    metrics. *)
Definition initial_line (is_cls : bool) : string :=
  if is_cls then "Best Val Acc: 0.0000, Best Test Acc: 0.0000"
  else "Best Val RMSE: inf, Best Test RMSE: inf".

(** The loader and the progress-bar label of an iteration. *)
Definition iterated (ev : event) : option (obj * option string) :=
  match ev with
  | Called (Iterate loader desc) _ => Some (loader, desc)
  | Called _ _ => None
  end.

(** The iterations of one epoch: the training loader under a progress bar,
    then the training, validation and test loaders for the metrics. *)
Definition epoch_iterations (g : globals) (epoch : Z)
    : list (obj * option string) :=
  [ (g_train_loader g, Some ("Epoch: " ++ PyFormat.str_int epoch)%string);
    (g_train_loader g, None);
    (g_val_loader g, None);
    (g_test_loader g, None) ].

(** ** Projections of the calls of [test] *)






(** ** Notions for the command line *)

(** The Python type of the value that an action stores under its name. *)
Definition has_type (a : Argparse.action) (v : Argparse.pyval) : bool :=
  match a, v with
  | Argparse.store Argparse.type_str _, Argparse.PStr _
  | Argparse.store Argparse.type_int _, Argparse.PInt _
  | Argparse.store Argparse.type_float _, Argparse.PFloat _
  | Argparse.store_true, Argparse.PBool _ => true
  | _, _ => false
  end.

(** A namespace with a value of the right type for every argument that the
    script adds. *)
Definition well_typed (ns : Argparse.namespace) : Prop :=
  forall a, In a Argparse.added_arguments ->
    exists v, ns !! Argparse.dest a = Some v /\ has_type (Argparse.act a) v = true.

(** The check of an abbreviation [p] of an option string of [a]: too short,
    the ambiguous [--c], or read as the option [a] with no value. *)
Definition abbreviation_ok (a : Argparse.argument) (p : string) : bool :=
  (String.length p <? 3)%nat || String.eqb p "--c" ||
  match Argparse.classify Argparse.parser p with
  | Argparse.Optional a' None => String.eqb (Argparse.dest a') (Argparse.dest a)
  | _ => false
  end.

(** ** A framework with a gradient mode *)

Module Lab.

(** The framework state is the gradient mode. *)
Definition W : Type := bool.

Definition is_grad_enabled (w : W) : bool := w.
Definition set_grad_enabled (b : bool) (w : W) : W := b.

(** The framework of [Demo], which leaves the gradient mode alone. *)
Definition handle (cfg : Demo.config) (A : Type) (c : ext A) (w : W)
    : outcome A * W :=
  (Demo.answer cfg A c, w).

(** A framework that refuses every call while the gradient mode is on. *)
Definition strict (cfg : Demo.config) (A : Type) (c : ext A) (w : W)
    : outcome A * W :=
  if w then (Raise (FrameworkError "the gradient mode is on"), w)
  else handle cfg A c w.

(** A framework whose loaders are empty. *)
Definition empty (cfg : Demo.config) (A : Type) (c : ext A) (w : W)
    : outcome A * W :=
  match c in ext T return outcome T * W with
  | Iterate _ _ => (Ok [], w)
  | c' => handle cfg _ c' w
  end.

(** A framework whose dataset has no text column. *)
Definition no_text_frame (cfg : Demo.config) : TensorFrame :=
  {| feat_dict := delete text_embedded (feat_dict (Demo.frame cfg));
     col_names_dict := delete text_embedded (col_names_dict (Demo.frame cfg));
     labels := labels (Demo.frame cfg) |}.

Definition no_text (cfg : Demo.config) (A : Type) (c : ext A) (w : W)
    : outcome A * W :=
  match c in ext T return outcome T * W with
  | Materialize _ _ =>
      (Ok {| ds_ref := 3%N; tensor_frame := no_text_frame cfg;
             is_classification := Demo.classification cfg;
             num_classes := 2; col_stats := 4%N |}, w)
  | c' => handle cfg _ c' w
  end.

(** A framework whose training loss is no number. *)
Definition nan_loss (cfg : Demo.config) (A : Type) (c : ext A) (w : W)
    : outcome A * W :=
  match c in ext T return outcome T * W with
  | CrossEntropy _ _ => (Ok (FloatTensor [] [PyFloat.nan]), w)
  | MseLoss _ _ Mean => (Ok (FloatTensor [] [PyFloat.nan]), w)
  | c' => handle cfg _ c' w
  end.

Definition start : state W := {| world := true; trace := []; stdout := [] |}.

End Lab.


(** * Proofs *)

Example float_4f_half :
  PyFormat.float_4f (PyFloat.div (PyFloat.of_Z 1) (PyFloat.of_Z 2)) = "0.5000"%string.
Proof. vm_compute. reflexivity. Qed.

Example float_4f_third :
  PyFormat.float_4f (PyFloat.div (PyFloat.of_Z 2) (PyFloat.of_Z 3)) = "0.6667"%string.
Proof. vm_compute. reflexivity. Qed.

Example float_4f_tie :
  PyFormat.float_4f (PyFloat.div (PyFloat.of_Z 1) (PyFloat.of_Z 32)) = "0.0312"%string.
Proof. vm_compute. reflexivity. Qed.

Example float_4f_big :
  PyFormat.float_4f (PyFloat.div (PyFloat.of_Z 1234567) (PyFloat.of_Z 8)) = "154320.8750"%string.
Proof. vm_compute. reflexivity. Qed.

Example num_4f_int_zero : PyFormat.num_4f (Int 0) = Ok "0.0000"%string.
Proof. vm_compute. reflexivity. Qed.

Example float_4f_inf : PyFormat.float_4f PyFloat.inf = "inf"%string.
Proof. reflexivity. Qed.


(** ** Reasoning about runs *)

Section Runs.

Variable W : Type.
Variable handle : forall A : Type, ext A -> W -> outcome A * W.

Lemma bind_Ok {A B} (m : M W A) (k : A -> M W B) s b s' :
  bind m k s = (Ok b, s') ->
  exists a s1, m s = (Ok a, s1) /\ k a s1 = (Ok b, s').
Proof.
  unfold bind. destruct (m s) as [[a|e] s1]; intros H.
  - exists a, s1. split; [reflexivity | exact H].
  - discriminate.
Qed.

Lemma lift_Ok {A} (o : outcome A) (s : state W) a s' :
  lift o s = (Ok a, s') -> o = Ok a /\ s' = s.
Proof. unfold lift. intros H. inversion H. split; reflexivity. Qed.

Lemma ret_Ok {A} (x : A) (s : state W) a s' :
  ret x s = (Ok a, s') -> a = x /\ s' = s.
Proof. unfold ret. intros H. inversion H. split; reflexivity. Qed.

Lemma call_Ok {A} (c : ext A) (s : state W) a s' :
  call handle c s = (Ok a, s') ->
  trace s' = trace s ++ [Called c (Ok a)] /\ stdout s' = stdout s.
Proof.
  unfold call. destruct (handle A c (world s)) as [r w]. intros H.
  inversion H. subst. simpl. split; reflexivity.
Qed.

Lemma print_Ok line (s : state W) a s' :
  print line s = (Ok a, s') ->
  trace s' = trace s /\ stdout s' = stdout s ++ [line].
Proof. unfold print. intros H. inversion H. simpl. split; reflexivity. Qed.

Lemma outcome_bind_Ok {A B} (o : outcome A) (k : A -> outcome B) b :
  outcome_bind o k = Ok b -> exists a, o = Ok a /\ k a = Ok b.
Proof. destruct o as [a|e]; simpl; [eauto | discriminate]. Qed.

End Runs.

(** Splits a successful run of a [bind] chain into its steps. *)
Ltac run_inv handle :=
  repeat match goal with
  | H : bind _ _ _ = (Ok _, _) |- _ =>
      apply bind_Ok in H; destruct H as (? & ? & ? & H)
  | H : lift _ _ = (Ok _, _) |- _ =>
      apply lift_Ok in H; destruct H as [? ?]; subst
  | H : ret _ _ = (Ok _, _) |- _ =>
      apply ret_Ok in H; destruct H as [? ?]; subst
  | H : call _ _ _ = (Ok _, _) |- _ =>
      apply (call_Ok _ handle) in H; destruct H as [? ?]
  | H : print _ _ = (Ok _, _) |- _ =>
      apply print_Ok in H; destruct H as [? ?]
  | u : unit |- _ => destruct u
  end.

(** Chains the equations on traces and on the standard output. *)
Ltac chain_states :=
  repeat match goal with
  | H : trace ?s = _ |- context [trace ?s] => rewrite H; clear H
  | H : stdout ?s = _ |- context [stdout ?s] => rewrite H; clear H
  end;
  repeat rewrite <- app_assoc; simpl.

Lemma len_y tf : Torch.len (y tf) = Ok (num_rows tf).
Proof. unfold Torch.len, y, num_rows. destruct (labels tf); reflexivity. Qed.


Section TrainProof.

Variable W : Type.
Variable handle : forall A : Type, ext A -> W -> outcome A * W.
Variable g : globals.

Lemma batch_loss_Ok pred tf s loss s' :
  batch_loss W handle g pred tf s = (Ok loss, s') ->
  forall b, tb_frame b = tf -> tb_pred b = pred -> tb_loss b = loss ->
  trace s' = trace s ++ [loss_event (g_is_classification g) b] /\
  stdout s' = stdout s.
Proof.
  unfold batch_loss, loss_event. intros H b <- <- <-.
  destruct (g_is_classification g); run_inv handle; auto.
Qed.

Lemma to_float_add acc x w :
  PyNum.to_float acc = Ok x ->
  PyNum.add acc (Float w) = Ok (Float (PyFloat.add x w)).
Proof.
  destruct acc as [n|x']; simpl; intros H.
  - rewrite H. reflexivity.
  - inversion H. reflexivity.
Qed.

Lemma mul_float_int l n w :
  PyNum.mul (Float l) (Int n) = Ok w ->
  w = Float (PyFloat.mul l (PyFloat.of_Z n)).
Proof.
  unfold PyNum.mul, PyNum.to_float, PyNum.float_of_int. simpl.
  destruct (PyFloat.is_finite (PyFloat.of_Z n)); simpl; intros H;
    inversion H; reflexivity.
Qed.

Lemma train_step_Ok tf acc s acc' s' x :
  train_step W handle g tf acc s = (Ok acc', s') ->
  PyNum.to_float (fst acc) = Ok x ->
  exists b,
    tb_frame b = tf /\ train_batch_read b /\
    trace s' = trace s ++ train_batch_events g b /\
    stdout s' = stdout s /\
    fst acc' = Float (PyFloat.add x
                 (PyFloat.mul (tb_loss_value b) (PyFloat.of_Z (tb_size b)))) /\
    PyNum.add (snd acc) (Int (tb_size b)) = Ok (snd acc').
Proof.
  unfold train_step. intros H Hx.
  apply bind_Ok in H as (? & s1 & H1 & H).
  apply bind_Ok in H as (pred & s2 & H2 & H).
  apply bind_Ok in H as (loss & s3 & H3 & H).
  run_inv handle.
  match goal with
  | Hl : Torch.item loss = Ok ?l |- _ =>
      set (b := {| tb_frame := tf; tb_pred := pred; tb_loss := loss;
                   tb_loss_value := l |})
  end.
  destruct (batch_loss_Ok _ _ _ _ _ H3 b eq_refl eq_refl eq_refl) as [Et Eo].
  exists b.
  repeat match goal with
  | Hn : Torch.len (y tf) = Ok ?n |- _ =>
      rewrite len_y in Hn; inversion Hn; subst n; clear Hn
  end.
  repeat match goal with
  | Hm : PyNum.mul _ _ = Ok _ |- _ => apply mul_float_int in Hm; subst
  end.
  match goal with
  | Ha : PyNum.add (fst acc) _ = Ok _ |- _ =>
      rewrite (to_float_add _ _ _ Hx) in Ha; inversion Ha; subst; clear Ha
  end.
  simpl. unfold train_batch_read, train_batch_events. simpl.
  repeat split; try assumption; try reflexivity.
  - chain_states. reflexivity.
  - chain_states. reflexivity.
Qed.

Lemma train_loop_Ok batches : forall acc s acc' s' x t,
  for_each batches (train_step W handle g) acc s = (Ok acc', s') ->
  PyNum.to_float (fst acc) = Ok x -> snd acc = Int t ->
  exists bs,
    map tb_frame bs = batches /\ Forall train_batch_read bs /\
    trace s' = trace s ++ concat (map (train_batch_events g) bs) /\
    stdout s' = stdout s /\
    PyNum.to_float (fst acc') =
      Ok (fold_left (fun a b =>
            PyFloat.add a (PyFloat.mul (tb_loss_value b) (PyFloat.of_Z (tb_size b))))
            bs x) /\
    snd acc' = Int (t + total_samples bs) /\
    (batches = [] -> acc' = acc) /\
    (batches <> [] -> exists z, fst acc' = Float z).
Proof.
  induction batches as [|tf batches IH]; intros acc s acc' s' x t H Hx Ht.
  - simpl in H. apply ret_Ok in H as [-> ->].
    exists []. simpl. rewrite app_nil_r, Z.add_0_r.
    repeat split; auto. congruence.
  - simpl in H. apply bind_Ok in H as (acc1 & s1 & Hstep & Hrest).
    destruct (train_step_Ok _ _ _ _ _ _ Hstep Hx)
      as (b & Hf & Hread & Et & Eo & Hacc & Hcount).
    rewrite Ht in Hcount. simpl in Hcount. inversion Hcount as [Hc].
    assert (Hx1 : PyNum.to_float (fst acc1) =
                  Ok (PyFloat.add x (PyFloat.mul (tb_loss_value b)
                                       (PyFloat.of_Z (tb_size b)))))
      by (rewrite Hacc; reflexivity).
    destruct (IH _ _ _ _ _ _ Hrest Hx1 (eq_sym Hc))
      as (bs & Hmap & Hreads & Et' & Eo' & Hsum & Htot & _ & Hne).
    exists (b :: bs). simpl.
    repeat split.
    + congruence.
    + constructor; assumption.
    + rewrite Et', Et, <- app_assoc. reflexivity.
    + congruence.
    + exact Hsum.
    + rewrite Htot. f_equal. lia.
    + discriminate.
    + intros _. destruct batches as [|tf' batches'].
      * destruct bs; [|discriminate]. simpl in Hsum.
        simpl in Hrest. apply ret_Ok in Hrest as [-> ->].
        eexists. exact Hacc.
      * apply Hne. discriminate.
Qed.

End TrainProof.

Lemma optimizer_calls_of_batches g bs :
  List.filter is_optimizer_call (concat (map (train_batch_events g) bs)) =
  concat (map (optimizer_cycle g) bs).
Proof.
  induction bs as [|b bs IH]; [reflexivity|].
  cbn [map concat]. rewrite List.filter_app, IH.
  f_equal. unfold train_batch_events, loss_event.
  destruct (g_is_classification g); reflexivity.
Qed.

(** The shape of a run of [train] that returns. *)
Lemma train_Ok W handle (g : globals) (epoch : Z)
    (s : state W) (r : num) (s' : state W) :
  train W handle g epoch s = (Ok r, s') ->
  exists (batches : list TensorFrame) (bs : list train_batch),
    map tb_frame bs = batches /\
    Forall train_batch_read bs /\
    trace s' = trace s ++
      Called (ModelTrain (g_model g)) (Ok tt) ::
      Called (Iterate (g_train_loader g)
                (Some ("Epoch: " ++ PyFormat.str_int epoch)%string)) (Ok batches) ::
      concat (map (train_batch_events g) bs) /\
    List.filter is_optimizer_call (concat (map (train_batch_events g) bs)) =
      concat (map (optimizer_cycle g) bs) /\
    stdout s' = stdout s /\
    total_samples bs <> 0 /\
    r = Float (weighted_average bs).
Proof.
  unfold train. intros H.
  apply bind_Ok in H as (? & s1 & H1 & H).
  apply bind_Ok in H as (batches & s2 & H2 & H).
  apply bind_Ok in H as (acc & s3 & H3 & H).
  run_inv handle.
  match goal with Hd : PyNum.truediv _ _ = Ok _ |- _ => rename Hd into Hdiv end.
  destruct (train_loop_Ok W handle g batches (Int 0, Int 0) s2 acc s3
              PyFloat.zero 0 H3 eq_refl eq_refl)
    as (bs & Hmap & Hreads & Et & Eo & Hsum & Htot & Hnil & Hne).
  exists batches, bs.
  destruct batches as [|tf batches].
  { rewrite (Hnil eq_refl) in *. discriminate. }
  destruct Hne as [z Hz]; [discriminate|].
  destruct acc as [la tc]. simpl in *. subst la tc.
  inversion Hsum as [Hz]. clear Hsum.
  unfold PyNum.truediv in Hdiv. simpl in Hdiv.
  unfold PyNum.float_of_int in Hdiv.
  replace (0 + total_samples bs) with (total_samples bs) in Hdiv by lia.
  destruct (PyFloat.is_finite (PyFloat.of_Z (total_samples bs))); [|discriminate].
  simpl in Hdiv.
  destruct (PyFloat.is_zero (PyFloat.of_Z (total_samples bs))) eqn:Hzero;
    [discriminate|].
  inversion Hdiv. subst r.
  repeat split; auto.
  - chain_states. reflexivity.
  - apply optimizer_calls_of_batches.
  - chain_states. reflexivity.
  - intros Hz0. rewrite Hz0 in Hzero. discriminate.
  - unfold weighted_average, weighted_loss_sum. rewrite Hz. reflexivity.
Qed.

Lemma count_true_zip_with {A B} (f : A -> B -> bool) (l : list A) : forall v,
  Torch.count_true (zip_with f l v) =
  Z.of_nat (length (List.filter (fun p => f (fst p) (snd p)) (combine l v))).
Proof.
  unfold Torch.count_true.
  induction l as [|a l IH]; intros [|b v]; simpl; try reflexivity.
  destruct (f a b); simpl; rewrite ?Nat2Z.inj_succ; specialize (IH v); lia.
Qed.

Lemma correct_count_bounds tf pc : 0 <= correct_count tf pc <= num_rows tf.
Proof.
  unfold correct_count, num_rows.
  destruct (labels tf) as [l|l], pc as [? v|? v|? v]; try lia;
    (split; [lia|]); apply inj_le;
    (etransitivity; [apply List.filter_length_le|]);
    rewrite length_combine; lia.
Qed.

Section TestProof.

Variable W : Type.
Variable handle : forall A : Type, ext A -> W -> outcome A * W.
Variable is_grad_enabled : W -> bool.
Variable set_grad_enabled : bool -> W -> W.
Variable g : globals.

Lemma eq_sum_item tf pc hits count x :
  shape pc = shape (y tf) ->
  Torch.eq (y tf) pc = Ok hits -> Torch.sum hits = Ok count ->
  Torch.item count = Ok x ->
  x = PyFloat.of_Z (correct_count tf pc).
Proof.
  unfold Torch.eq, Torch.eq_entries, Torch.shape_eqb, y, correct_count.
  destruct (labels tf) as [l|l], pc as [? v|? v|? v]; try discriminate;
    simpl; intros ->; rewrite bool_decide_true by reflexivity;
    intros H; inversion H; subst; simpl;
    intros H1; inversion H1; subst; simpl;
    intros H2; inversion H2; subst;
    rewrite count_true_zip_with; reflexivity.
Qed.

Lemma batch_score_Ok pred tf s x s' :
  batch_score W handle g pred tf s = (Ok x, s') ->
  exists aux,
    let b := {| eb_frame := tf; eb_pred := pred; eb_aux := aux; eb_score := x |} in
    test_batch_read (g_is_classification g) b /\
    trace s' = trace s ++ [score_event (g_is_classification g) b] /\
    stdout s' = stdout s.
Proof.
  unfold batch_score, test_batch_read, score_event. intros H.
  destruct (g_is_classification g).
  - apply bind_Ok in H as (pc & s1 & H1 & H).
    run_inv handle. exists pc. simpl.
    repeat split; try assumption.
    eauto.
  - apply bind_Ok in H as (sse & s1 & H1 & H).
    run_inv handle. exists sse. simpl. auto.
Qed.

Lemma test_step_Ok tf acc s acc' s' x t :
  test_step W handle g tf acc s = (Ok acc', s') ->
  PyNum.to_float (fst acc) = Ok x -> snd acc = Int t ->
  exists b,
    eb_frame b = tf /\ test_batch_read (g_is_classification g) b /\
    trace s' = trace s ++ test_batch_events g b /\
    stdout s' = stdout s /\
    fst acc' = Float (PyFloat.add x (eb_score b)) /\
    snd acc' = Int (t + eb_size b).
Proof.
  unfold test_step. intros H Hx Ht.
  apply bind_Ok in H as (? & s1 & H1 & H).
  apply bind_Ok in H as (pred & s2 & H2 & H).
  apply bind_Ok in H as (score & s3 & H3 & H).
  run_inv handle.
  destruct (batch_score_Ok _ _ _ _ _ H3) as (aux & Hread & Et & Eo).
  eexists. split; [|split; [exact Hread|]]; [reflexivity|]. simpl.
  repeat match goal with
  | Hn : Torch.len (y tf) = Ok ?n |- _ =>
      rewrite len_y in Hn; inversion Hn; subst n; clear Hn
  end.
  match goal with
  | Ha : PyNum.add (fst acc) _ = Ok _ |- _ =>
      rewrite (to_float_add _ _ _ Hx) in Ha; inversion Ha; subst; clear Ha
  end.
  match goal with
  | Ha : PyNum.add (snd acc) _ = Ok _ |- _ =>
      rewrite Ht in Ha; simpl in Ha; inversion Ha; subst; clear Ha
  end.
  unfold test_batch_events, eb_size. simpl.
  repeat split.
  - chain_states. reflexivity.
  - chain_states. reflexivity.
Qed.

Lemma test_loop_Ok batches : forall acc s acc' s' x t,
  for_each batches (test_step W handle g) acc s = (Ok acc', s') ->
  PyNum.to_float (fst acc) = Ok x -> snd acc = Int t ->
  exists bs,
    map eb_frame bs = batches /\
    Forall (test_batch_read (g_is_classification g)) bs /\
    trace s' = trace s ++ concat (map (test_batch_events g) bs) /\
    stdout s' = stdout s /\
    PyNum.to_float (fst acc') =
      Ok (fold_left (fun a b => PyFloat.add a (eb_score b)) bs x) /\
    snd acc' = Int (t + total_rows bs) /\
    (batches = [] -> acc' = acc) /\
    (batches <> [] -> exists z, fst acc' = Float z).
Proof.
  induction batches as [|tf batches IH]; intros acc s acc' s' x t H Hx Ht.
  - simpl in H. apply ret_Ok in H as [-> ->].
    exists []. simpl. rewrite app_nil_r, Z.add_0_r.
    repeat split; auto. congruence.
  - simpl in H. apply bind_Ok in H as (acc1 & s1 & Hstep & Hrest).
    destruct (test_step_Ok _ _ _ _ _ _ _ Hstep Hx Ht)
      as (b & Hf & Hread & Et & Eo & Hacc & Hcount).
    assert (Hx1 : PyNum.to_float (fst acc1) = Ok (PyFloat.add x (eb_score b)))
      by (rewrite Hacc; reflexivity).
    destruct (IH _ _ _ _ _ _ Hrest Hx1 Hcount)
      as (bs & Hmap & Hreads & Et' & Eo' & Hsum & Htot & _ & Hne).
    exists (b :: bs). simpl.
    repeat split.
    + congruence.
    + constructor; assumption.
    + rewrite Et', Et, <- app_assoc. reflexivity.
    + congruence.
    + exact Hsum.
    + rewrite Htot. f_equal. lia.
    + discriminate.
    + intros _. destruct batches as [|tf' batches'].
      * simpl in Hrest. apply ret_Ok in Hrest as [-> ->].
        eexists. exact Hacc.
      * apply Hne. discriminate.
Qed.

Lemma no_grad_Ok {A} (m : M W A) s r s' :
  no_grad is_grad_enabled set_grad_enabled m s = (r, s') ->
  exists s1, m (with_world (set_grad_enabled false) s) = (r, s1) /\
             trace s' = trace s1 /\ stdout s' = stdout s1.
Proof.
  unfold no_grad. destruct (m _) as [r1 s1]. intros H. inversion H. subst.
  exists s1. repeat split.
Qed.

(** The shape of a run of [a ** 0.5] that returns. *)
Lemma pow_half_Ok x s r s' :
  pow_half W handle (Float x) s = (Ok r, s') ->
  exists evs q,
    pow_half_run x evs q /\ r = Float q /\
    trace s' = trace s ++ evs /\ stdout s' = stdout s.
Proof.
  unfold pow_half. intros H.
  apply bind_Ok in H as (x0 & s1 & H1 & H).
  apply lift_Ok in H1 as [H1 ->]. simpl in H1. inversion H1. subst x0. clear H1.
  apply bind_Ok in H as (special & s1 & H1 & H).
  apply lift_Ok in H1 as [H1 ->].
  destruct special as [q|].
  - apply ret_Ok in H as [-> ->]. exists [], q.
    split; [left; auto|]. rewrite app_nil_r. auto.
  - apply bind_Ok in H as (p & s2 & H2 & H).
    apply ret_Ok in H as [-> ->].
    apply (call_Ok _ handle) in H2 as [Et Eo].
    exists [Called (LibmPow x) (Ok p)], (PyNum.pow_value p).
    split; [right; split; [exact H1|]; exists p; auto|].
    repeat split; auto.
Qed.

(** The shape of a run of [test] that returns. *)
Lemma test_Ok loader s r s' :
  test W handle is_grad_enabled set_grad_enabled g loader s = (Ok r, s') ->
  exists (batches : list TensorFrame) (bs : list test_batch) (tail : list event),
    map eb_frame bs = batches /\
    Forall (test_batch_read (g_is_classification g)) bs /\
    trace s' = trace s ++
      Called (ModelEval (g_model g)) (Ok tt) ::
      Called (Iterate loader None) (Ok batches) ::
      concat (map (test_batch_events g) bs) ++ tail /\
    stdout s' = stdout s /\
    total_rows bs <> 0 /\
    (if g_is_classification g
     then r = Float (mean_score bs) /\ tail = []
     else exists q, pow_half_run (mean_score bs) tail q /\ r = Float q) /\
    PyFloat.is_finite (PyFloat.of_Z (total_rows bs)) = true /\
    PyFloat.is_zero (PyFloat.of_Z (total_rows bs)) = false.
Proof.
  unfold test. intros H.
  apply no_grad_Ok in H as (s0 & H & Et0 & Eo0).
  apply bind_Ok in H as (? & s1 & H1 & H).
  apply bind_Ok in H as (batches & s2 & H2 & H).
  apply bind_Ok in H as (acc & s3 & H3 & H).
  destruct (test_loop_Ok batches (Int 0, Int 0) s2 acc s3
              PyFloat.zero 0 H3 eq_refl eq_refl)
    as (bs & Hmap & Hreads & Et & Eo & Hsum & Htot & Hnil & Hne).
  assert (Hdiv : exists q s4, lift (PyNum.truediv (fst acc) (snd acc)) s3 = (Ok q, s4) /\
            if g_is_classification g then (q = r /\ s4 = s0)
            else pow_half W handle q s4 = (Ok r, s0)).
  { destruct (g_is_classification g).
    - exists r, s0. auto.
    - apply bind_Ok in H as (q & s4 & H4 & H). exists q, s4. auto. }
  clear H. destruct Hdiv as (q & s4 & Hdiv & Hfin).
  apply lift_Ok in Hdiv as [Hdiv ->].
  apply (call_Ok _ handle) in H1 as [Et1 Eo1].
  apply (call_Ok _ handle) in H2 as [Et2 Eo2].
  destruct x.
  assert (Hz : exists z, fst acc = Float z).
  { destruct batches as [|tf batches]; [|apply Hne; discriminate].
    rewrite (Hnil eq_refl) in Hdiv. discriminate. }
  destruct Hz as [z Hz]. clear Hnil Hne H3.
  destruct acc as [la tc]. simpl in Hz, Htot, Hsum, Hdiv. subst la tc.
  inversion Hsum as [Hz]. clear Hsum.
  unfold PyNum.truediv in Hdiv. simpl in Hdiv.
  unfold PyNum.float_of_int in Hdiv.
  replace (0 + total_rows bs) with (total_rows bs) in Hdiv by lia.
  destruct (PyFloat.is_finite (PyFloat.of_Z (total_rows bs))) eqn:Hfinite;
    [|discriminate].
  simpl in Hdiv.
  destruct (PyFloat.is_zero (PyFloat.of_Z (total_rows bs))) eqn:Hzero;
    [discriminate|].
  inversion Hdiv. subst q. clear Hdiv.
  assert (Hmean : PyFloat.div z (PyFloat.of_Z (total_rows bs)) = mean_score bs).
  { unfold mean_score, score_sum. rewrite Hz. reflexivity. }
  rewrite Hmean in Hfin. clear Hmean Hz.
  assert (Hend : exists tail,
            trace s0 = trace s3 ++ tail /\ stdout s0 = stdout s3 /\
            if g_is_classification g
            then r = Float (mean_score bs) /\ tail = []
            else exists q, pow_half_run (mean_score bs) tail q /\ r = Float q).
  { destruct (g_is_classification g).
    - destruct Hfin as [<- ->]. exists []. rewrite app_nil_r. auto.
    - apply pow_half_Ok in Hfin as (evs & q & Hrun & -> & Et3 & Eo3).
      exists evs. repeat split; auto. exists q. auto. }
  destruct Hend as (tail & Et3 & Eo3 & Hr).
  exists batches, bs, tail.
  repeat split; auto.
  - rewrite Et0, Et3, Et, Et2, Et1. repeat rewrite <- app_assoc. reflexivity.
  - rewrite Eo0, Eo3, Eo, Eo2, Eo1. reflexivity.
  - intros Hz0. rewrite Hz0 in Hzero. discriminate.
Qed.

End TestProof.

(** ** The order on floats *)

Lemma fcmp_antisym e1 m1 e2 m2 : fcmp e2 m2 e1 m1 = CompOpp (fcmp e1 m1 e2 m2).
Proof.
  unfold fcmp. rewrite (Z.compare_antisym e1 e2), (Pos.compare_antisym m1 m2).
  destruct (Z.compare e1 e2); reflexivity.
Qed.

Lemma fcmp_trans e1 m1 e2 m2 e3 m3 c :
  fcmp e1 m1 e2 m2 = c -> fcmp e2 m2 e3 m3 = c -> fcmp e1 m1 e3 m3 = c.
Proof.
  unfold fcmp.
  destruct (Z.compare_spec e1 e2), (Z.compare_spec e2 e3), (Z.compare_spec e1 e3);
    try lia; intros Hc1 Hc2; subst; try congruence;
  destruct (Pos.compare_spec m1 m2), (Pos.compare_spec m2 m3), (Pos.compare_spec m1 m3);
    try lia; try congruence.
Qed.

Lemma fcmp_Eq e1 m1 e2 m2 : fcmp e1 m1 e2 m2 = Eq -> e1 = e2 /\ m1 = m2.
Proof.
  unfold fcmp. destruct (Z.compare_spec e1 e2) as [He|He|He]; try discriminate.
  intros Hm. apply Pos.compare_eq in Hm. auto.
Qed.

Lemma SFcompare_finite s1 m1 e1 s2 m2 e2 :
  SFcompare (S754_finite s1 m1 e1) (S754_finite s2 m2 e2) =
  Some (match s1, s2 with
        | true, false => Lt
        | false, true => Gt
        | false, false => fcmp e1 m1 e2 m2
        | true, true => CompOpp (fcmp e1 m1 e2 m2)
        end).
Proof.
  unfold fcmp. simpl. destruct s1, s2; try reflexivity.
  destruct (Z.compare e1 e2); reflexivity.
Qed.

Ltac float_cases x := destruct x as [[]|[]| |[] ? ?].

Lemma SFcompare_antisym x y :
  SFcompare y x = option_map CompOpp (SFcompare x y).
Proof.
  float_cases x; float_cases y; rewrite ?SFcompare_finite; try reflexivity;
    simpl; rewrite fcmp_antisym, ?CompOpp_involutive; reflexivity.
Qed.

Lemma SFcompare_trans x y z c :
  SFcompare x y = Some c -> SFcompare y z = Some c -> SFcompare x z = Some c.
Proof.
  float_cases x; float_cases y; float_cases z; rewrite ?SFcompare_finite;
    try (simpl; congruence);
    intros H1 H2; injection H1 as H1; injection H2 as H2; f_equal.
  - apply (f_equal CompOpp) in H1, H2. rewrite CompOpp_involutive in H1, H2.
    rewrite (fcmp_trans _ _ _ _ _ _ _ H1 H2). apply CompOpp_involutive.
  - eapply fcmp_trans; eassumption.
Qed.

Lemma SFcompare_Eq_l x y z :
  SFcompare x y = Some Eq -> SFcompare y z = SFcompare x z.
Proof.
  float_cases x; float_cases y; rewrite ?SFcompare_finite;
    try (simpl; congruence); try (float_cases z; reflexivity);
    intros H; injection H as H;
    try (apply (f_equal CompOpp) in H; rewrite CompOpp_involutive in H; simpl in H);
    apply fcmp_Eq in H as [-> ->]; reflexivity.
Qed.

Lemma SFcompare_None x y :
  SFcompare x y = None -> x = S754_nan \/ y = S754_nan.
Proof.
  float_cases x; float_cases y; rewrite ?SFcompare_finite; simpl;
    try discriminate; auto.
Qed.

Lemma compare_Z_0 x : PyFloat.compare_Z x 0 = SFcompare x PyFloat.zero.
Proof.
  destruct x as [[]|[]| |[] m e]; try reflexivity; simpl;
    destruct (0 <=? e) eqn:He; f_equal; try reflexivity.
  - apply Z.leb_le in He. apply Z.compare_lt_iff.
    assert (0 < 2 ^ e) by (apply Z.pow_pos_nonneg; lia). nia.
  - apply Z.leb_le in He. apply Z.compare_gt_iff.
    assert (0 < 2 ^ e) by (apply Z.pow_pos_nonneg; lia). nia.
Qed.

Lemma compare_metric a b :
  is_metric a -> is_metric b ->
  PyNum.compare a b = SFcompare (metric_key a) (metric_key b).
Proof.
  destruct a as [m|x], b as [n|y]; unfold is_metric, metric_key, PyNum.compare;
    intros Ha Hb; subst; try reflexivity.
  - rewrite compare_Z_0, (SFcompare_antisym y PyFloat.zero).
    destruct (SFcompare y PyFloat.zero); reflexivity.
  - apply compare_Z_0.
Qed.

Lemma improves_spec is_cls a b :
  improves is_cls a b = true <-> PyNum.compare a b = Some (better_side is_cls).
Proof.
  unfold improves, PyNum.gt, PyNum.lt, better_side.
  destruct is_cls, (PyNum.compare a b) as [[]|]; split; congruence.
Qed.

Lemma eq_spec a b : PyNum.eq a b = true <-> PyNum.compare a b = Some Eq.
Proof.
  unfold PyNum.eq. destruct (PyNum.compare a b) as [[]|]; split; congruence.
Qed.

Lemma improves_trans is_cls a b c :
  is_metric a -> is_metric b -> is_metric c ->
  improves is_cls a b = true -> improves is_cls b c = true ->
  improves is_cls a c = true.
Proof.
  intros Ha Hb Hc. rewrite !improves_spec, !compare_metric by assumption.
  apply SFcompare_trans.
Qed.

Lemma eq_improves is_cls a b c :
  is_metric a -> is_metric b -> is_metric c ->
  PyNum.eq a b = true -> improves is_cls b c = true ->
  improves is_cls a c = true.
Proof.
  intros Ha Hb Hc. rewrite !improves_spec, eq_spec, !compare_metric by assumption.
  intros Heq. rewrite (SFcompare_Eq_l _ _ _ Heq). trivial.
Qed.

Lemma improves_irrefl is_cls a : is_metric a -> improves is_cls a a = false.
Proof.
  intros Ha. destruct (improves is_cls a a) eqn:H; [|reflexivity].
  apply improves_spec in H. rewrite compare_metric in H by assumption.
  pose proof (SFcompare_antisym (metric_key a) (metric_key a)) as Hs.
  rewrite H in Hs. destruct is_cls; discriminate.
Qed.

Lemma eq_not_improves is_cls a b :
  is_metric a -> is_metric b ->
  PyNum.eq a b = true -> improves is_cls a b = false.
Proof.
  intros Ha Hb Heq. destruct (improves is_cls a b) eqn:H; [|reflexivity].
  apply improves_spec in H. apply eq_spec in Heq. rewrite Heq in H.
  destruct is_cls; discriminate.
Qed.

Lemma improves_comparable is_cls a b c d :
  is_metric a -> is_metric b -> is_metric c -> is_metric d ->
  improves is_cls a c = true -> improves is_cls b d = true ->
  improves is_cls a b = false -> no_better is_cls a b.
Proof.
  intros Ha Hb Hc Hd. unfold no_better.
  rewrite eq_spec, !improves_spec.
  intros Hac Hbd Hab.
  assert (Hn : improves is_cls a b <> true) by congruence.
  rewrite improves_spec in Hn. clear Hab.
  rewrite (compare_metric a b) in * by assumption.
  rewrite (compare_metric a c) in * by assumption.
  rewrite (compare_metric b d) in * by assumption.
  rewrite (compare_metric b a) by assumption.
  rewrite (SFcompare_antisym (metric_key a) (metric_key b)).
  destruct (SFcompare (metric_key a) (metric_key b)) as [[]|] eqn:Hc0; simpl.
  - auto.
  - destruct is_cls; simpl in *; [right; reflexivity | congruence].
  - destruct is_cls; simpl in *; [congruence | right; reflexivity].
  - apply SFcompare_None in Hc0 as [Hnan|Hnan]; rewrite Hnan in *; simpl in *.
    + discriminate.
    + discriminate.
Qed.

(** ** Best-metric selection *)

Lemma update_best_spec is_cls v t best :
  update_best is_cls v t best =
  if improves is_cls v (fst best) then (v, t) else best.
Proof.
  unfold update_best, improves.
  destruct is_cls; simpl.
  - destruct (PyNum.gt v (fst best)); reflexivity.
  - destruct (PyNum.lt v (fst best)); reflexivity.
Qed.

Lemma initial_best_metric is_cls : is_metric (fst (initial_best is_cls)).
Proof. destruct is_cls; simpl; auto. Qed.

Lemma best_invariant_step is_cls ms m best :
  (forall m', In m' (ms ++ [m]) -> is_metric (em_val_metric m')) ->
  best_invariant is_cls ms best ->
  best_invariant is_cls (ms ++ [m])
    (update_best is_cls (em_val_metric m) (em_test_metric m) best).
Proof.
  intros Hmet Hinv.
  pose proof (initial_best_metric is_cls) as Hinit.
  assert (Hm : is_metric (em_val_metric m))
    by (apply Hmet, in_or_app; right; left; reflexivity).
  assert (Hms : forall m', In m' ms -> is_metric (em_val_metric m'))
    by (intros m' Hin; apply Hmet, in_or_app; left; exact Hin).
  rewrite update_best_spec.
  destruct Hinv as [[-> Hnone] | (i & mi & Hi & Himp & -> & Hmax & Hfirst)].
  - destruct (improves is_cls (em_val_metric m) _) eqn:Hv.
    + right. exists (length ms), m. repeat split.
      * apply list_lookup_middle. reflexivity.
      * exact Hv.
      * intros m' Hin. apply in_app_or in Hin as [Hin | [<- | []]].
        -- destruct (improves is_cls (em_val_metric m') (em_val_metric m)) eqn:H';
             [|reflexivity].
           rewrite <- (Hnone m' Hin). symmetry.
           eapply improves_trans; eauto.
        -- apply improves_irrefl. exact Hm.
      * intros j m' Hj Hlook.
        rewrite lookup_app_l in Hlook by exact Hj.
        assert (Hin : In m' ms)
          by (apply list_elem_of_In, list_elem_of_lookup; eauto).
        destruct (PyNum.eq (em_val_metric m') (em_val_metric m)) eqn:H';
          [|reflexivity].
        rewrite <- (Hnone m' Hin). symmetry.
        eapply eq_improves; eauto.
    + left. split; [reflexivity|].
      intros m' Hin. apply in_app_or in Hin as [Hin | [<- | []]]; auto.
  - assert (Hini : In mi ms)
      by (apply list_elem_of_In, list_elem_of_lookup; eauto).
    assert (Hmi : is_metric (em_val_metric mi)) by auto.
    simpl fst.
    destruct (improves is_cls (em_val_metric m) (em_val_metric mi)) eqn:Hv.
    + right. exists (length ms), m. repeat split.
      * apply list_lookup_middle. reflexivity.
      * eapply improves_trans; [| | | exact Hv | exact Himp]; auto.
      * intros m' Hin. apply in_app_or in Hin as [Hin | [<- | []]].
        -- destruct (improves is_cls (em_val_metric m') (em_val_metric m)) eqn:H';
             [|reflexivity].
           rewrite <- (Hmax m' Hin). symmetry.
           eapply improves_trans; [| | | exact H' | exact Hv]; auto.
        -- apply improves_irrefl. exact Hm.
      * intros j m' Hj Hlook.
        rewrite lookup_app_l in Hlook by exact Hj.
        assert (Hin : In m' ms)
          by (apply list_elem_of_In, list_elem_of_lookup; eauto).
        destruct (PyNum.eq (em_val_metric m') (em_val_metric m)) eqn:H';
          [|reflexivity].
        rewrite <- (Hmax m' Hin). symmetry.
        eapply eq_improves; [| | | exact H' | exact Hv]; auto.
    + right. exists i, mi. repeat split.
      * rewrite lookup_app_l; [exact Hi|]. eapply lookup_lt_Some. exact Hi.
      * exact Himp.
      * intros m' Hin. apply in_app_or in Hin as [Hin | [<- | []]]; auto.
      * intros j m' Hj Hlook.
        rewrite lookup_app_l in Hlook.
        -- eapply Hfirst; eauto.
        -- apply lookup_lt_Some in Hi. lia.
Qed.

Lemma best_invariant_fold is_cls ms :
  (forall m, In m ms -> is_metric (em_val_metric m)) ->
  best_invariant is_cls ms
    (fold_left (fun best m =>
       update_best is_cls (em_val_metric m) (em_test_metric m) best)
       ms (initial_best is_cls)).
Proof.
  induction ms as [|m ms IH] using rev_ind; intros Hmet.
  - left. split; [reflexivity|]. intros m [].
  - rewrite fold_left_app. simpl.
    apply best_invariant_step; [exact Hmet|].
    apply IH. intros m' Hin. apply Hmet, in_or_app. left. exact Hin.
Qed.

Lemma best_invariant_selection is_cls ms best :
  (forall m, In m ms -> is_metric (em_val_metric m)) ->
  best_invariant is_cls ms best -> best_selection is_cls ms best.
Proof.
  intros Hmet Hinv.
  pose proof (initial_best_metric is_cls) as Hinit.
  split.
  - intros Hnone.
    destruct Hinv as [[-> _] | (i & mi & Hi & Himp & _)]; [reflexivity|].
    assert (Hini : In mi ms)
      by (apply list_elem_of_In, list_elem_of_lookup; eauto).
    rewrite (Hnone mi Hini) in Himp. discriminate.
  - intros (m & Hin & Himp).
    destruct Hinv as [[_ Hnone] | (i & mi & Hi & Himpi & -> & Hmax & Hfirst)].
    { rewrite (Hnone m Hin) in Himp. discriminate. }
    assert (Hini : In mi ms)
      by (apply list_elem_of_In, list_elem_of_lookup; eauto).
    exists i, mi. repeat split; auto.
    intros m' Hin' Himp'.
    eapply improves_comparable; [| | | | exact Himp' | exact Himpi |]; auto.
Qed.

(** ** Runs of the epoch loop *)

Section EpochProof.

Variable W : Type.
Variable handle : forall A : Type, ext A -> W -> outcome A * W.
Variable is_grad_enabled : W -> bool.
Variable set_grad_enabled : bool -> W -> W.
Variable g : globals.

Let runs := runs_epochs W handle is_grad_enabled set_grad_enabled g.
Let body := epoch_body W handle is_grad_enabled set_grad_enabled g.

Lemma epochs_Ok epochs : forall best s best' s',
  for_each epochs body best s = (Ok best', s') ->
  exists ms,
    runs epochs s ms s' /\
    best' = fold_left (fun b m =>
              update_best (g_is_classification g)
                (em_val_metric m) (em_test_metric m) b) ms best.
Proof.
  induction epochs as [|epoch epochs IH]; intros best s best' s' H.
  - simpl in H. apply ret_Ok in H as [-> ->].
    exists []. split; [constructor | reflexivity].
  - simpl in H. apply bind_Ok in H as (best1 & s6 & Hbody & Hrest).
    unfold body, epoch_body in Hbody.
    apply bind_Ok in Hbody as (tl & s1 & H1 & Hbody).
    apply bind_Ok in Hbody as (tm & s2 & H2 & Hbody).
    apply bind_Ok in Hbody as (vm & s3 & H3 & Hbody).
    apply bind_Ok in Hbody as (xm & s4 & H4 & Hbody).
    apply bind_Ok in Hbody as (line & s4' & Hline & Hbody).
    apply lift_Ok in Hline as [Hline ->].
    apply bind_Ok in Hbody as ([] & s5 & Hprint & Hbody).
    apply ret_Ok in Hbody as [-> ->].
    destruct (IH _ _ _ _ Hrest) as (ms & Hruns & ->).
    exists ({| em_train_loss := tl; em_train_metric := tm;
               em_val_metric := vm; em_test_metric := xm |} :: ms).
    split; [|reflexivity].
    eapply runs_epoch; simpl; eauto.
Qed.

Lemma runs_epochs_length epochs s ms s' :
  runs epochs s ms s' -> length ms = length epochs.
Proof. induction 1; simpl; congruence. Qed.

Lemma test_returns_float loader s r s' :
  test W handle is_grad_enabled set_grad_enabled g loader s = (Ok r, s') ->
  exists x, r = Float x.
Proof.
  intros H. apply test_Ok in H as (batches & bs & tail & _ & _ & _ & _ & _ & Hr & _).
  destruct (g_is_classification g).
  - destruct Hr as [-> _]. eauto.
  - destruct Hr as (q & _ & ->). eauto.
Qed.

Lemma runs_epochs_metric epochs s ms s' :
  runs epochs s ms s' ->
  forall m, In m ms -> is_metric (em_val_metric m).
Proof.
  induction 1 as [|? ? ? ? ? ? ? ? ? m ms ? ? ? Hval]; intros m' Hin.
  - destruct Hin.
  - destruct Hin as [<- | Hin]; [|auto].
    apply test_returns_float in Hval as [x ->]. exact I.
Qed.

(** The lines that the epochs [ms] print. *)
Lemma runs_epochs_stdout epochs s ms s' :
  runs epochs s ms s' ->
  exists lines,
    Forall2 (fun m line =>
      epoch_line (metric_name (g_is_classification g))
        (em_train_loss m) (em_train_metric m)
        (em_val_metric m) (em_test_metric m) = Ok line) ms lines /\
    stdout s' = stdout s ++ lines.
Proof.
  induction 1 as [|? ? ? ? ? ? ? ? ? m ms line Htrain Htm Hvm Hxm Hline Hprint
                    Hruns (lines & Hall & Hout)].
  - exists []. split; [constructor | rewrite app_nil_r; reflexivity].
  - exists (line :: lines). split; [constructor; assumption|].
    apply train_Ok in Htrain as (? & ? & _ & _ & _ & _ & Eo1 & _).
    apply test_Ok in Htm as (? & ? & ? & _ & _ & _ & Eo2 & _).
    apply test_Ok in Hvm as (? & ? & ? & _ & _ & _ & Eo3 & _).
    apply test_Ok in Hxm as (? & ? & ? & _ & _ & _ & Eo4 & _).
    apply print_Ok in Hprint as [_ Eo5].
    rewrite Hout, Eo5, Eo4, Eo3, Eo2, Eo1, <- app_assoc. reflexivity.
Qed.

End EpochProof.

Lemma range_length lo hi : length (range lo hi) = Z.to_nat (hi - lo).
Proof. unfold range. rewrite length_map, length_seq. reflexivity. Qed.

Lemma range_lookup lo hi i :
  (i < Z.to_nat (hi - lo))%nat -> range lo hi !! i = Some (lo + Z.of_nat i).
Proof.
  intros Hi. unfold range. rewrite list_lookup_fmap, lookup_seq_lt by exact Hi.
  reflexivity.
Qed.

(** ** Exceptions propagate *)

Section Propagation.

Variable W : Type.
Variable handle : forall A : Type, ext A -> W -> outcome A * W.
Variable is_grad_enabled : W -> bool.
Variable set_grad_enabled : bool -> W -> W.

Lemma unhandled_nil {A} (r : outcome A) : unhandled [] r.
Proof. left. constructor. Qed.

Lemma unhandled_Ok {A} evs (a : A) : unhandled evs (Ok a) -> Forall returned evs.
Proof.
  intros [H | (evs0 & ev & e & _ & _ & _ & H)]; [exact H | discriminate].
Qed.

Lemma unhandled_app {A B} evs1 evs2 (a : A) (r : outcome B) :
  unhandled evs1 (Ok a) -> unhandled evs2 r -> unhandled (evs1 ++ evs2) r.
Proof.
  intros H1 H2. apply unhandled_Ok in H1.
  destruct H2 as [H2 | (evs0 & ev & e & -> & H0 & He & Hr)].
  - left. apply Forall_app. split; assumption.
  - right. exists (evs1 ++ evs0), ev, e. repeat split; auto.
    + rewrite app_assoc. reflexivity.
    + apply Forall_app. split; assumption.
Qed.

Lemma unhandled_Raise {A B} evs e :
  unhandled evs (@Raise A e) -> unhandled evs (@Raise B e).
Proof.
  intros [H | (evs0 & ev & e' & -> & H0 & He & Hr)]; [left; exact H|].
  right. exists evs0, ev, e'. repeat split; auto. congruence.
Qed.

Lemma propagates_ret {A} (a : A) : propagates (@ret W A a).
Proof.
  intros s r s' H. inversion H. subst. exists [].
  split; [rewrite app_nil_r; reflexivity | apply unhandled_nil].
Qed.

Lemma propagates_lift {A} (o : outcome A) : propagates (@lift W A o).
Proof.
  intros s r s' H. inversion H. subst. exists [].
  split; [rewrite app_nil_r; reflexivity | apply unhandled_nil].
Qed.

Lemma propagates_print line : propagates (@print W line).
Proof.
  intros s r s' H. inversion H. subst. exists [].
  split; [simpl; rewrite app_nil_r; reflexivity | apply unhandled_nil].
Qed.

Lemma propagates_call {A} (c : ext A) : propagates (call handle c).
Proof.
  intros s r s' H. unfold call in H.
  destruct (handle A c (world s)) as [r0 w]. inversion H. subst. simpl.
  exists [Called c r]. split; [reflexivity|].
  destruct r as [a|e].
  - left. repeat constructor.
  - right. exists [], (Called c (Raise e)), e. repeat split. constructor.
Qed.

Lemma propagates_bind {A B} (m : M W A) (k : A -> M W B) :
  propagates m -> (forall a, propagates (k a)) -> propagates (bind m k).
Proof.
  intros Hm Hk s r s' H. unfold bind in H.
  destruct (m s) as [[a|e] s1] eqn:Hms.
  - destruct (Hm _ _ _ Hms) as (evs1 & Et1 & Hu1).
    destruct (Hk a _ _ _ H) as (evs2 & Et2 & Hu2).
    exists (evs1 ++ evs2). split.
    + rewrite Et2, Et1, <- app_assoc. reflexivity.
    + eapply unhandled_app; eassumption.
  - destruct (Hm _ _ _ Hms) as (evs1 & Et1 & Hu1).
    inversion H. subst. exists evs1. split; [exact Et1|].
    eapply unhandled_Raise. exact Hu1.
Qed.

Lemma propagates_for_each {A S} (body : A -> S -> M W S) (l : list A) :
  (forall x acc, propagates (body x acc)) ->
  forall acc, propagates (for_each l body acc).
Proof.
  intros Hbody. induction l as [|x l IH]; intros acc; simpl.
  - apply propagates_ret.
  - apply propagates_bind; [apply Hbody | exact IH].
Qed.

Lemma propagates_no_grad {A} (m : M W A) :
  propagates m -> propagates (no_grad is_grad_enabled set_grad_enabled m).
Proof.
  intros Hm s r s' H. apply no_grad_Ok in H as (s1 & H & Et & _).
  destruct (Hm _ _ _ H) as (evs & Et1 & Hu).
  exists evs. split; [|exact Hu]. rewrite Et, Et1. reflexivity.
Qed.

End Propagation.

(** Proves that a computation built from calls, script-level operations,
    loops and branches propagates exceptions. *)
Ltac propagation :=
  repeat first
    [ apply propagates_ret
    | apply propagates_lift
    | apply propagates_print
    | apply propagates_call
    | apply propagates_no_grad
    | apply propagates_for_each; intros
    | apply propagates_bind; [|intros]
    | match goal with
      | |- propagates (if ?b then _ else _) => destruct b
      | |- propagates (match ?x with _ => _ end) => destruct x
      end ].

Section ScriptPropagation.

Variable W : Type.
Variable handle : forall A : Type, ext A -> W -> outcome A * W.
Variable is_grad_enabled : W -> bool.
Variable set_grad_enabled : bool -> W -> W.
Variable int_of_str : string -> option Z.
Variable float_of_str : string -> option float.

Lemma propagates_train g epoch : propagates (train W handle g epoch).
Proof. unfold train, train_step, batch_loss. propagation. Qed.

Lemma propagates_test g loader :
  propagates (test W handle is_grad_enabled set_grad_enabled g loader).
Proof. unfold test, pow_half, test_step, batch_score. propagation. Qed.

Lemma propagates_epoch_loop g epochs :
  propagates (epoch_loop W handle is_grad_enabled set_grad_enabled g epochs).
Proof.
  unfold epoch_loop, epoch_body, train, test, pow_half, train_step, test_step,
    batch_loss, batch_score.
  propagation.
Qed.

Lemma propagates_setup args : propagates (setup W handle args).
Proof.
  unfold setup, text_encoder, SimpleTextToEmbedding_init. propagation.
Qed.

Lemma propagates_script argv :
  propagates (script W handle is_grad_enabled set_grad_enabled
                int_of_str float_of_str argv).
Proof.
  unfold script. apply propagates_bind; [apply propagates_lift | intros ns].
  apply propagates_bind; [apply propagates_lift | intros args].
  apply propagates_bind; [apply propagates_setup | intros g].
  apply propagates_epoch_loop.
Qed.

Lemma propagates_embed self sentences :
  propagates (SimpleTextToEmbedding_call W handle self sentences).
Proof. unfold SimpleTextToEmbedding_call, move_input. propagation. Qed.

End ScriptPropagation.

(** ** Runs of the script before the epoch loop *)

Section SetupProof.

Variable W : Type.
Variable handle : forall A : Type, ext A -> W -> outcome A * W.

Lemma setup_Ok args s g s' :
  setup W handle args s = (Ok g, s') ->
  exists evs,
    trace s' = trace s ++ evs /\
    stdout s' = stdout s /\
    omap encoder_dict_of evs = [stype_encoder_dict].
Proof.
  unfold setup, text_encoder, SimpleTextToEmbedding_init. intros H.
  run_inv handle.
  match goal with
  | Hc : (if arg_compile args then _ else _) _ = (Ok _, _) |- _ =>
      destruct (arg_compile args); run_inv handle
  end.
  - eexists. split; [chain_states; reflexivity|].
    split; [chain_states; reflexivity|]. reflexivity.
  - eexists. split; [chain_states; reflexivity|].
    split; [chain_states; reflexivity|]. reflexivity.
Qed.

End SetupProof.

(** ** Binary64 arithmetic: exact sums, quotients, signs *)

Lemma digits2_bounds (m : positive) :
  2 ^ (Z.pos (digits2_pos m) - 1) <= Z.pos m < 2 ^ Z.pos (digits2_pos m).
Proof.
  induction m as [m IH|m IH|]; simpl digits2_pos.
  - rewrite Pos2Z.inj_succ.
    replace (Z.succ (Z.pos (digits2_pos m)) - 1) with (Z.succ (Z.pos (digits2_pos m) - 1)) by lia.
    rewrite !Z.pow_succ_r by lia. lia.
  - rewrite Pos2Z.inj_succ.
    replace (Z.succ (Z.pos (digits2_pos m)) - 1) with (Z.succ (Z.pos (digits2_pos m) - 1)) by lia.
    rewrite !Z.pow_succ_r by lia. lia.
  - simpl. lia.
Qed.

Lemma digits2_unique (m : positive) (d : Z) :
  2 ^ (d - 1) <= Z.pos m < 2 ^ d -> Z.pos (digits2_pos m) = d.
Proof.
  intros [Hlo Hhi]. pose proof (digits2_bounds m) as [Hlo' Hhi'].
  assert (0 < d).
  { destruct (Z.lt_trichotomy d 0) as [Hneg|[Hz|Hpos]]; [| |assumption].
    - rewrite Z.pow_neg_r in Hhi by lia. lia.
    - subst. simpl in Hhi. lia. }
  destruct (Z.lt_trichotomy (Z.pos (digits2_pos m)) d) as [Hlt|[Heq|Hgt]]; [|assumption|].
  - assert (2 ^ Z.pos (digits2_pos m) <= 2 ^ (d - 1)) by (apply Z.pow_le_mono_r; lia). lia.
  - assert (2 ^ d <= 2 ^ (Z.pos (digits2_pos m) - 1)) by (apply Z.pow_le_mono_r; lia). lia.
Qed.

Lemma iter_pos_nat {A} (f : A -> A) (p : positive) : forall x,
  SpecFloat.iter_pos f p x = Nat.iter (Pos.to_nat p) f x.
Proof.
  induction p as [p IH|p IH|]; intros x; simpl SpecFloat.iter_pos.
  - rewrite !IH, Pos2Nat.inj_xI. simpl. rewrite <- Nat.iter_add.
    replace (Pos.to_nat p + Pos.to_nat p)%nat with (2 * Pos.to_nat p)%nat by lia.
    rewrite <- Nat.iter_succ_r. reflexivity.
  - rewrite !IH, Pos2Nat.inj_xO. rewrite <- Nat.iter_add.
    replace (Pos.to_nat p + Pos.to_nat p)%nat with (2 * Pos.to_nat p)%nat by lia.
    reflexivity.
  - reflexivity.
Qed.

Lemma iter_xO (m : positive) (k : positive) :
  Z.pos (Pos.iter xO m k) = Z.pos m * 2 ^ Z.pos k.
Proof.
  induction k as [|k IH] using Pos.peano_ind.
  - simpl. lia.
  - rewrite Pos.iter_succ, Pos2Z.inj_succ, Z.pow_succ_r by lia.
    rewrite Pos2Z.inj_xO, IH. lia.
Qed.

(** shifting right an exact record whose mantissa is a multiple of 2^j *)
Lemma shr_1_even (m : Z) :
  0 < m ->
  shr_1 {| shr_m := 2 * m; shr_r := false; shr_s := false |} =
  {| shr_m := m; shr_r := false; shr_s := false |}.
Proof. destruct m; try lia. reflexivity. Qed.

Lemma iter_shr_exact (j : nat) : forall m,
  0 < m ->
  Nat.iter j shr_1 {| shr_m := m * 2 ^ Z.of_nat j; shr_r := false; shr_s := false |} =
  {| shr_m := m; shr_r := false; shr_s := false |}.
Proof.
  induction j as [|j IH]; intros m Hm.
  - simpl. f_equal. lia.
  - rewrite Nat.iter_succ_r, Nat2Z.inj_succ, Z.pow_succ_r by lia.
    replace (m * (2 * 2 ^ Z.of_nat j)) with (2 * (m * 2 ^ Z.of_nat j)) by lia.
    rewrite shr_1_even by (apply Z.mul_pos_pos; [lia | apply Z.pow_pos_nonneg; lia]).
    apply IH. exact Hm.
Qed.

Lemma shr_exact (m e k : Z) :
  0 < m -> 0 <= k ->
  shr {| shr_m := m * 2 ^ k; shr_r := false; shr_s := false |} e k =
  ({| shr_m := m; shr_r := false; shr_s := false |}, e + k).
Proof.
  intros Hm Hk. unfold shr. destruct k as [|p|p]; try lia.
  - simpl. f_equal; [f_equal|]; lia.
  - rewrite iter_pos_nat. f_equal.
    rewrite <- (positive_nat_Z p) at 1. apply iter_shr_exact. exact Hm.
Qed.

Lemma fexp_eq (x : Z) : fexp PyFloat.prec PyFloat.emax x = Z.max (x - 53) (-1074).
Proof. reflexivity. Qed.

Lemma Zdigits2_range (m d : Z) :
  2 ^ (d - 1) <= m < 2 ^ d -> 0 < m -> Zdigits2 m = d.
Proof.
  intros H Hm. destruct m as [|p|p]; try lia. apply digits2_unique. exact H.
Qed.

Lemma shr_fexp_0 (m e : Z) (l : location) :
  2 ^ 52 <= m < 2 ^ 53 -> -1074 <= e ->
  shr_fexp PyFloat.prec PyFloat.emax m e l = (shr_record_of_loc m l, e).
Proof.
  intros Hm He. unfold shr_fexp. rewrite fexp_eq.
  rewrite (Zdigits2_range m 53) by (simpl; lia).
  replace (Z.max (53 + e - 53) (-1074) - e) with 0 by lia.
  reflexivity.
Qed.

Lemma binary_round_aux_tail s mx ex lx :
  binary_round_aux PyFloat.prec PyFloat.emax s mx ex lx =
  let '(mrs, e) := shr_fexp PyFloat.prec PyFloat.emax mx ex lx in
  round_tail s (round_nearest_even (shr_m mrs) (loc_of_shr_record mrs)) e.
Proof. reflexivity. Qed.

Lemma round_tail_canonical s m e :
  2 ^ 52 <= m < 2 ^ 53 -> -1074 <= e <= 971 ->
  round_tail s m e = S754_finite s (Z.to_pos m) e.
Proof.
  intros Hm He. unfold round_tail. rewrite shr_fexp_0 by lia.
  cbn [shr_record_of_loc shr_m].
  destruct m as [|p|p]; try lia.
  replace (e <=? PyFloat.emax - PyFloat.prec) with true; [reflexivity|].
  symmetry. apply Z.leb_le. unfold PyFloat.emax, PyFloat.prec. lia.
Qed.

Lemma normal_range v :
  0 < v < 2 ^ 53 ->
  1 <= Zdigits2 v <= 53 /\
  2 ^ 52 <= v * 2 ^ (53 - Zdigits2 v) < 2 ^ 53.
Proof.
  intros Hv. destruct v as [|p|p]; try lia. cbn [Zdigits2].
  pose proof (digits2_bounds p) as [Hlo Hhi].
  set (d := Z.pos (digits2_pos p)) in *.
  assert (Hd1 : 1 <= d) by (unfold d; lia).
  assert (Hd : d <= 53).
  { destruct (Z.le_gt_cases d 53); [assumption|].
    assert (2 ^ 53 <= 2 ^ (d - 1)) by (apply Z.pow_le_mono_r; lia). lia. }
  split; [lia|].
  assert (H52 : 2 ^ 52 = 2 ^ (d - 1) * 2 ^ (53 - d))
    by (rewrite <- Z.pow_add_r by lia; f_equal; lia).
  assert (H53 : 2 ^ 53 = 2 ^ d * 2 ^ (53 - d))
    by (rewrite <- Z.pow_add_r by lia; f_equal; lia).
  assert (0 < 2 ^ (53 - d)) by (apply Z.pow_pos_nonneg; lia).
  rewrite H52, H53. split; nia.
Qed.

(** A mantissa of 53 digits with an exponent in range is kept as it is. *)
Lemma round_canonical (s : bool) (m : positive) (e : Z) :
  Z.pos (digits2_pos m) = 53 -> -1074 <= e <= 971 ->
  binary_round_aux PyFloat.prec PyFloat.emax s (Z.pos m) e loc_Exact = S754_finite s m e.
Proof.
  intros Hd He. pose proof (digits2_bounds m) as Hb. rewrite Hd in Hb.
  rewrite binary_round_aux_tail, shr_fexp_0 by (simpl in Hb; lia).
  cbn [shr_record_of_loc loc_of_shr_record shr_m round_nearest_even].
  rewrite round_tail_canonical by (simpl in Hb; lia). reflexivity.
Qed.

(** Rounding [v * 2^k] given with exponent [-k] gives the float of [v]. *)
Lemma binary_round_exact (M : positive) (v k : Z) :
  0 <= k -> Z.pos M = v * 2 ^ k -> 0 < v < 2 ^ 53 ->
  binary_round PyFloat.prec PyFloat.emax false M (- k) = normal v.
Proof.
  intros Hk HM Hv.
  destruct (normal_range v Hv) as [Hd Hmant].
  set (d := Zdigits2 v) in *.
  assert (H52 : 0 < 2 ^ 52) by reflexivity.
  assert (Hpk : 0 < 2 ^ k) by (apply Z.pow_pos_nonneg; lia).
  assert (HdM : Z.pos (digits2_pos M) = d + k).
  { apply digits2_unique. rewrite HM.
    destruct v as [|p|p]; try lia. cbn [Zdigits2] in d.
    pose proof (digits2_bounds p) as [Hlo Hhi]. fold d in Hlo, Hhi.
    replace (d + k - 1) with ((d - 1) + k) by lia.
    rewrite !Z.pow_add_r by lia. split; nia. }
  unfold binary_round. rewrite fexp_eq, HdM.
  replace (Z.max (d + k + - k - 53) (-1074)) with (d - 53) by lia.
  unfold shl_align.
  destruct (d - 53 - - k) as [|j|j] eqn:Hj.
  - (* no shift: k = 53 - d *)
    rewrite binary_round_aux_tail, shr_fexp_0.
    + cbn [shr_record_of_loc loc_of_shr_record shr_m round_nearest_even].
      rewrite round_tail_canonical.
      * unfold normal. fold d. f_equal; [|lia].
        apply Pos2Z.inj. rewrite !Z2Pos.id by lia.
        rewrite HM. replace k with (53 - d) by lia. reflexivity.
      * rewrite HM. replace k with (53 - d) by lia. exact Hmant.
      * lia.
    + rewrite HM. replace k with (53 - d) by lia. exact Hmant.
    + lia.
  - (* shift right by j = d - 53 + k, exactly *)
    rewrite binary_round_aux_tail. unfold shr_fexp.
    rewrite fexp_eq. cbn [Zdigits2]. rewrite HdM.
    replace (Z.max (d + k + - k - 53) (-1074) - - k) with (Z.pos j) by lia.
    cbn [shr_record_of_loc].
    assert (HMj : Z.pos M = (v * 2 ^ (53 - d)) * 2 ^ Z.pos j).
    { rewrite HM, <- Z.mul_assoc, <- Z.pow_add_r by lia.
      replace (53 - d + Z.pos j) with k by lia. reflexivity. }
    rewrite HMj, shr_exact by lia.
    cbn [loc_of_shr_record shr_m round_nearest_even].
    rewrite round_tail_canonical by lia.
    unfold normal. fold d. f_equal. lia.
  - (* shift left by j = 53 - d - k *)
    rewrite round_canonical.
    + unfold normal. fold d. f_equal.
      apply Pos2Z.inj. rewrite iter_xO, HM, Z2Pos.id by lia.
      rewrite <- Z.mul_assoc, <- Z.pow_add_r by lia.
      replace (k + Z.pos j) with (53 - d) by lia. reflexivity.
    + apply digits2_unique. rewrite iter_xO, HM.
      rewrite <- Z.mul_assoc, <- Z.pow_add_r by lia.
      replace (k + Z.pos j) with (53 - d) by lia. simpl (53 - 1). exact Hmant.
    + lia.
Qed.

Lemma of_Z_normal v : 0 < v < 2 ^ 53 -> PyFloat.of_Z v = normal v.
Proof.
  intros Hv. unfold PyFloat.of_Z. destruct v as [|p|p]; try lia.
  cbn [binary_normalize].
  apply (binary_round_exact p (Z.pos p) 0); [lia | simpl; lia | exact Hv].
Qed.

Lemma shl_align_value (mx : positive) (ex ez : Z) :
  ez <= ex ->
  Z.pos (fst (shl_align mx ex ez)) = Z.pos mx * 2 ^ (ex - ez).
Proof.
  intros H. unfold shl_align.
  destruct (ez - ex) as [|d|d] eqn:Hd; try lia; cbn [fst].
  - replace (ex - ez) with 0 by lia. simpl. lia.
  - rewrite iter_xO. do 2 f_equal. lia.
Qed.

Lemma normal_value v :
  0 < v < 2 ^ 53 ->
  exists m e, normal v = S754_finite false m e /\
              e = Zdigits2 v - 53 /\ Z.pos m = v * 2 ^ (- e) /\ e <= 0 /\
              2 ^ 52 <= Z.pos m < 2 ^ 53.
Proof.
  intros Hv. destruct (normal_range v Hv) as [Hd Hm].
  assert (H52 : 0 < 2 ^ 52) by reflexivity.
  eexists _, _. split; [reflexivity|].
  split; [reflexivity|].
  replace (- (Zdigits2 v - 53)) with (53 - Zdigits2 v) by lia.
  rewrite Z2Pos.id by lia. repeat split; lia.
Qed.

(** Adding the floats of two natural numbers whose sum is below [2^53] is
    exact. *)
Lemma add_exact (a b : Z) :
  0 <= a -> 0 <= b -> a + b < 2 ^ 53 ->
  SFadd PyFloat.prec PyFloat.emax (PyFloat.of_Z a) (PyFloat.of_Z b) = PyFloat.of_Z (a + b).
Proof.
  intros Ha Hb Hab.
  destruct (Z.eq_dec a 0) as [->|Ha0].
  { rewrite Z.add_0_l. destruct (Z.eq_dec b 0) as [->|Hb0]; [reflexivity|].
    rewrite (of_Z_normal b) by lia. reflexivity. }
  destruct (Z.eq_dec b 0) as [->|Hb0].
  { rewrite Z.add_0_r. rewrite (of_Z_normal a) by lia. reflexivity. }
  rewrite (of_Z_normal a), (of_Z_normal b), (of_Z_normal (a + b)) by lia.
  destruct (normal_value a) as (ma & ea & -> & Hea & Hma & Hea0 & _); [lia|].
  destruct (normal_value b) as (mb & eb & -> & Heb & Hmb & Heb0 & _); [lia|].
  cbn [SFadd cond_Zopp].
  set (ez := Z.min ea eb).
  assert (Hez : ez <= ea /\ ez <= eb /\ ez <= 0) by (unfold ez; lia).
  rewrite !shl_align_value by lia.
  assert (Hsum : Z.pos ma * 2 ^ (ea - ez) + Z.pos mb * 2 ^ (eb - ez)
                 = (a + b) * 2 ^ (- ez)).
  { rewrite Hma, Hmb, <- !Z.mul_assoc, <- !Z.pow_add_r by lia.
    replace (- ea + (ea - ez)) with (- ez) by lia.
    replace (- eb + (eb - ez)) with (- ez) by lia. lia. }
  rewrite Hsum.
  assert (Hpos : 0 < (a + b) * 2 ^ (- ez))
    by (apply Z.mul_pos_pos; [lia | apply Z.pow_pos_nonneg; lia]).
  destruct ((a + b) * 2 ^ (- ez)) as [|M|M] eqn:HM; try lia.
  cbn [binary_normalize].
  replace ez with (- (- ez)) at 1 by lia.
  apply binary_round_exact; lia.
Qed.

Lemma one_eq : PyFloat.one = S754_finite false 4503599627370496 (-52).
Proof. reflexivity. Qed.

Lemma unit_float_bounds x :
  unit_float x -> SFleb (S754_zero false) x = true /\ SFleb x PyFloat.one = true.
Proof.
  intros (p & e & -> & H). split; [reflexivity|].
  rewrite one_eq. unfold SFleb, SFcompare.
  destruct H as [He | [-> ->]].
  - apply Z.compare_lt_iff in He. rewrite He. reflexivity.
  - reflexivity.
Qed.

Lemma rne_range m l : m <= round_nearest_even m l <= m + 1.
Proof.
  unfold round_nearest_even.
  destruct l as [|[]]; try lia. destruct (Z.even m); lia.
Qed.

Lemma round_tail_unit m e :
  2 ^ 52 <= m <= 2 ^ 53 -> -1074 <= e <= -53 ->
  unit_float (round_tail false m e).
Proof.
  intros Hm He.
  assert (H52 : 2 ^ 52 = 4503599627370496) by reflexivity.
  assert (H53 : 2 ^ 53 = 9007199254740992) by reflexivity.
  destruct (Z.eq_dec m (2 ^ 53)) as [->|Hne].
  - unfold round_tail, shr_fexp. rewrite fexp_eq.
    rewrite (Zdigits2_range (2 ^ 53) 54) by (simpl; lia).
    replace (Z.max (54 + e - 53) (-1074) - e) with 1 by lia.
    cbn [shr_record_of_loc].
    change (2 ^ 53) with (2 ^ 52 * 2 ^ 1).
    rewrite shr_exact by lia. cbn [shr_m].
    change (2 ^ 52) with (Z.pos 4503599627370496).
    replace (e + 1 <=? PyFloat.emax - PyFloat.prec) with true
      by (symmetry; apply Z.leb_le; unfold PyFloat.emax, PyFloat.prec; lia).
    exists 4503599627370496%positive, (e + 1). split; [reflexivity|]. lia.
  - rewrite round_tail_canonical by lia.
    exists (Z.to_pos m), e. split; [reflexivity|]. lia.
Qed.

Lemma shr_1_m m r s :
  0 <= m -> shr_m (shr_1 {| shr_m := m; shr_r := r; shr_s := s |}) = m / 2.
Proof.
  intros Hm. destruct m as [|[p|p|]|p]; try lia; cbn [shr_1 shr_m].
  - reflexivity.
  - apply (Z.div_unique (Z.pos p~1) 2 (Z.pos p) 1); lia.
  - apply (Z.div_unique (Z.pos p~0) 2 (Z.pos p) 0); lia.
  - reflexivity.
Qed.

Lemma shr_fexp_1 q e l :
  2 ^ 53 <= q < 2 ^ 54 -> -1074 <= e ->
  shr_fexp PyFloat.prec PyFloat.emax q e l = (shr_1 (shr_record_of_loc q l), e + 1).
Proof.
  intros Hq He. unfold shr_fexp. rewrite fexp_eq.
  rewrite (Zdigits2_range q 54) by (simpl; lia).
  replace (Z.max (54 + e - 53) (-1074) - e) with 1 by lia.
  reflexivity.
Qed.

Lemma shr_record_m q l : shr_m (shr_record_of_loc q l) = q.
Proof. destruct l as [|[]]; reflexivity. Qed.

(** Rounding a quotient below one lands in the unit interval. *)
Lemma round_quotient_unit q e l :
  2 ^ 52 <= q < 2 ^ 54 -> -1074 <= e ->
  (q < 2 ^ 53 -> e <= -53) ->
  (2 ^ 53 <= q -> e <= -54 \/ (e = -53 /\ q = 2 ^ 53 /\ l = loc_Exact)) ->
  unit_float (binary_round_aux PyFloat.prec PyFloat.emax false q e l).
Proof.
  intros Hq He Hsmall Hbig.
  assert (H52 : 2 ^ 52 = 4503599627370496) by reflexivity.
  assert (H53 : 2 ^ 53 = 9007199254740992) by reflexivity.
  assert (H54 : 2 ^ 54 = 18014398509481984) by reflexivity.
  rewrite binary_round_aux_tail.
  destruct (Z.lt_ge_cases q (2 ^ 53)) as [Hlt | Hge].
  - rewrite shr_fexp_0 by lia.
    rewrite shr_record_m.
    pose proof (rne_range q (loc_of_shr_record (shr_record_of_loc q l))).
    apply round_tail_unit; [lia|]. specialize (Hsmall Hlt). lia.
  - rewrite shr_fexp_1 by lia.
    destruct (Hbig Hge) as [He' | (-> & -> & ->)].
    + set (mrs := shr_1 (shr_record_of_loc q l)).
      assert (Hm : shr_m mrs = q / 2).
      { unfold mrs. destruct (shr_record_of_loc q l) as [m0 r0 s0] eqn:Hrec.
        assert (m0 = q) by (rewrite <- (shr_record_m q l), Hrec; reflexivity).
        subst m0. apply shr_1_m. lia. }
      pose proof (rne_range (shr_m mrs) (loc_of_shr_record mrs)) as Hr.
      rewrite Hm in *.
      assert (2 ^ 52 <= q / 2 < 2 ^ 53).
      { split.
        - apply Z.div_le_lower_bound; lia.
        - apply Z.div_lt_upper_bound; lia. }
      apply round_tail_unit; lia.
    + cbn [shr_record_of_loc].
      change (2 ^ 53) with (2 * 2 ^ 52).
      rewrite shr_1_even by lia.
      cbn [shr_m loc_of_shr_record round_nearest_even].
      rewrite round_tail_canonical by lia.
      exists (Z.to_pos (2 ^ 52)), (-53 + 1). split; [reflexivity|].
      right. split; reflexivity.
Qed.

Lemma new_location_0 n : new_location n 0 = loc_Exact.
Proof. unfold new_location. destruct (Z.even n); reflexivity. Qed.

Lemma Zdigits2_mono a b : 0 < a <= b -> Zdigits2 a <= Zdigits2 b.
Proof.
  intros H. destruct a as [|p|p], b as [|q|q]; try lia. cbn [Zdigits2].
  pose proof (digits2_bounds p) as [Hlo _].
  pose proof (digits2_bounds q) as [_ Hhi].
  destruct (Z.le_gt_cases (Z.pos (digits2_pos p)) (Z.pos (digits2_pos q)));
    [assumption|].
  assert (2 ^ Z.pos (digits2_pos q) <= 2 ^ (Z.pos (digits2_pos p) - 1))
    by (apply Z.pow_le_mono_r; lia).
  lia.
Qed.

(** The quotient of the floats of two positive integers [c <= n] below
    [2^53] is in the unit interval. *)
Lemma div_unit (c n : Z) :
  0 < c <= n -> n < 2 ^ 53 ->
  unit_float (SFdiv PyFloat.prec PyFloat.emax (normal c) (normal n)).
Proof.
  intros Hc Hn.
  assert (H52 : 2 ^ 52 = 4503599627370496) by reflexivity.
  assert (H53 : 2 ^ 53 = 9007199254740992) by reflexivity.
  assert (H54 : 2 ^ 54 = 18014398509481984) by reflexivity.
  pose proof (Zdigits2_mono c n Hc) as Hmono.
  destruct (normal_range c) as [Hdc _]; [lia|].
  destruct (normal_range n) as [Hdn _]; [lia|].
  destruct (normal_value c) as (mc & ec & -> & Hec & Hmc & _ & Hrc); [lia|].
  destruct (normal_value n) as (mn & en & -> & Hen & Hmn & _ & Hrn); [lia|].
  cbn [SFdiv xorb]. unfold SFdiv_core_binary.
  rewrite (Zdigits2_range (Z.pos mc) 53), (Zdigits2_range (Z.pos mn) 53)
    by (simpl; lia).
  rewrite fexp_eq.
  replace (Z.min (Z.max (53 + ec - (53 + en) - 53) (-1074)) (ec - en))
    with (ec - en - 53) by lia.
  replace (ec - en - (ec - en - 53)) with 53 by lia.
  rewrite Z.shiftl_mul_pow2 by lia.
  pose proof (Z_div_mod (Z.pos mc * 2 ^ 53) (Z.pos mn) eq_refl) as Hdiv.
  destruct (Z.div_eucl (Z.pos mc * 2 ^ 53) (Z.pos mn)) as [q r].
  destruct Hdiv as [Heq Hr].
  rewrite H53 in Heq.
  assert (Hq : 2 ^ 52 <= q < 2 ^ 54) by (rewrite H52, H54; split; nia).
  apply round_quotient_unit.
  - exact Hq.
  - lia.
  - intros _. lia.
  - intros Hbig.
    destruct (Z.eq_dec (Zdigits2 c) (Zdigits2 n)) as [Hd | Hd]; [|left; lia].
    right.
    assert (Hle : Z.pos mc <= Z.pos mn).
    { rewrite Hmc, Hmn, Hec, Hen, Hd.
      apply Z.mul_le_mono_nonneg_r; [apply Z.pow_nonneg|]; lia. }
    assert (Z.pos mc = Z.pos mn /\ q = 2 ^ 53 /\ r = 0) as (_ & -> & ->)
      by (rewrite H53 in *; repeat split; nia).
    rewrite new_location_0. repeat split; lia.
Qed.

Lemma div_of_Z_unit (c n : Z) :
  0 <= c <= n -> 0 < n < 2 ^ 53 ->
  SFleb (S754_zero false) (SFdiv PyFloat.prec PyFloat.emax (PyFloat.of_Z c) (PyFloat.of_Z n)) = true /\
  SFleb (SFdiv PyFloat.prec PyFloat.emax (PyFloat.of_Z c) (PyFloat.of_Z n)) PyFloat.one = true.
Proof.
  intros Hc Hn. rewrite (of_Z_normal n) by lia.
  destruct (Z.eq_dec c 0) as [->|Hc0].
  - destruct (normal_value n) as (mn & en & -> & _); [lia|].
    split; reflexivity.
  - rewrite (of_Z_normal c) by lia.
    apply unit_float_bounds, div_unit; lia.
Qed.

Lemma iter_shr_nonneg (j : nat) mrs :
  0 <= shr_m mrs -> 0 <= shr_m (Nat.iter j shr_1 mrs).
Proof.
  induction j as [|j IH]; intros H; [exact H|].
  simpl. specialize (IH H).
  destruct (Nat.iter j shr_1 mrs) as [m r s]. cbn [shr_m] in IH.
  rewrite shr_1_m by exact IH.
  apply Z.div_pos; lia.
Qed.

Lemma shr_fexp_nonneg m e l :
  0 <= m -> 0 <= shr_m (fst (shr_fexp PyFloat.prec PyFloat.emax m e l)).
Proof.
  intros Hm. unfold shr_fexp, shr.
  destruct (fexp PyFloat.prec PyFloat.emax (Zdigits2 m + e) - e) as [|p|p]; cbn [fst];
    rewrite ?iter_pos_nat; try apply iter_shr_nonneg;
    rewrite shr_record_m; exact Hm.
Qed.

Lemma round_tail_signed s m e : 0 <= m -> signed s (round_tail s m e).
Proof.
  intros Hm. unfold round_tail.
  pose proof (shr_fexp_nonneg m e loc_Exact Hm) as H.
  destruct (shr_fexp PyFloat.prec PyFloat.emax m e loc_Exact) as [mrs e']. cbn [fst] in H.
  destruct (shr_m mrs) as [|p|p]; try lia; [reflexivity|].
  destruct (e' <=? PyFloat.emax - PyFloat.prec); reflexivity.
Qed.

Lemma binary_round_aux_signed s m e l :
  0 <= m -> signed s (binary_round_aux PyFloat.prec PyFloat.emax s m e l).
Proof.
  intros Hm. rewrite binary_round_aux_tail.
  pose proof (shr_fexp_nonneg m e l Hm) as H.
  destruct (shr_fexp PyFloat.prec PyFloat.emax m e l) as [mrs e']. cbn [fst] in H.
  apply round_tail_signed.
  pose proof (rne_range (shr_m mrs) (loc_of_shr_record mrs)). lia.
Qed.

Lemma of_Z_pos_signed n : 0 < n -> signed false (PyFloat.of_Z n).
Proof.
  intros Hn. destruct n as [|p|p]; try lia.
  unfold PyFloat.of_Z. cbn [binary_normalize]. unfold binary_round.
  destruct (shl_align p 0 _) as [mz ez].
  apply binary_round_aux_signed. lia.
Qed.

Lemma div_signed s mx ex my ey :
  signed s (SFdiv PyFloat.prec PyFloat.emax (S754_finite s mx ex) (S754_finite false my ey)).
Proof.
  cbn [SFdiv]. unfold SFdiv_core_binary.
  set (m' := match _ - _ - _ with Z0 => _ | Zpos _ => _ | Zneg _ => _ end).
  assert (Hm' : 0 <= m').
  { unfold m'. destruct (_ - _ - _) as [|p|p]; try lia.
    rewrite Z.shiftl_mul_pow2 by lia.
    apply Z.mul_nonneg_nonneg; [lia | apply Z.pow_nonneg; lia]. }
  pose proof (Z_div_mod m' (Z.pos my) eq_refl) as Hdiv.
  destruct (Z.div_eucl m' (Z.pos my)) as [q r]. destruct Hdiv as [Heq Hr].
  replace (xorb s false) with s by (destruct s; reflexivity).
  apply binary_round_aux_signed. nia.
Qed.

(** ** The accuracy is a fraction; the error is no negative number *)

Lemma num_rows_nonneg tf : 0 <= num_rows tf.
Proof. unfold num_rows. destruct (labels tf); lia. Qed.

Lemma total_rows_nonneg bs : 0 <= total_rows bs.
Proof.
  induction bs as [|b bs IH]; simpl; [lia|].
  pose proof (num_rows_nonneg (eb_frame b)). unfold eb_size. lia.
Qed.

Lemma total_correct_bounds bs : 0 <= total_correct bs <= total_rows bs.
Proof.
  induction bs as [|b bs IH]; simpl; [lia|].
  pose proof (correct_count_bounds (eb_frame b) (eb_aux b)).
  unfold eb_size. lia.
Qed.

(** What a batch adds to [accum] when the predicted classes come one per
    row: the number of rows that are classified correctly. *)
Lemma one_per_row_score b :
  test_batch_read true b -> one_per_row b ->
  eb_score b = PyFloat.of_Z (correct_count (eb_frame b) (eb_aux b)).
Proof.
  intros (hits & count & Heq & Hsum & Hitem) Hshape.
  eapply eq_sum_item; eassumption.
Qed.

(** With fewer than [2^53] rows the accumulated count of correct rows is
    exact. *)
Lemma score_sum_exact bs : forall a,
  Forall (test_batch_read true) bs -> Forall one_per_row bs ->
  0 <= a -> a + total_rows bs < 2 ^ 53 ->
  fold_left (fun acc b => PyFloat.add acc (eb_score b)) bs (PyFloat.of_Z a) =
  PyFloat.of_Z (a + total_correct bs).
Proof.
  induction bs as [|b bs IH]; intros a Hread Hshape Ha Hlt.
  - simpl. rewrite Z.add_0_r. reflexivity.
  - inversion Hread as [|? ? Hb Hbs]. inversion Hshape as [|? ? Hsb Hsbs].
    subst. simpl in *.
    rewrite (one_per_row_score b Hb Hsb).
    pose proof (correct_count_bounds (eb_frame b) (eb_aux b)) as Hc.
    pose proof (total_rows_nonneg bs) as Hn.
    unfold eb_size in Hlt.
    unfold PyFloat.add. rewrite add_exact by lia.
    rewrite IH by (assumption || lia).
    f_equal. lia.
Qed.

Lemma accuracy_fraction bs :
  Forall (test_batch_read true) bs -> Forall one_per_row bs ->
  0 < total_rows bs < 2 ^ 53 ->
  mean_score bs =
    PyFloat.div (PyFloat.of_Z (total_correct bs)) (PyFloat.of_Z (total_rows bs)) /\
  PyFloat.leb PyFloat.zero (mean_score bs) = true /\
  PyFloat.leb (mean_score bs) PyFloat.one = true.
Proof.
  intros Hread Hshape Hn.
  assert (Hsum : score_sum bs = PyFloat.of_Z (total_correct bs)).
  { unfold score_sum. change PyFloat.zero with (PyFloat.of_Z 0).
    rewrite score_sum_exact by (assumption || lia). reflexivity. }
  unfold mean_score. rewrite Hsum. split; [reflexivity|].
  apply div_of_Z_unit; [apply total_correct_bounds | exact Hn].
Qed.

(** The power 0.5 of a number is NaN for NaN and at least zero for every
    other number. *)
Lemma pow_half_run_nan evs x : pow_half_run PyFloat.nan evs x -> x = PyFloat.nan.
Proof.
  intros [[H _] | [H _]]; simpl in H; [|discriminate].
  inversion H. reflexivity.
Qed.

Lemma pow_half_run_nonneg d evs x :
  pow_half_run d evs x -> PyFloat.is_nan d = false ->
  PyFloat.leb PyFloat.zero x = true.
Proof.
  intros [[H _] | [_ (p & _ & ->)]] Hd; [|reflexivity].
  destruct d as [sq|sq| |sq mq eq]; simpl in H.
  - inversion H. reflexivity.
  - inversion H. reflexivity.
  - discriminate.
  - destruct sq; [discriminate|].
    destruct (PyFloat.eqb _ _); inversion H. reflexivity.
Qed.

(** The power 0.5 of the mean is no negative number: it is NaN when the
    accumulated sum is NaN and at least zero otherwise. *)
Lemma rmse_sign (accum : float) (n : Z) (evs : list event) (x : float) :
  0 < n ->
  PyFloat.is_finite (PyFloat.of_Z n) = true ->
  PyFloat.is_zero (PyFloat.of_Z n) = false ->
  pow_half_run (PyFloat.div accum (PyFloat.of_Z n)) evs x ->
  (PyFloat.is_nan accum = true -> x = PyFloat.nan) /\
  (PyFloat.is_nan accum = false -> PyFloat.leb PyFloat.zero x = true).
Proof.
  intros Hn Hfin Hzero Hpow.
  pose proof (of_Z_pos_signed n Hn) as Hsign.
  destruct (PyFloat.of_Z n) as [|?| |sn mn en]; try discriminate.
  simpl in Hsign. subst sn.
  split.
  - intros Ha. destruct accum; try discriminate.
    apply (pow_half_run_nan evs). exact Hpow.
  - intros Ha. apply (pow_half_run_nonneg _ evs x Hpow).
    destruct accum as [sa|sa| |sa ma ea]; try reflexivity; [discriminate|].
    pose proof (div_signed sa ma ea mn en) as Hq.
    unfold PyFloat.div.
    destruct (SFdiv PyFloat.prec PyFloat.emax (S754_finite sa ma ea)
                (S754_finite false mn en)); try reflexivity.
    destruct Hq.
Qed.

(** ** The printed lines *)

Lemma is_digit_digit d : 0 <= d < 10 -> Argparse.is_digit (PyFormat.digit d) = true.
Proof.
  intros H.
  assert (Hd : d = 0 \/ d = 1 \/ d = 2 \/ d = 3 \/ d = 4 \/ d = 5 \/ d = 6 \/
               d = 7 \/ d = 8 \/ d = 9) by lia.
  repeat (destruct Hd as [-> | Hd]; [reflexivity|]). subst. reflexivity.
Qed.

Lemma four_digits_shape n :
  String.length (PyFormat.four_digits n) = 4%nat /\
  Argparse.all_digits (PyFormat.four_digits n) = true.
Proof.
  split; [reflexivity|]. unfold PyFormat.four_digits. cbn [Argparse.all_digits].
  rewrite !is_digit_digit by (apply Z.mod_pos_bound; lia). reflexivity.
Qed.

Lemma string_of_uint_digits d :
  Argparse.all_digits (NilEmpty.string_of_uint d) = true.
Proof. induction d; simpl; auto. Qed.

Lemma decimal_shape n :
  PyFormat.decimal n <> ""%string /\ Argparse.all_digits (PyFormat.decimal n) = true.
Proof.
  unfold PyFormat.decimal, NilZero.string_of_uint.
  destruct (N.to_uint (Z.to_N n)) eqn:Hd;
    (split; [simpl; discriminate | try reflexivity]);
    rewrite <- Hd; try (rewrite Hd; apply string_of_uint_digits).
Qed.

Lemma fixed4_shape s n : has_four_decimals (PyFormat.sign_prefix s (PyFormat.fixed4 n)).
Proof.
  destruct (decimal_shape (n / 10000)) as [Hne Hall].
  destruct (four_digits_shape (n mod 10000)) as [Hlen Hfrac].
  exists (if s then "-" else "")%string, (PyFormat.decimal (n / 10000)),
         (PyFormat.four_digits (n mod 10000)).
  repeat split; auto.
  - destruct s; reflexivity.
  - destruct s; auto.
Qed.

(** A finite float prints with exactly four decimals. *)
Lemma float_4f_finite x :
  PyFloat.is_finite x = true -> has_four_decimals (PyFormat.float_4f x).
Proof.
  destruct x as [s|s| |s m e]; try discriminate; intros _; apply fixed4_shape.
Qed.

Lemma num_4f_metric a :
  is_metric a -> PyFormat.num_4f a = Ok (four_decimals a).
Proof.
  destruct a as [n|x]; simpl; intros H; subst; reflexivity.
Qed.

Lemma epoch_line_metric label m line :
  is_metric (em_train_loss m) -> is_metric (em_train_metric m) ->
  is_metric (em_val_metric m) -> is_metric (em_test_metric m) ->
  epoch_line label (em_train_loss m) (em_train_metric m)
    (em_val_metric m) (em_test_metric m) = Ok line ->
  line = printed_epoch label m.
Proof.
  intros H1 H2 H3 H4. unfold epoch_line.
  rewrite !num_4f_metric by assumption. simpl.
  intros H. inversion H. reflexivity.
Qed.

Section ScriptProof.

Variable W : Type.
Variable handle : forall A : Type, ext A -> W -> outcome A * W.
Variable is_grad_enabled : W -> bool.
Variable set_grad_enabled : bool -> W -> W.
Variable int_of_str : string -> option Z.
Variable float_of_str : string -> option float.

Let runs := runs_epochs W handle is_grad_enabled set_grad_enabled.

Lemma train_returns_float g epoch s r s' :
  train W handle g epoch s = (Ok r, s') -> exists x, r = Float x.
Proof.
  intros H. apply train_Ok in H as (? & ? & _ & _ & _ & _ & _ & _ & ->).
  eauto.
Qed.

Lemma runs_epochs_printed g epochs s ms s' :
  runs g epochs s ms s' ->
  stdout s' = stdout s ++
    map (printed_epoch (metric_name (g_is_classification g))) ms.
Proof.
  induction 1 as [|? ? ? ? ? ? ? ? ? m ms line Htrain Htm Hvm Hxm Hline Hprint
                    Hruns IH].
  - simpl. rewrite app_nil_r. reflexivity.
  - pose proof Htrain as Htl. apply train_returns_float in Htl as [tl Htl].
    pose proof Htm as Htm'. apply test_returns_float in Htm' as [tm Htm'].
    pose proof Hvm as Hvm'. apply test_returns_float in Hvm' as [vm Hvm'].
    pose proof Hxm as Hxm'. apply test_returns_float in Hxm' as [xm Hxm'].
    apply epoch_line_metric in Hline;
      [| rewrite Htl | rewrite Htm' | rewrite Hvm' | rewrite Hxm']; try exact I.
    apply train_Ok in Htrain as (? & ? & _ & _ & _ & _ & Eo1 & _).
    apply test_Ok in Htm as (? & ? & ? & _ & _ & _ & Eo2 & _).
    apply test_Ok in Hvm as (? & ? & ? & _ & _ & _ & Eo3 & _).
    apply test_Ok in Hxm as (? & ? & ? & _ & _ & _ & Eo4 & _).
    apply print_Ok in Hprint as [_ Eo5].
    simpl. rewrite IH, Eo5, Eo4, Eo3, Eo2, Eo1, <- app_assoc, Hline.
    reflexivity.
Qed.

Lemma runs_epochs_test_metric g epochs s ms s' :
  runs g epochs s ms s' ->
  forall m, In m ms -> is_metric (em_test_metric m).
Proof.
  induction 1 as [|? ? ? ? ? ? ? ? ? m ms ? ? ? ? Hxm]; intros m' Hin.
  - destruct Hin.
  - destruct Hin as [<- | Hin]; [|auto].
    apply test_returns_float in Hxm as [x ->]. exact I.
Qed.

Lemma fold_update_metric is_cls ms : forall best,
  (forall m, In m ms -> is_metric (em_val_metric m) /\ is_metric (em_test_metric m)) ->
  is_metric (fst best) -> is_metric (snd best) ->
  let best' := fold_left (fun b m =>
                 update_best is_cls (em_val_metric m) (em_test_metric m) b) ms best in
  is_metric (fst best') /\ is_metric (snd best').
Proof.
  induction ms as [|m ms IH]; intros best Hm H1 H2; simpl; [auto|].
  apply IH.
  - intros m' Hin. apply Hm. right. exact Hin.
  - rewrite update_best_spec. destruct (improves _ _ _); [|exact H1].
    apply Hm. left. reflexivity.
  - rewrite update_best_spec. destruct (improves _ _ _); [|exact H2].
    apply Hm. left. reflexivity.
Qed.

(** The shape of a run of the epoch loop that returns. *)
Lemma epoch_loop_Ok g epochs s s' :
  epoch_loop W handle is_grad_enabled set_grad_enabled g epochs s = (Ok tt, s') ->
  exists ms best s1,
    for_each (range 1 (epochs + 1))
      (epoch_body W handle is_grad_enabled set_grad_enabled g)
      (initial_best (g_is_classification g)) s = (Ok best, s1) /\
    runs g (range 1 (epochs + 1)) s ms s1 /\
    length ms = Z.to_nat epochs /\
    best_selection (g_is_classification g) ms best /\
    stdout s' = stdout s ++
      map (printed_epoch (metric_name (g_is_classification g))) ms ++
      [printed_best (metric_name (g_is_classification g)) best].
Proof.
  unfold epoch_loop. intros H.
  apply bind_Ok in H as (best & s1 & Hloop & H).
  apply bind_Ok in H as (line & s2 & Hline & Hprint).
  apply lift_Ok in Hline as [Hline ->].
  apply print_Ok in Hprint as [_ Eo].
  destruct (epochs_Ok _ _ _ _ _ _ _ _ _ _ Hloop) as (ms & Hruns & Hbest).
  exists ms, best, s1. split; [exact Hloop|]. split; [exact Hruns|].
  pose proof (runs_epochs_metric _ _ _ _ _ _ _ _ _ Hruns) as Hval.
  pose proof (runs_epochs_test_metric _ _ _ _ _ Hruns) as Htest.
  split.
  { rewrite (runs_epochs_length _ _ _ _ _ _ _ _ _ Hruns), range_length.
    f_equal. lia. }
  split.
  { apply best_invariant_selection; [exact Hval|].
    rewrite Hbest. apply best_invariant_fold. exact Hval. }
  destruct (fold_update_metric (g_is_classification g) ms
              (initial_best (g_is_classification g))) as [Hb1 Hb2].
  { intros m Hin. split; auto. }
  { apply initial_best_metric. }
  { destruct (g_is_classification g); simpl; auto. }
  rewrite <- Hbest in Hb1, Hb2.
  unfold best_line in Hline. rewrite !num_4f_metric in Hline by assumption.
  simpl in Hline. injection Hline as Hl. subst line.
  rewrite Eo, (runs_epochs_printed _ _ _ _ _ Hruns), <- app_assoc.
  reflexivity.
Qed.

(** The shape of a run of the script that returns. *)
Lemma script_Ok argv s s' :
  script W handle is_grad_enabled set_grad_enabled int_of_str float_of_str
    argv s = (Ok tt, s') ->
  exists ns args g s0,
    Argparse.parse_args int_of_str float_of_str argv = Ok ns /\
    Argparse.to_args ns = Ok args /\
    setup W handle args s = (Ok g, s0) /\
    stdout s0 = stdout s /\
    epoch_loop W handle is_grad_enabled set_grad_enabled g (arg_epochs args) s0
      = (Ok tt, s').
Proof.
  unfold script. intros H.
  apply bind_Ok in H as (ns & s1 & Hns & H). apply lift_Ok in Hns as [Hns ->].
  apply bind_Ok in H as (args & s1 & Hargs & H). apply lift_Ok in Hargs as [Hargs ->].
  apply bind_Ok in H as (g & s0 & Hsetup & H).
  exists ns, args, g, s0. repeat split; auto.
  apply setup_Ok in Hsetup as (evs & _ & Eo & _). exact Eo.
Qed.

End ScriptProof.

(** ** The first token of every sequence *)

Lemma first_rows_lookup {A} (B : nat) : forall (stride D : nat) (data : list A) b d,
  (b < B)%nat -> (d < D)%nat -> (D <= stride)%nat ->
  (B * stride <= length data)%nat ->
  Torch.first_rows B stride D data !! (b * D + d)%nat =
  data !! (b * stride + d)%nat.
Proof.
  induction B as [|B IH]; intros stride D data b d Hb Hd HD Hlen; [lia|].
  simpl in Hlen. cbn [Torch.first_rows].
  assert (Htake : length (take D data) = D) by (rewrite length_take; lia).
  destruct b as [|b].
  - simpl. rewrite lookup_app_l by lia. apply lookup_take_lt. exact Hd.
  - rewrite lookup_app_r by (rewrite Htake; simpl; lia).
    rewrite Htake.
    replace (S b * D + d - D)%nat with (b * D + d)%nat by (simpl; lia).
    rewrite IH; try lia.
    + rewrite lookup_drop. f_equal. simpl. lia.
    + rewrite length_drop. lia.
Qed.

Lemma select_first_entries (B T D : nat) (data : list float) (t : Tensor) :
  length data = (B * (T * D))%nat ->
  Torch.select_first
    (FloatTensor [Z.of_nat B; Z.of_nat T; Z.of_nat D] data) = Ok t ->
  exists data',
    t = FloatTensor [Z.of_nat B; Z.of_nat D] data' /\
    forall b d, (b < B)%nat -> (d < D)%nat ->
      entry2 D data' b d = entry3 T D data b 0 d.
Proof.
  intros Hlen. unfold Torch.select_first.
  destruct (Z.of_nat T <=? 0) eqn:HT; [discriminate|].
  apply Z.leb_gt in HT.
  intros H. inversion H. subst. eexists. split; [reflexivity|].
  intros b d Hb Hd. unfold entry2, entry3.
  rewrite <- Nat2Z.inj_mul, !Nat2Z.id.
  rewrite first_rows_lookup; try lia.
  - f_equal. lia.
  - destruct T; [lia|]. simpl. lia.
Qed.

(** ** The command line *)

Section ArgparseProof.

Import Argparse.

Variable int_of_str : string -> option Z.
Variable float_of_str : string -> option float.

Lemma find_option_In p o a : find_option p o = Some a -> In a p.
Proof. unfold find_option. intros H. apply List.find_some in H as [H _]. exact H. Qed.

Lemma abbreviations_In p prefix a : In a (abbreviations p prefix) -> In a p.
Proof.
  unfold abbreviations. rewrite in_flat_map. intros (a' & Hin & H).
  apply in_map_iff in H as (o & <- & _). exact Hin.
Qed.

Lemma short_candidates_In p w a e : In (a, e) (short_candidates p w) -> In a p.
Proof.
  unfold short_candidates. rewrite in_flat_map. intros (a' & Hin & H).
  apply in_flat_map in H as (o & _ & H).
  destruct (String.eqb o _); [destruct H as [H|[]]; congruence|].
  destruct (String.prefix w o); [destruct H as [H|[]]; congruence | destruct H].
Qed.

Lemma classify_In p w a e : classify p w = Optional a e -> In a p.
Proof.
  unfold classify. destruct w as [|c0 [|c w']]; try discriminate.
  destruct (negb (Ascii.eqb c0 "-")); [discriminate|].
  destruct (find_option p _) as [a0|] eqn:Hfind.
  { intros H. inversion H. subst. eapply find_option_In. exact Hfind. }
  destruct (split_eq _) as [name explicit].
  assert (Hcand : forall cands : list (argument * option string),
            (forall a' e', In (a', e') cands -> In a' p) ->
            match cands with
            | [(a1, e1)] => Optional a1 e1
            | _ :: _ :: _ => Ambiguous
            | [] => if negative_number_like (String c0 (String c w')) then Positional
                    else if has_space (String c0 (String c w')) then Positional
                    else Unknown
            end = Optional a e -> In a p).
  { intros cands Hc. destruct cands as [|[a1 e1] [|? ?]].
    - destruct (negative_number_like _); [discriminate|].
      destruct (has_space _); discriminate.
    - intros H. inversion H. subst. apply (Hc a e). left. reflexivity.
    - discriminate. }
  assert (Hcands : forall a' e',
            In (a', e') (if Ascii.eqb c "-"
                         then map (fun a => (a, explicit)) (abbreviations p name)
                         else short_candidates p (String c0 (String c w'))) ->
            In a' p).
  { intros a' e'. destruct (Ascii.eqb c "-").
    - intros H. apply in_map_iff in H as (a1 & Heq & H). inversion Heq. subst.
      eapply abbreviations_In. exact H.
    - apply short_candidates_In. }
  destruct explicit as [v|].
  - destruct (find_option p name) as [a1|] eqn:Hname.
    + intros H. inversion H. subst. eapply find_option_In. exact Hname.
    + apply Hcand. exact Hcands.
  - apply Hcand. exact Hcands.
Qed.

(** An invariant of the namespace that every stored value keeps holds at
    the end of a successful parse. *)
Lemma consume_preserves (P : namespace -> Prop) p :
  (forall a ns, In a p -> act a = store_true -> P ns ->
     P (<[dest a := PBool true]> ns)) ->
  (forall a t choices s v ns, In a p -> act a = store t choices ->
     get_value int_of_str float_of_str t choices s = Some v -> P ns ->
     P (<[dest a := v]> ns)) ->
  forall n words ns extras ns',
    (length words <= n)%nat -> P ns ->
    consume int_of_str float_of_str p words ns extras = Ok ns' -> P ns'.
Proof.
  intros Htrue Hstore. induction n as [|n IH]; intros words ns extras ns' Hlen HP.
  - destruct words; [|simpl in Hlen; lia]. simpl.
    destruct extras; [discriminate|]. intros H. inversion H. subst. exact HP.
  - destruct words as [|w rest]; simpl.
    { destruct extras; [discriminate|]. intros H. inversion H. subst. exact HP. }
    simpl in Hlen.
    destruct (String.eqb w "--"); [discriminate|].
    destruct (classify p w) as [| a explicit | |] eqn:Hclass; try discriminate.
    + apply IH; [lia | exact HP].
    + pose proof (classify_In _ _ _ _ Hclass) as Hin.
      destruct (act a) as [t choices| |] eqn:Hact.
      * destruct explicit as [s|].
        -- destruct (get_value _ _ t choices s) as [v|] eqn:Hv; [|discriminate].
           apply IH; [lia|]. eapply Hstore; eauto.
        -- destruct rest as [|s rest']; [discriminate|].
           destruct (classify p s); try discriminate.
           destruct (String.eqb s "--"); [discriminate|].
           destruct (get_value _ _ t choices s) as [v|] eqn:Hv; [|discriminate].
           apply IH; [simpl in Hlen; lia|]. eapply Hstore; eauto.
      * destruct explicit; [discriminate|].
        apply IH; [lia|]. eapply Htrue; eauto.
      * destruct explicit; [destruct (negb _ && _)|]; discriminate.
    + apply IH; [lia | exact HP].
Qed.

(** A successful parse has met no word it does not know, and no help. *)
Lemma consume_accepts p : forall n words ns extras ns',
  (length words <= n)%nat ->
  consume int_of_str float_of_str p words ns extras = Ok ns' ->
  extras = false /\
  Forall (fun w => match classify p w with
                   | Optional a _ => In a p /\ act a <> help
                   | Positional => True
                   | Unknown | Ambiguous => False
                   end) words.
Proof.
  induction n as [|n IH]; intros words ns extras ns' Hlen.
  - destruct words; [|simpl in Hlen; lia]. simpl.
    destruct extras; [discriminate|]. intros _. split; [reflexivity | constructor].
  - destruct words as [|w rest]; simpl.
    { destruct extras; [discriminate|]. intros _. split; [reflexivity | constructor]. }
    simpl in Hlen.
    destruct (String.eqb w "--"); [discriminate|].
    destruct (classify p w) as [| a explicit | |] eqn:Hclass; try discriminate.
    + intros H. apply IH in H as [Hx _]; [discriminate | lia].
    + pose proof (classify_In _ _ _ _ Hclass) as Hin.
      destruct (act a) as [t choices| |] eqn:Hact.
      * destruct explicit as [s|].
        -- destruct (get_value _ _ t choices s) as [v|]; [|discriminate].
           intros H. apply IH in H as [Hx Hall]; [|lia].
           split; [exact Hx|]. constructor; [|exact Hall].
           rewrite Hclass. split; [exact Hin | congruence].
        -- destruct rest as [|s rest']; [discriminate|].
           destruct (classify p s) eqn:Hs; try discriminate.
           destruct (String.eqb s "--"); [discriminate|].
           destruct (get_value _ _ t choices s) as [v|]; [|discriminate].
           intros H. apply IH in H as [Hx Hall]; [|simpl in Hlen; lia].
           split; [exact Hx|]. constructor; [|constructor; [|exact Hall]].
           ++ rewrite Hclass. split; [exact Hin | congruence].
           ++ rewrite Hs. exact I.
      * destruct explicit; [discriminate|].
        intros H. apply IH in H as [Hx Hall]; [|lia].
        split; [exact Hx|]. constructor; [|exact Hall].
        rewrite Hclass. split; [exact Hin | congruence].
      * destruct explicit; [destruct (negb _ && _)|]; discriminate.
    + intros H. apply IH in H as [Hx _]; [discriminate | lia].
Qed.








End ArgparseProof.

(** ** Runs of the text embedder *)

Section EmbedProof.

Variable W : Type.
Variable handle : forall A : Type, ext A -> W -> outcome A * W.

Lemma move_inputs_Ok d (entries : list (string * value)) : forall inputs s r s',
  for_each entries (move_input W handle d) inputs s = (Ok r, s') ->
  r = inputs /\
  exists evs, trace s' = trace s ++ evs /\
              omap (fun ev => match ev with
                              | Called (TextModelCall _ _) _ => Some tt
                              | Called _ _ => None
                              end) evs = [].
Proof.
  induction entries as [|[k v] entries IH]; intros inputs s r s' H.
  - simpl in H. apply ret_Ok in H as [-> ->]. split; [reflexivity|].
    exists []. rewrite app_nil_r. split; reflexivity.
  - simpl in H. apply bind_Ok in H as (inputs1 & s1 & Hmove & Hrest).
    unfold move_input in Hmove. simpl in Hmove.
    destruct v as [t|o].
    + apply bind_Ok in Hmove as ([] & s2 & Hcall & Hret).
      apply ret_Ok in Hret as [-> ->].
      apply (call_Ok _ handle) in Hcall as [Et _].
      destruct (IH _ _ _ _ Hrest) as (-> & evs & Et' & Hnone).
      split; [reflexivity|].
      exists (Called (TensorTo t d) (Ok tt) :: evs). split.
      * rewrite Et', Et, <- app_assoc. reflexivity.
      * simpl. exact Hnone.
    + apply ret_Ok in Hmove as [-> ->]. eapply IH. exact Hrest.
Qed.

(** The shape of a run of [__call__] that returns. *)
Lemma embed_Ok self sentences s t s' :
  SimpleTextToEmbedding_call W handle self sentences s = (Ok t, s') ->
  exists inputs moves out,
    trace s' = trace s ++
      Called (Tokenize (tokenizer self) sentences) (Ok inputs) :: moves ++
      [ Called (TextModelCall (model self) inputs) (Ok out);
        Called (Detach t) (Ok tt);
        Called (TensorTo t Cpu) (Ok tt) ] /\
    Torch.select_first (last_hidden_state out) = Ok t.
Proof.
  unfold SimpleTextToEmbedding_call. intros H.
  apply bind_Ok in H as (inputs & s1 & H1 & H).
  apply bind_Ok in H as (inputs' & s2 & H2 & H).
  apply bind_Ok in H as (out & s3 & H3 & H).
  apply bind_Ok in H as (first & s4 & H4 & H).
  apply lift_Ok in H4 as [Hsel ->].
  apply bind_Ok in H as ([] & s5 & H5 & H).
  apply bind_Ok in H as ([] & s6 & H6 & H).
  apply ret_Ok in H as [-> ->].
  apply move_inputs_Ok in H2 as (-> & moves & Et2 & _).
  apply (call_Ok _ handle) in H1 as [Et1 _].
  apply (call_Ok _ handle) in H3 as [Et3 _].
  apply (call_Ok _ handle) in H5 as [Et5 _].
  apply (call_Ok _ handle) in H6 as [Et6 _].
  exists inputs, moves, out. split; [|exact Hsel].
  rewrite Et6, Et5, Et3, Et2, Et1. repeat rewrite <- app_assoc. reflexivity.
Qed.

End EmbedProof.

(** ** The framework that is right on every sample *)

Lemma count_true_self (l : list Z) :
  Torch.count_true (zip_with Z.eqb l l) = Z.of_nat (length l).
Proof.
  unfold Torch.count_true.
  induction l as [|a l IH]; [reflexivity|].
  cbn [zip_with]. rewrite Z.eqb_refl. cbn [List.filter length].
  rewrite !Nat2Z.inj_succ, IH. reflexivity.
Qed.

Lemma eq_self (l : list Z) :
  Torch.eq (y (Probe.class_frame l)) (y (Probe.class_frame l)) =
  Ok (BoolTensor [Z.of_nat (length l)] (zip_with Z.eqb l l)).
Proof.
  unfold Torch.eq, Torch.eq_entries, Torch.shape_eqb, y, Probe.class_frame.
  cbn [labels]. rewrite bool_decide_true by reflexivity. reflexivity.
Qed.

Lemma exact_step batches l fa a n s :
  PyNum.to_float fa = Ok a ->
  test_step Probe.W (Probe.exact batches) Probe.g (Probe.class_frame l)
    (fa, Int n) s =
  (Ok (Float (PyFloat.add a (PyFloat.of_Z (Z.of_nat (length l)))),
       Int (n + Z.of_nat (length l))),
   {| world := world s;
      trace := trace s ++ test_batch_events Probe.g (Probe.exact_batch l);
      stdout := stdout s |}).
Proof.
  intros Ha.
  unfold test_step, batch_score, bind, call, lift, ret.
  cbn [Probe.exact Probe.g Demo.globals_of g_is_classification Demo.classifier
       Demo.classification g_device g_model Demo.answer fst snd world trace stdout].
  rewrite eq_self. cbn [Torch.sum Torch.item]. rewrite count_true_self.
  rewrite (to_float_add _ _ _ Ha), len_y.
  cbn [PyNum.add]. rewrite <- !app_assoc. reflexivity.
Qed.

Lemma exact_loop batches (ls : list (list Z)) : forall a n s,
  for_each (map Probe.class_frame ls)
    (test_step Probe.W (Probe.exact batches) Probe.g) (Float a, Int n) s =
  (Ok (Float (fold_left (fun acc b => PyFloat.add acc (eb_score b))
                (map Probe.exact_batch ls) a),
       Int (n + total_rows (map Probe.exact_batch ls))),
   {| world := world s;
      trace := trace s ++
        concat (map (test_batch_events Probe.g) (map Probe.exact_batch ls));
      stdout := stdout s |}).
Proof.
  induction ls as [|l ls IH]; intros a n s.
  - cbn [map for_each total_rows foldr concat fold_left].
    rewrite Z.add_0_r, app_nil_r. destruct s. reflexivity.
  - cbn [map for_each]. unfold bind at 1.
    rewrite (exact_step batches l (Float a) a n s eq_refl).
    rewrite IH. cbn [world trace stdout total_rows foldr concat fold_left].
    rewrite <- app_assoc, Z.add_assoc. reflexivity.
Qed.

(** A run of [test] in the framework that is right on every sample. *)
Lemma exact_test (l : list Z) (ls : list (list Z)) (loader : obj) :
  let bs := map Probe.exact_batch (l :: ls) in
  test Probe.W (Probe.exact (map Probe.class_frame (l :: ls)))
    Probe.is_grad_enabled Probe.set_grad_enabled Probe.g loader Probe.start =
  (PyNum.truediv (Float (score_sum bs)) (Int (total_rows bs)),
   {| world := tt;
      trace :=
        Called (ModelEval (g_model Probe.g)) (Ok tt) ::
        Called (Iterate loader None) (Ok (map Probe.class_frame (l :: ls))) ::
        concat (map (test_batch_events Probe.g) bs);
      stdout := [] |}).
Proof.
  cbv zeta.
  unfold test, no_grad, bind at 1 2 3, call, lift, with_world.
  change (g_is_classification Probe.g) with true.
  change (g_model Probe.g) with 7%N in *.
  cbn [Probe.exact fst snd world trace stdout
       Probe.start Probe.set_grad_enabled Probe.is_grad_enabled app].
  change (Demo.answer Demo.classifier () (ModelEval 7%N)) with (@Ok unit tt).
  cbv iota beta.
  cbn [fst snd world trace stdout app].
  match goal with
  | |- context [for_each (map Probe.class_frame (l :: ls)) ?body ?acc ?s] =>
      change (for_each (map Probe.class_frame (l :: ls)) body acc s)
        with (bind (body (Probe.class_frame l) acc)
                (fun acc' => for_each (map Probe.class_frame ls) body acc') s)
  end.
  unfold bind at 1.
  rewrite (exact_step _ l (Int 0) PyFloat.zero 0 _ eq_refl).
  rewrite exact_loop.
  cbn [fst snd world trace stdout app Z.add map concat total_rows foldr].
  unfold score_sum. cbn [fold_left].
  reflexivity.
Qed.

Lemma correct_count_self (l : list Z) :
  correct_count (Probe.class_frame l) (y (Probe.class_frame l)) =
  Z.of_nat (length l).
Proof.
  unfold correct_count, y, Probe.class_frame. cbn [labels].
  induction l as [|a l IH]; [reflexivity|].
  cbn [combine List.filter fst snd]. rewrite Z.eqb_refl. cbn [length].
  rewrite !Nat2Z.inj_succ, IH. reflexivity.
Qed.

Lemma exact_batches_correct (ls : list (list Z)) :
  total_correct (map Probe.exact_batch ls) = total_rows (map Probe.exact_batch ls).
Proof.
  induction ls as [|l ls IH]; [reflexivity|].
  cbn [map total_correct total_rows foldr]. fold (total_correct (map Probe.exact_batch ls)).
  fold (total_rows (map Probe.exact_batch ls)).
  rewrite IH. unfold Probe.exact_batch at 1 2 3. cbn [eb_frame eb_aux].
  rewrite correct_count_self. reflexivity.
Qed.

Lemma exact_batches_read (ls : list (list Z)) :
  Forall (test_batch_read true) (map Probe.exact_batch ls) /\
  Forall one_per_row (map Probe.exact_batch ls).
Proof.
  split; apply List.Forall_forall; intros b Hb;
    apply in_map_iff in Hb as (l & <- & _).
  - exists (BoolTensor [Z.of_nat (length l)] (zip_with Z.eqb l l)),
           (LongTensor [] [Z.of_nat (length l)]).
    unfold Probe.exact_batch. cbn [eb_frame eb_aux eb_score].
    split; [apply eq_self|]. split; [|reflexivity].
    cbn [Torch.sum]. rewrite count_true_self. reflexivity.
  - reflexivity.
Qed.

Section ManySamples.

Variable many : list Z.
Hypothesis many_length : Z.of_nat (length many) = 2 ^ 53.

Lemma exact_test_many :
  let ls := [many; [0; 0; 0]; [0; 0; 0]] in
  let bs := map Probe.exact_batch ls in
  let run := test Probe.W (Probe.exact (map Probe.class_frame ls))
               Probe.is_grad_enabled Probe.set_grad_enabled Probe.g 6%N
               Probe.start in
  fst run = Ok (Float (S754_finite false 4503599627370497 (-52))) /\
  trace (snd run) =
    Called (ModelEval (g_model Probe.g)) (Ok tt) ::
    Called (Iterate 6%N None) (Ok (map Probe.class_frame ls)) ::
    concat (map (test_batch_events Probe.g) bs) /\
  total_rows bs = 2 ^ 53 + 6 /\
  total_correct bs = 2 ^ 53 + 6 /\
  Forall (test_batch_read true) bs /\
  Forall one_per_row bs.
Proof.
  cbv zeta.
  pose proof (exact_batches_read [many; [0; 0; 0]; [0; 0; 0]]) as [Hread Hshape].
  assert (Hrows : total_rows (map Probe.exact_batch [many; [0; 0; 0]; [0; 0; 0]])
                  = 2 ^ 53 + 6).
  { cbn [map total_rows foldr]. unfold eb_size, Probe.exact_batch.
    cbn [eb_frame num_rows Probe.class_frame labels length].
    rewrite many_length. reflexivity. }
  rewrite (exact_test many [[0; 0; 0]; [0; 0; 0]] 6%N).
  cbv zeta. cbn [fst snd trace].
  rewrite exact_batches_correct, Hrows.
  split; [|auto].
  unfold score_sum. cbn [map fold_left].
  unfold Probe.exact_batch. cbn [eb_score length].
  rewrite many_length.
  vm_compute. reflexivity.
Qed.

End ManySamples.

Lemma many_length : Z.of_nat (length Probe.many) = 2 ^ 53.
Proof.
  unfold Probe.many. rewrite repeat_length.
  apply Z2Nat.id. apply Z.pow_nonneg. lia.
Qed.

(** ** Decimal points *)

Lemma has_point_app_l (a b : string) :
  has_point a = true -> has_point (a ++ b) = true.
Proof.
  induction a as [|c a IH]; simpl; [discriminate|].
  destruct (Ascii.eqb c "."); simpl; auto.
Qed.

Lemma has_point_app_r (a b : string) :
  has_point b = true -> has_point (a ++ b) = true.
Proof.
  intros Hb. induction a as [|c a IH]; simpl; [exact Hb|].
  rewrite IH. apply orb_true_r.
Qed.

Lemma has_four_decimals_point (s : string) :
  has_four_decimals s -> has_point s = true.
Proof.
  intros (sign & whole & frac & -> & _).
  apply has_point_app_r, has_point_app_r. reflexivity.
Qed.

Lemma printed_best_point label best :
  has_four_decimals (four_decimals (fst best)) ->
  has_point (printed_best label best) = true.
Proof.
  intros H. unfold printed_best.
  apply has_point_app_r, has_point_app_r, has_point_app_r, has_point_app_l.
  apply has_four_decimals_point. exact H.
Qed.

(** What the format gives for a float that is not finite. *)
Lemma float_4f_not_finite x :
  PyFloat.is_finite x = false ->
  PyFormat.float_4f x = "nan"%string \/ PyFormat.float_4f x = "inf"%string \/
  PyFormat.float_4f x = "-inf"%string.
Proof.
  destruct x as [s|[|]| |s m e]; try discriminate; intros _; auto.
Qed.

(** * The claims *)

(** ** C1: best-metric selection *)

(** C1.  When the epoch loop has run all [args.epochs] epochs, it ran them in
    order, one call of [train] and three calls of [test] each, and the pair
    [(best_val_metric, best_test_metric)] is selected as follows.  If no
    epoch strictly improved on the initial value (0 for the accuracy, +inf
    for the error), both keep their initial values.  Otherwise
    [best_val_metric] is the validation metric of an epoch that strictly
    improved on the initial value, no such epoch has a better one (greater
    accuracy, smaller error), and [best_test_metric] is the test metric of
    the earliest epoch whose validation metric equals it. *)
Theorem best_metric_selection W handle is_grad_enabled set_grad_enabled
    (g : globals) (epochs : Z) (s : state W) (best : num * num) (s' : state W) :
  for_each (range 1 (epochs + 1))
    (epoch_body W handle is_grad_enabled set_grad_enabled g)
    (initial_best (g_is_classification g)) s = (Ok best, s') ->
  exists ms,
    runs_epochs W handle is_grad_enabled set_grad_enabled g
      (range 1 (epochs + 1)) s ms s' /\
    length ms = Z.to_nat epochs /\
    best_selection (g_is_classification g) ms best.
Proof.
  intros H.
  destruct (epochs_Ok _ _ _ _ _ _ _ _ _ _ H) as (ms & Hruns & Hbest).
  exists ms. split; [exact Hruns|].
  pose proof (runs_epochs_metric _ _ _ _ _ _ _ _ _ Hruns) as Hval.
  split.
  - rewrite (runs_epochs_length _ _ _ _ _ _ _ _ _ Hruns), range_length.
    f_equal. lia.
  - apply best_invariant_selection; [exact Hval|].
    rewrite Hbest. apply best_invariant_fold. exact Hval.
Qed.

Lemma best_metric_selection_witness :
  let g := Demo.globals_of Demo.regression in
  let run :=
    for_each (range 1 (2 + 1))
      (epoch_body Demo.W (Demo.handle Demo.regression)
         Demo.is_grad_enabled Demo.set_grad_enabled g)
      (initial_best false) Demo.start in
  exists ms,
    runs_epochs Demo.W (Demo.handle Demo.regression)
      Demo.is_grad_enabled Demo.set_grad_enabled g
      (range 1 (2 + 1)) Demo.start ms (snd run) /\
    length ms = Z.to_nat 2 /\
    best_selection false ms (Float PyFloat.one, Float PyFloat.one).
Proof.
  apply (best_metric_selection Demo.W (Demo.handle Demo.regression)
           Demo.is_grad_enabled Demo.set_grad_enabled
           (Demo.globals_of Demo.regression) 2 Demo.start).
  vm_compute. reflexivity.
Defined.

(** ** C2: the training loop *)

(** C2.  A call of [train(epoch)] that returns has put the network in
    training mode, iterated once over the batches of the training loader
    and, for every batch in order, moved it to the device, run the network,
    computed the cross-entropy loss against [tf.y] (classification) or the
    mean-squared-error loss (otherwise) and performed exactly one zero_grad,
    backward, step cycle; it prints nothing and returns the sum of loss
    times batch size divided by the total sample count. *)
Theorem train_gradient_descent W handle (g : globals) (epoch : Z)
    (s : state W) (r : num) (s' : state W) :
  train W handle g epoch s = (Ok r, s') ->
  exists (batches : list TensorFrame) (bs : list train_batch),
    map tb_frame bs = batches /\
    Forall train_batch_read bs /\
    trace s' = trace s ++
      Called (ModelTrain (g_model g)) (Ok tt) ::
      Called (Iterate (g_train_loader g)
                (Some ("Epoch: " ++ PyFormat.str_int epoch)%string)) (Ok batches) ::
      concat (map (train_batch_events g) bs) /\
    List.filter is_optimizer_call (concat (map (train_batch_events g) bs)) =
      concat (map (optimizer_cycle g) bs) /\
    stdout s' = stdout s /\
    total_samples bs <> 0 /\
    r = Float (weighted_average bs).
Proof.
  intros H.
  destruct (train_Ok _ _ _ _ _ _ _ H)
    as (batches & bs & Hmap & Hread & Et & Hopt & Eo & Hn & Hr).
  exists batches, bs. repeat split; assumption.
Qed.

Lemma train_gradient_descent_witness :
  let g := Demo.globals_of Demo.classifier in
  let run := train Demo.W (Demo.handle Demo.classifier) g 1 Demo.start in
  exists (batches : list TensorFrame) (bs : list train_batch),
    map tb_frame bs = batches /\
    Forall train_batch_read bs /\
    trace (snd run) = trace Demo.start ++
      Called (ModelTrain (g_model g)) (Ok tt) ::
      Called (Iterate (g_train_loader g) (Some "Epoch: 1"%string)) (Ok batches) ::
      concat (map (train_batch_events g) bs) /\
    List.filter is_optimizer_call (concat (map (train_batch_events g) bs)) =
      concat (map (optimizer_cycle g) bs) /\
    stdout (snd run) = stdout Demo.start /\
    total_samples bs <> 0 /\
    Float Demo.half = Float (weighted_average bs).
Proof.
  apply (train_gradient_descent Demo.W (Demo.handle Demo.classifier)
           (Demo.globals_of Demo.classifier) 1 Demo.start (Float Demo.half)).
  vm_compute. reflexivity.
Defined.

(** ** C3: the printed lines *)

(** The claim as the spec states it fails for the form of the numbers.  A
    regression run with [--epochs 0] prints the initial best metrics, which
    are infinite: its only line is "Best Val RMSE: inf, Best Test RMSE: inf".
    A regression run of one epoch whose sum of squared errors is NaN prints
    "nan" for the three metrics of the epoch.  Neither "inf" nor "nan" has
    four decimal places. *)
Lemma infinite_metrics_print_no_decimals :
  (let run := Demo.run Demo.regression ["--epochs"; "0"]%string in
   fst run = Ok tt /\
   stdout (snd run) = ["Best Val RMSE: inf, Best Test RMSE: inf"]%string) /\
  (let run := Demo.run Demo.diverged ["--epochs"; "1"]%string in
   fst run = Ok tt /\
   stdout (snd run) =
     [ "Train Loss: 0.5000, Train RMSE: nan, Val RMSE: nan, Test RMSE: nan";
       "Best Val RMSE: inf, Best Test RMSE: inf" ]%string) /\
  four_decimals (Float PyFloat.inf) = "inf"%string /\
  four_decimals (Float PyFloat.nan) = "nan"%string /\
  ~ has_four_decimals "inf" /\
  ~ has_four_decimals "nan" /\
  ~ (forall W handle is_grad_enabled set_grad_enabled int_of_str float_of_str
       (argv : list string) (s s' : state W),
       script W handle is_grad_enabled set_grad_enabled int_of_str float_of_str
         argv s = (Ok tt, s') ->
       exists (g : globals) (ms : list epoch_metrics) (best : num * num),
         stdout s' = stdout s ++
           map (printed_epoch (metric_name (g_is_classification g))) ms ++
           [printed_best (metric_name (g_is_classification g)) best] /\
         Forall (fun m =>
           has_four_decimals (four_decimals (em_train_loss m)) /\
           has_four_decimals (four_decimals (em_train_metric m)) /\
           has_four_decimals (four_decimals (em_val_metric m)) /\
           has_four_decimals (four_decimals (em_test_metric m))) ms /\
         has_four_decimals (four_decimals (fst best)) /\
         has_four_decimals (four_decimals (snd best))).
Proof.
  split; [split; vm_compute; reflexivity|].
  split; [split; vm_compute; reflexivity|].
  split; [reflexivity|]. split; [reflexivity|].
  split; [intros H; apply has_four_decimals_point in H; discriminate|].
  split; [intros H; apply has_four_decimals_point in H; discriminate|].
  intros H.
  destruct (H Demo.W (Demo.handle Demo.regression)
              Demo.is_grad_enabled Demo.set_grad_enabled
              Demo.int_of_str Demo.float_of_str ["--epochs"; "0"]%string
              Demo.start
              (snd (Demo.run Demo.regression ["--epochs"; "0"]%string)))
    as (g & ms & best & Hout & _ & Hbest & _).
  { vm_compute. reflexivity. }
  assert (Hlast : last (stdout (snd (Demo.run Demo.regression
                                       ["--epochs"; "0"]%string))) =
                  Some "Best Val RMSE: inf, Best Test RMSE: inf"%string)
    by (vm_compute; reflexivity).
  rewrite Hout, app_assoc, last_snoc in Hlast.
  pose proof (f_equal (fun o => match o with
                                | Some line => has_point line
                                | None => true
                                end) Hlast) as Hline.
  cbv beta iota in Hline.
  rewrite (printed_best_point _ _ Hbest) in Hline.
  vm_compute in Hline.
  discriminate.
Qed.

(** C3, amended.  A run of the script that ends normally has parsed the
    command line and run the epochs 1 to [args.epochs]; its standard output
    is, after what was there before, exactly one line per epoch, in order,
    and one last line.  The line of an epoch holds the training loss and the
    train, validation and test metrics of that epoch, the last line holds
    the best validation and test metrics; the metrics are labelled "Acc" for
    classification and "RMSE" otherwise; every number is printed by the
    format [.4f], which gives a finite number a sign, digits, a point and
    exactly four digits, and gives a number that is not finite "nan", "inf"
    or "-inf". *)
Theorem per_epoch_metric_output W handle is_grad_enabled set_grad_enabled
    int_of_str float_of_str (argv : list string) (s s' : state W) :
  script W handle is_grad_enabled set_grad_enabled int_of_str float_of_str
    argv s = (Ok tt, s') ->
  exists ns args g s0 s1 ms best,
    Argparse.parse_args int_of_str float_of_str argv = Ok ns /\
    Argparse.to_args ns = Ok args /\
    setup W handle args s = (Ok g, s0) /\
    runs_epochs W handle is_grad_enabled set_grad_enabled g
      (range 1 (arg_epochs args + 1)) s0 ms s1 /\
    length ms = Z.to_nat (arg_epochs args) /\
    best_selection (g_is_classification g) ms best /\
    metric_name (g_is_classification g) =
      (if g_is_classification g then "Acc" else "RMSE")%string /\
    stdout s' = stdout s ++
      map (printed_epoch (metric_name (g_is_classification g))) ms ++
      [printed_best (metric_name (g_is_classification g)) best] /\
    (forall x, PyFloat.is_finite x = true ->
       has_four_decimals (four_decimals (Float x))) /\
    (forall x, PyFloat.is_finite x = false ->
       four_decimals (Float x) = "nan"%string \/
       four_decimals (Float x) = "inf"%string \/
       four_decimals (Float x) = "-inf"%string).
Proof.
  intros H.
  destruct (script_Ok _ _ _ _ _ _ _ _ _ H)
    as (ns & args & g & s0 & Hns & Hargs & Hsetup & Eo0 & Hloop).
  destruct (epoch_loop_Ok _ _ _ _ _ _ _ _ Hloop)
    as (ms & best & s1 & _ & Hruns & Hlen & Hsel & Eo).
  exists ns, args, g, s0, s1, ms, best.
  split; [exact Hns|]. split; [exact Hargs|]. split; [exact Hsetup|].
  split; [exact Hruns|]. split; [exact Hlen|]. split; [exact Hsel|].
  split; [destruct (g_is_classification g); reflexivity|].
  split; [rewrite Eo, Eo0; reflexivity|].
  split.
  - intros x Hx. apply float_4f_finite. exact Hx.
  - intros x Hx. apply float_4f_not_finite. exact Hx.
Qed.

Lemma per_epoch_metric_output_witness :
  let run := Demo.run Demo.classifier ["--epochs"; "2"]%string in
  fst run = Ok tt /\
  stdout (snd run) =
    [ "Train Loss: 0.5000, Train Acc: 0.5000, Val Acc: 0.5000, Test Acc: 0.5000";
      "Train Loss: 0.5000, Train Acc: 0.5000, Val Acc: 0.5000, Test Acc: 0.5000";
      "Best Val Acc: 0.5000, Best Test Acc: 0.5000" ]%string /\
  exists ns args g s0 s1 ms best,
    Argparse.parse_args Demo.int_of_str Demo.float_of_str
      ["--epochs"; "2"]%string = Ok ns /\
    Argparse.to_args ns = Ok args /\
    setup Demo.W (Demo.handle Demo.classifier) args Demo.start = (Ok g, s0) /\
    runs_epochs Demo.W (Demo.handle Demo.classifier)
      Demo.is_grad_enabled Demo.set_grad_enabled g
      (range 1 (arg_epochs args + 1)) s0 ms s1 /\
    length ms = Z.to_nat (arg_epochs args) /\
    best_selection (g_is_classification g) ms best /\
    metric_name (g_is_classification g) =
      (if g_is_classification g then "Acc" else "RMSE")%string /\
    stdout (snd run) = stdout Demo.start ++
      map (printed_epoch (metric_name (g_is_classification g))) ms ++
      [printed_best (metric_name (g_is_classification g)) best] /\
    (forall x, PyFloat.is_finite x = true ->
       has_four_decimals (four_decimals (Float x))) /\
    (forall x, PyFloat.is_finite x = false ->
       four_decimals (Float x) = "nan"%string \/
       four_decimals (Float x) = "inf"%string \/
       four_decimals (Float x) = "-inf"%string).
Proof.
  split; [vm_compute; reflexivity|].
  split; [vm_compute; reflexivity|].
  apply (per_epoch_metric_output Demo.W (Demo.handle Demo.classifier)
           Demo.is_grad_enabled Demo.set_grad_enabled
           Demo.int_of_str Demo.float_of_str ["--epochs"; "2"]%string Demo.start).
  vm_compute. reflexivity.
Defined.

(** ** C4: the command line *)


(** ** C5: the encoders by semantic type *)

(** C5.  The keys of [stype_encoder_dict] are exactly the five semantic types
    categorical, numerical, embedding, multicategorical and timestamp, each
    mapped to its encoder: EmbeddingEncoder, LinearEncoder,
    LinearEmbeddingEncoder, MultiCategoricalEmbeddingEncoder and
    TimestampEncoder in this order; and a run of the script up to the
    optimizer builds the network once, with this dict. *)
Theorem stype_encoder_coverage :
  dom stype_encoder_dict =
    list_to_set [categorical; numerical; embedding; multicategorical; timestamp] /\
  enc_class <$> stype_encoder_dict !! categorical = Some EmbeddingEncoder /\
  enc_class <$> stype_encoder_dict !! numerical = Some LinearEncoder /\
  enc_class <$> stype_encoder_dict !! embedding = Some LinearEmbeddingEncoder /\
  enc_class <$> stype_encoder_dict !! multicategorical
    = Some MultiCategoricalEmbeddingEncoder /\
  enc_class <$> stype_encoder_dict !! timestamp = Some TimestampEncoder /\
  stype_encoder_dict !! text_embedded = None /\
  (forall W handle args (s : state W) g s',
     setup W handle args s = (Ok g, s') ->
     exists evs, trace s' = trace s ++ evs /\
                 omap encoder_dict_of evs = [stype_encoder_dict]).
Proof.
  split.
  { unfold stype_encoder_dict. cbn zeta.
    rewrite !dom_insert_L, dom_empty_L. set_solver. }
  repeat (split; [reflexivity|]).
  intros W handle args s g s' H.
  destruct (setup_Ok _ _ _ _ _ _ H) as (evs & Et & _ & Hd).
  exists evs. split; assumption.
Qed.

(** ** C6: the encoder package *)

(** C6.  Running the body of [torch_frame/nn/encoder/__init__.py] binds no
    name to a function or class of its own.  The names that it binds to
    imports from its submodules are exactly the six names FeatureEncoder,
    StypeWiseFeatureEncoder, StypeEncoder, EmbeddingEncoder, LinearEncoder
    and PiecewiseLinearEncoder, each to the name of the submodule that the
    source gives; the imports leave the three submodules [encoder],
    [stypewise_encoder] and [stype_encoder] bound in the package under
    their names.
    The two names [__all__] and [classes] are bound to one list object,
    which holds the six names in this order. *)
Theorem encoder_init_is_pure_reexport :
  let st := EncoderInit.module_body in
  (forall name b, EncoderInit.names st !! name = Some b ->
     EncoderInit.is_own_definition b = false) /\
  dom (filter (fun kv => EncoderInit.is_import (snd kv) = true)
         (EncoderInit.names st)) = list_to_set EncoderInit.exported /\
  map (fun name => EncoderInit.names st !! name) EncoderInit.exported =
    [ Some (EncoderInit.Imported "encoder" "FeatureEncoder");
      Some (EncoderInit.Imported "stypewise_encoder" "StypeWiseFeatureEncoder");
      Some (EncoderInit.Imported "stype_encoder" "StypeEncoder");
      Some (EncoderInit.Imported "stype_encoder" "EmbeddingEncoder");
      Some (EncoderInit.Imported "stype_encoder" "LinearEncoder");
      Some (EncoderInit.Imported "stype_encoder" "PiecewiseLinearEncoder") ] /\
  map (fun name => EncoderInit.names st !! name) EncoderInit.submodules =
    [ Some (EncoderInit.Submodule "encoder");
      Some (EncoderInit.Submodule "stypewise_encoder");
      Some (EncoderInit.Submodule "stype_encoder") ] /\
  EncoderInit.list_of st "__all__" = Some EncoderInit.exported /\
  EncoderInit.list_of st "classes" = Some EncoderInit.exported /\
  EncoderInit.names st !! "__all__"%string = EncoderInit.names st !! "classes"%string /\
  length (EncoderInit.exported) = 6%nat.
Proof.
  cbv zeta.
  assert (Hdom : dom (EncoderInit.names EncoderInit.module_body) =
                 list_to_set (EncoderInit.exported ++ ["__all__"; "classes"]%string
                              ++ EncoderInit.submodules)).
  { unfold EncoderInit.module_body, EncoderInit.import_from,
      EncoderInit.assign_list, EncoderInit.empty_module, EncoderInit.exported,
      EncoderInit.submodules.
    cbn [EncoderInit.names EncoderInit.heap foldl length app].
    rewrite !dom_insert_L, dom_empty_L. set_solver. }
  assert (Hnames : forall name b,
            EncoderInit.names EncoderInit.module_body !! name = Some b ->
            In name (EncoderInit.exported ++ ["__all__"; "classes"]%string
                     ++ EncoderInit.submodules)).
  { intros name b Hlook.
    assert (Hin : name ∈ dom (EncoderInit.names EncoderInit.module_body))
      by (apply elem_of_dom; eauto).
    rewrite Hdom in Hin. apply elem_of_list_to_set in Hin.
    apply list_elem_of_In in Hin. exact Hin. }
  split.
  { intros name b Hlook. pose proof (Hnames name b Hlook) as Hin.
    cbn in Hin.
    repeat (destruct Hin as [<- | Hin];
            [vm_compute in Hlook; inversion Hlook; reflexivity|]).
    destruct Hin. }
  split.
  { apply set_eq. intros name.
    rewrite elem_of_dom, elem_of_list_to_set, list_elem_of_In.
    split.
    - intros [b Hb]. apply map_lookup_filter_Some in Hb as [Hlook Himp].
      simpl in Himp. pose proof (Hnames name b Hlook) as Hin.
      cbn in Hin. cbn.
      repeat (destruct Hin as [<- | Hin];
              [first [ tauto
                     | vm_compute in Hlook; inversion Hlook; subst; discriminate ]|]).
      destruct Hin.
    - intros Hin. cbn in Hin.
      repeat (destruct Hin as [<- | Hin];
              [eexists; apply map_lookup_filter_Some;
               split; [vm_compute; reflexivity | reflexivity]|]).
      destruct Hin. }
  split; [vm_compute; reflexivity|].
  split; [vm_compute; reflexivity|].
  split; [vm_compute; reflexivity|].
  split; [vm_compute; reflexivity|].
  split; [vm_compute; reflexivity|].
  reflexivity.
Qed.

(** ** C7: exceptions propagate *)

(** C7.  In every run of the script, on any command line and from any state
    of the framework, and in every run of the text embedder that the
    framework calls back, no exception of a framework call is handled: every
    call but the last one returned, and if the last call raised an exception
    then the run ends there with that very exception. *)
Theorem exceptions_propagate W handle is_grad_enabled set_grad_enabled
    int_of_str float_of_str :
  (forall (argv : list string) (s : state W),
     let run := script W handle is_grad_enabled set_grad_enabled
                  int_of_str float_of_str argv s in
     exists evs, trace (snd run) = trace s ++ evs /\ unhandled evs (fst run)) /\
  (forall self sentences (s : state W),
     let run := SimpleTextToEmbedding_call W handle self sentences s in
     exists evs, trace (snd run) = trace s ++ evs /\ unhandled evs (fst run)).
Proof.
  split.
  - intros argv s run.
    apply (propagates_script W handle is_grad_enabled set_grad_enabled
             int_of_str float_of_str argv s (fst run) (snd run)).
    unfold run. apply surjective_pairing.
  - intros self sentences s run.
    apply (propagates_embed W handle self sentences s (fst run) (snd run)).
    unfold run. apply surjective_pairing.
Qed.

(** ** C8: the pooling argument *)

(** C8.  The value of [args.pooling] has no effect: with any other value of
    it, the text embedder that the script builds gives the same run on the
    same sentences, and so does the whole script up to the optimizer.  A
    call of the embedder that returns gives the hidden state of the first
    token of every sequence: it tokenizes the sentences, calls the network
    on the tokens, and returns [last_hidden_state[:, 0, :]], whose entry
    [(b, d)] is the entry [(b, 0, d)] of the hidden state. *)
Theorem pooling_has_no_effect W (handle : forall A, ext A -> W -> outcome A * W)
    (args : Args) (p : string) (d : device) (sentences : list string)
    (s : state W) :
  (enc <- text_encoder W handle (with_pooling p args) d ;;
   SimpleTextToEmbedding_call W handle enc sentences) s =
  (enc <- text_encoder W handle args d ;;
   SimpleTextToEmbedding_call W handle enc sentences) s /\
  setup W handle (with_pooling p args) s = setup W handle args s /\
  (forall self t s',
     SimpleTextToEmbedding_call W handle self sentences s = (Ok t, s') ->
     exists inputs moves out,
       trace s' = trace s ++
         Called (Tokenize (tokenizer self) sentences) (Ok inputs) :: moves ++
         [ Called (TextModelCall (model self) inputs) (Ok out);
           Called (Detach t) (Ok tt);
           Called (TensorTo t Cpu) (Ok tt) ] /\
       Torch.select_first (last_hidden_state out) = Ok t) /\
  (forall (B T D : nat) data t,
     length data = (B * (T * D))%nat ->
     Torch.select_first
       (FloatTensor [Z.of_nat B; Z.of_nat T; Z.of_nat D] data) = Ok t ->
     exists data',
       t = FloatTensor [Z.of_nat B; Z.of_nat D] data' /\
       forall b k, (b < B)%nat -> (k < D)%nat ->
         entry2 D data' b k = entry3 T D data b 0 k).
Proof.
  split; [reflexivity|].
  split; [reflexivity|].
  split.
  - intros self t s' H. eapply embed_Ok. exact H.
  - intros B T D data t Hlen H. eapply select_first_entries; eassumption.
Qed.

(** ** C9: the rename after materialization *)

(** C9.  When [text_embedded] is a key of both [col_names_dict] and
    [feat_dict], lines 87 and 88 run without error and move its entry to the
    key [embedding] in both dicts: afterwards neither dict has the key
    [text_embedded], the entries under [embedding] are the former entries
    under [text_embedded], every entry under any other key is unchanged, and
    so are the labels. *)
Theorem stype_rename_after_materialization (tf : TensorFrame)
    (names : list string) (feat : Tensor) :
  col_names_dict tf !! text_embedded = Some names ->
  feat_dict tf !! text_embedded = Some feat ->
  exists tf',
    rename_text_embedded tf = Ok tf' /\
    col_names_dict tf' !! text_embedded = None /\
    feat_dict tf' !! text_embedded = None /\
    col_names_dict tf' !! embedding = Some names /\
    feat_dict tf' !! embedding = Some feat /\
    (forall k, k <> embedding -> k <> text_embedded ->
       col_names_dict tf' !! k = col_names_dict tf !! k /\
       feat_dict tf' !! k = feat_dict tf !! k) /\
    labels tf' = labels tf.
Proof.
  intros Hn Hf. unfold rename_text_embedded, dict_pop.
  rewrite Hn. simpl. rewrite Hf. simpl.
  eexists. split; [reflexivity|]. simpl.
  repeat split.
  - rewrite lookup_insert_ne by discriminate. apply lookup_delete_eq.
  - rewrite lookup_insert_ne by discriminate. apply lookup_delete_eq.
  - apply lookup_insert_eq.
  - apply lookup_insert_eq.
  - rewrite lookup_insert_ne by congruence. apply lookup_delete_ne. congruence.
  - rewrite lookup_insert_ne by congruence. apply lookup_delete_ne. congruence.
Qed.

Lemma stype_rename_witness :
  exists tf',
    rename_text_embedded (Demo.frame Demo.regression) = Ok tf' /\
    col_names_dict tf' !! text_embedded = None /\
    feat_dict tf' !! text_embedded = None /\
    col_names_dict tf' !! embedding = Some ["Summary"%string] /\
    feat_dict tf' !! embedding =
      Some (FloatTensor [2; 2]
              [PyFloat.one; PyFloat.zero; Demo.half; Demo.half]) /\
    (forall k, k <> embedding -> k <> text_embedded ->
       col_names_dict tf' !! k = col_names_dict (Demo.frame Demo.regression) !! k /\
       feat_dict tf' !! k = feat_dict (Demo.frame Demo.regression) !! k) /\
    labels tf' = labels (Demo.frame Demo.regression).
Proof.
  apply (stype_rename_after_materialization (Demo.frame Demo.regression)).
  - vm_compute. reflexivity.
  - vm_compute. reflexivity.
Defined.

(** ** C10: the metrics that [test] returns *)

(** The claim as the spec states it fails in four ways.

    Regression.  The loader 6 of the diverged model gives one batch of two
    samples, for which the sum of squared errors is NaN: [accum] is NaN,
    [test] returns NaN, and NaN is not at least zero.  And the value is the
    power 0.5 that the C library computes, which need not be the square
    root: for the mean 15.261621475219727 the library at hand gives
    3.906612532005155, the double after the correctly rounded square root.

    Classification.  A network whose output has the shape [[B; 1; C]] gives
    predicted classes of the shape [[B; 1]]; [tf.y == pred_class] is then a
    table of [B] times [B] entries, and with two samples of one class, both
    predicted right, [test] returns 2.0.  And with [2^53 + 6] samples in
    three batches, all of them predicted right and one class per sample,
    the accumulated float count is [2^53 + 8]: [test] returns the double
    after 1.0. *)
Lemma test_metric_counterexamples :
  (let g := Demo.globals_of Demo.diverged in
   let run := test Demo.W (Demo.handle Demo.diverged)
                Demo.is_grad_enabled Demo.set_grad_enabled g 6%N Demo.start in
   g_is_classification g = false /\
   In (Called (Iterate 6%N None) (Ok [Demo.frame Demo.diverged]))
      (trace (snd run)) /\
   num_rows (Demo.frame Demo.diverged) = 2 /\
   fst run = Ok (Float PyFloat.nan) /\
   PyFloat.leb PyFloat.zero PyFloat.nan = false) /\
  (let run := test Probe.W Probe.glibc
                Probe.is_grad_enabled Probe.set_grad_enabled
                Probe.g_regression 6%N Probe.start in
   omap iterated (trace (snd run)) = [(6%N, None)] /\
   In (Called (MseLoss (FloatTensor [4] [Demo.half; PyFloat.one;
                                         PyFloat.zero; Demo.half])
                 (FloatTensor [2] [PyFloat.one; PyFloat.of_Z 2]) Sum)
         (Ok (FloatTensor [] [Probe.twice_mean_square])))
      (trace (snd run)) /\
   PyFloat.div Probe.twice_mean_square (PyFloat.of_Z 2) = Probe.mean_square /\
   fst run = Ok (Float (S754_finite false 8796909371709663 (-51))) /\
   PyFloat.sqrt Probe.mean_square = S754_finite false 8796909371709662 (-51)) /\
  (let run := test Probe.W Probe.column
                Probe.is_grad_enabled Probe.set_grad_enabled
                Probe.g 6%N Probe.start in
   trace (snd run) =
     [ Called (ModelEval 7%N) (Ok tt);
       Called (Iterate 6%N None) (Ok [Probe.class_frame [1; 1]]);
       Called (FrameTo (Probe.class_frame [1; 1]) Cpu) (Ok tt);
       Called (Forward 7%N (Probe.class_frame [1; 1]))
         (Ok (FloatTensor [2; 1; 2]
                [PyFloat.zero; PyFloat.one; PyFloat.zero; PyFloat.one]));
       Called (Argmax (FloatTensor [2; 1; 2]
                         [PyFloat.zero; PyFloat.one; PyFloat.zero; PyFloat.one]))
         (Ok (LongTensor [2; 1] [1; 1])) ] /\
   Torch.eq (y (Probe.class_frame [1; 1])) (LongTensor [2; 1] [1; 1]) =
     Ok (BoolTensor [2; 2] [true; true; true; true]) /\
   fst run = Ok (Float (PyFloat.of_Z 2)) /\
   PyFloat.leb (PyFloat.of_Z 2) PyFloat.one = false) /\
  (let ls := [Probe.many; [0; 0; 0]; [0; 0; 0]] in
   let bs := map Probe.exact_batch ls in
   let run := test Probe.W (Probe.exact (map Probe.class_frame ls))
                Probe.is_grad_enabled Probe.set_grad_enabled Probe.g 6%N
                Probe.start in
   fst run = Ok (Float (S754_finite false 4503599627370497 (-52))) /\
   trace (snd run) =
     Called (ModelEval (g_model Probe.g)) (Ok tt) ::
     Called (Iterate 6%N None) (Ok (map Probe.class_frame ls)) ::
     concat (map (test_batch_events Probe.g) bs) /\
   total_rows bs = 2 ^ 53 + 6 /\
   total_correct bs = 2 ^ 53 + 6 /\
   Forall (test_batch_read true) bs /\
   Forall one_per_row bs) /\
  PyFloat.one = S754_finite false 4503599627370496 (-52) /\
  PyFloat.leb (S754_finite false 4503599627370497 (-52)) PyFloat.one = false /\
  ~ (forall W handle is_grad_enabled set_grad_enabled (g : globals)
       (loader : obj) (s : state W) (r : num) (s' : state W)
       (batches : list TensorFrame),
       g_is_classification g = false ->
       test W handle is_grad_enabled set_grad_enabled g loader s = (Ok r, s') ->
       In (Called (Iterate loader None) (Ok batches)) (trace s') ->
       0 < foldr (fun tf n => num_rows tf + n) 0 batches ->
       exists x, r = Float x /\ PyFloat.leb PyFloat.zero x = true) /\
  ~ (forall W handle is_grad_enabled set_grad_enabled (g : globals)
       (loader : obj) (s : state W) (r : num) (s' : state W)
       (batches : list TensorFrame),
       g_is_classification g = true ->
       test W handle is_grad_enabled set_grad_enabled g loader s = (Ok r, s') ->
       In (Called (Iterate loader None) (Ok batches)) (trace s') ->
       0 < foldr (fun tf n => num_rows tf + n) 0 batches ->
       exists x, r = Float x /\ PyFloat.leb PyFloat.zero x = true /\
                 PyFloat.leb x PyFloat.one = true).
Proof.
  split.
  { cbv zeta.
    split; [reflexivity|].
    split; [vm_compute; right; left; reflexivity|].
    split; [reflexivity|].
    split; [vm_compute; reflexivity|].
    reflexivity. }
  split.
  { cbv zeta.
    split; [vm_compute; reflexivity|].
    split; [vm_compute; do 4 right; left; reflexivity|].
    split; [vm_compute; reflexivity|].
    split; vm_compute; reflexivity. }
  split.
  { cbv zeta. repeat split; vm_compute; reflexivity. }
  split; [exact (exact_test_many Probe.many many_length)|].
  split; [vm_compute; reflexivity|].
  split; [vm_compute; reflexivity|].
  split.
  - intros H.
    destruct (H Demo.W (Demo.handle Demo.diverged)
                Demo.is_grad_enabled Demo.set_grad_enabled
                (Demo.globals_of Demo.diverged) 6%N Demo.start
                (Float PyFloat.nan)
                (snd (test Demo.W (Demo.handle Demo.diverged)
                        Demo.is_grad_enabled Demo.set_grad_enabled
                        (Demo.globals_of Demo.diverged) 6%N Demo.start))
                [Demo.frame Demo.diverged]
                eq_refl) as (x & Hx & Hle).
    + vm_compute. reflexivity.
    + vm_compute. right. left. reflexivity.
    + vm_compute. reflexivity.
    + inversion Hx. subst x. discriminate.
  - intros H.
    destruct (H Probe.W Probe.column
                Probe.is_grad_enabled Probe.set_grad_enabled
                Probe.g 6%N Probe.start
                (Float (PyFloat.of_Z 2))
                (snd (test Probe.W Probe.column
                        Probe.is_grad_enabled Probe.set_grad_enabled
                        Probe.g 6%N Probe.start))
                [Probe.class_frame [1; 1]]
                eq_refl) as (x & Hx & _ & Hle).
    + vm_compute. reflexivity.
    + vm_compute. right. left. reflexivity.
    + vm_compute. reflexivity.
    + inversion Hx. subst x. vm_compute in Hle. discriminate.
Qed.

(** C10, amended.  A call of [test(loader)] that returns has iterated once
    over the batches of the loader, which hold at least one sample in total.
    For classification it returns the accumulated count of the true entries
    of [tf.y == pred_class] divided by the number of samples; when every
    [pred_class] has the shape of [tf.y] and there are fewer than [2^53]
    samples, this is the number of samples whose label equals the class of
    greatest score divided by the number of samples, a float between 0 and
    1.  Otherwise it returns the power 0.5 of the accumulated sum of squared
    errors divided by the number of samples, as [float_pow] decides it or
    the C library computes it: NaN when the accumulated sum is NaN, and at
    least zero in every other case. *)
Theorem test_metric_postconditions W handle is_grad_enabled set_grad_enabled
    (g : globals) (loader : obj) (s : state W) (r : num) (s' : state W) :
  test W handle is_grad_enabled set_grad_enabled g loader s = (Ok r, s') ->
  exists (batches : list TensorFrame) (bs : list test_batch)
         (tail : list event) (x : float),
    r = Float x /\
    map eb_frame bs = batches /\
    Forall (test_batch_read (g_is_classification g)) bs /\
    trace s' = trace s ++
      Called (ModelEval (g_model g)) (Ok tt) ::
      Called (Iterate loader None) (Ok batches) ::
      concat (map (test_batch_events g) bs) ++ tail /\
    0 < total_rows bs /\
    if g_is_classification g
    then
      tail = [] /\
      x = mean_score bs /\
      (Forall one_per_row bs -> total_rows bs < 2 ^ 53 ->
       x = PyFloat.div (PyFloat.of_Z (total_correct bs))
             (PyFloat.of_Z (total_rows bs)) /\
       0 <= total_correct bs <= total_rows bs /\
       PyFloat.leb PyFloat.zero x = true /\
       PyFloat.leb x PyFloat.one = true)
    else
      pow_half_run
        (PyFloat.div (score_sum bs) (PyFloat.of_Z (total_rows bs))) tail x /\
      (PyFloat.is_nan (score_sum bs) = true -> x = PyFloat.nan) /\
      (PyFloat.is_nan (score_sum bs) = false ->
       PyFloat.leb PyFloat.zero x = true).
Proof.
  intros H.
  destruct (test_Ok _ _ _ _ _ _ _ _ _ H)
    as (batches & bs & tail & Hmap & Hread & Et & _ & Hn & Hr & Hfin & Hzero).
  assert (Hpos : 0 < total_rows bs)
    by (pose proof (total_rows_nonneg bs); lia).
  destruct (g_is_classification g) eqn:Hcls.
  - destruct Hr as [Hr Htail].
    exists batches, bs, tail, (mean_score bs).
    split; [exact Hr|]. split; [exact Hmap|]. split; [exact Hread|].
    split; [exact Et|]. split; [exact Hpos|]. split; [exact Htail|].
    split; [reflexivity|].
    intros Hshape Hlt.
    destruct (accuracy_fraction bs Hread Hshape (conj Hpos Hlt))
      as (Hfrac & H0 & H1).
    split; [exact Hfrac|]. split; [apply total_correct_bounds|].
    split; assumption.
  - destruct Hr as (x & Hpow & ->).
    exists batches, bs, tail, x.
    split; [reflexivity|]. split; [exact Hmap|]. split; [exact Hread|].
    split; [exact Et|]. split; [exact Hpos|].
    split; [exact Hpow|].
    apply (rmse_sign (score_sum bs) (total_rows bs) tail x Hpos Hfin Hzero Hpow).
Qed.

Lemma test_metric_postconditions_witness :
  (let g := Demo.globals_of Demo.classifier in
   let run := test Demo.W (Demo.handle Demo.classifier)
                Demo.is_grad_enabled Demo.set_grad_enabled g 6%N Demo.start in
   fst run = Ok (Float Demo.half) /\
   exists (batches : list TensorFrame) (bs : list test_batch)
          (tail : list event) (x : float),
     Float Demo.half = Float x /\
     map eb_frame bs = batches /\
     Forall (test_batch_read true) bs /\
     trace (snd run) = trace Demo.start ++
       Called (ModelEval (g_model g)) (Ok tt) ::
       Called (Iterate 6%N None) (Ok batches) ::
       concat (map (test_batch_events g) bs) ++ tail /\
     0 < total_rows bs /\
     tail = [] /\
     x = mean_score bs /\
     (Forall one_per_row bs -> total_rows bs < 2 ^ 53 ->
      x = PyFloat.div (PyFloat.of_Z (total_correct bs))
            (PyFloat.of_Z (total_rows bs)) /\
      0 <= total_correct bs <= total_rows bs /\
      PyFloat.leb PyFloat.zero x = true /\
      PyFloat.leb x PyFloat.one = true)) /\
  (let g := Probe.g_regression in
   let run := test Probe.W Probe.glibc
                Probe.is_grad_enabled Probe.set_grad_enabled g 6%N
                Probe.start in
   let r := S754_finite false 8796909371709663 (-51) in
   fst run = Ok (Float r) /\
   exists (batches : list TensorFrame) (bs : list test_batch)
          (tail : list event) (x : float),
     Float r = Float x /\
     map eb_frame bs = batches /\
     Forall (test_batch_read false) bs /\
     trace (snd run) = trace Probe.start ++
       Called (ModelEval (g_model g)) (Ok tt) ::
       Called (Iterate 6%N None) (Ok batches) ::
       concat (map (test_batch_events g) bs) ++ tail /\
     0 < total_rows bs /\
     pow_half_run
       (PyFloat.div (score_sum bs) (PyFloat.of_Z (total_rows bs))) tail x /\
     (PyFloat.is_nan (score_sum bs) = true -> x = PyFloat.nan) /\
     (PyFloat.is_nan (score_sum bs) = false ->
      PyFloat.leb PyFloat.zero x = true)).
Proof.
  split.
  - cbv zeta. split; [vm_compute; reflexivity|].
    apply (test_metric_postconditions Demo.W (Demo.handle Demo.classifier)
             Demo.is_grad_enabled Demo.set_grad_enabled
             (Demo.globals_of Demo.classifier) 6%N Demo.start (Float Demo.half)).
    vm_compute. reflexivity.
  - cbv zeta. split; [vm_compute; reflexivity|].
    apply (test_metric_postconditions Probe.W Probe.glibc
             Probe.is_grad_enabled Probe.set_grad_enabled
             Probe.g_regression 6%N Probe.start
             (Float (S754_finite false 8796909371709663 (-51)))).
    vm_compute. reflexivity.
Defined.

(** * More of the script: edge cases, invariants and what it never does *)

(** ** Monitors on the calls of a run *)

Lemma scan_app {Q} (step : Q -> event -> option Q) evs1 : forall q evs2,
  scan step q (evs1 ++ evs2) =
  match scan step q evs1 with
  | Some q1 => scan step q1 evs2
  | None => None
  end.
Proof.
  induction evs1 as [|ev evs1 IH]; intros q evs2; simpl; [reflexivity|].
  destruct (step q ev); [apply IH | reflexivity].
Qed.

Lemma scan_forbid bad evs :
  scan (forbid bad) tt evs = Some tt <-> Forall (fun ev => bad ev = false) evs.
Proof.
  induction evs as [|ev evs IH]; simpl.
  - split; [constructor | reflexivity].
  - unfold forbid at 1. destruct (bad ev) eqn:Hb.
    + split; [discriminate|]. intros H. inversion H. congruence.
    + rewrite IH. split.
      * intros H. constructor; assumption.
      * intros H. inversion H. assumption.
Qed.

Example mode_monitor_rejects_step :
  scan mode_step (Some Evaluation) [Called (Step 9%N) (Ok tt)] = None.
Proof. reflexivity. Qed.

Example mode_monitor_rejects_argmax :
  scan mode_step (Some Training) [Called (Argmax (LongTensor [] [])) (Ok (LongTensor [] []))]
  = None.
Proof. reflexivity. Qed.

Section Tracking.

Variable W : Type.
Variable handle : forall A : Type, ext A -> W -> outcome A * W.
Variable is_grad_enabled : W -> bool.
Variable set_grad_enabled : bool -> W -> W.
Variable Q : Type.
Variable step : Q -> event -> option Q.

Lemma tracks_ret {A} (a : A) q : tracks step (@ret W A a) q q.
Proof.
  intros s r s' H. inversion H. subst. exists [], q.
  rewrite app_nil_r. repeat split.
Qed.

Lemma tracks_lift {A} (o : outcome A) q : tracks step (@lift W A o) q q.
Proof.
  intros s r s' H. inversion H. subst. exists [], q.
  rewrite app_nil_r. repeat split.
Qed.

Lemma tracks_print line q : tracks step (@print W line) q q.
Proof.
  intros s r s' H. inversion H. subst. exists [], q. simpl.
  rewrite app_nil_r. repeat split.
Qed.

Lemma tracks_call {A} (c : ext A) q q' :
  (forall r, step q (Called c r) = Some q') -> tracks step (call handle c) q q'.
Proof.
  intros Hstep s r s' H. unfold call in H.
  destruct (handle A c (world s)) as [r0 w]. inversion H. subst. simpl.
  exists [Called c r], q'. simpl. rewrite Hstep. repeat split.
Qed.

Lemma tracks_bind {A B} (m : M W A) (k : A -> M W B) q q1 q2 :
  tracks step m q q1 -> (forall a, tracks step (k a) q1 q2) ->
  tracks step (bind m k) q q2.
Proof.
  intros Hm Hk s r s' H. unfold bind in H.
  destruct (m s) as [[a|e] s1] eqn:Hms.
  - destruct (Hm _ _ _ Hms) as (evs1 & p1 & Et1 & Hs1 & Hq1).
    rewrite (Hq1 a eq_refl) in Hs1.
    destruct (Hk a _ _ _ H) as (evs2 & p2 & Et2 & Hs2 & Hq2).
    exists (evs1 ++ evs2), p2. split; [|split].
    + rewrite Et2, Et1, <- app_assoc. reflexivity.
    + rewrite scan_app, Hs1. exact Hs2.
    + exact Hq2.
  - destruct (Hm _ _ _ Hms) as (evs1 & p1 & Et1 & Hs1 & _).
    inversion H. subst. exists evs1, p1. split; [exact Et1|].
    split; [exact Hs1|]. intros a Ha. discriminate.
Qed.

Lemma tracks_for_each {A S} (body : A -> S -> M W S) (l : list A) q :
  (forall x acc, tracks step (body x acc) q q) ->
  forall acc, tracks step (for_each l body acc) q q.
Proof.
  intros Hbody. induction l as [|x l IH]; intros acc; simpl.
  - apply tracks_ret.
  - eapply tracks_bind; [apply Hbody | exact IH].
Qed.

Lemma tracks_no_grad {A} (m : M W A) q q' :
  tracks step m q q' ->
  tracks step (no_grad is_grad_enabled set_grad_enabled m) q q'.
Proof.
  intros Hm s r s' H. apply no_grad_Ok in H as (s1 & H & Et & _).
  destruct (Hm _ _ _ H) as (evs & p & Et1 & Hs & Hq).
  exists evs, p. split; [|split; assumption]. rewrite Et, Et1. reflexivity.
Qed.

Lemma tracks_safe {A} (m : M W A) :
  (forall q, exists q', tracks step m q q') -> safe step m.
Proof.
  intros Hm q s r s' H. destruct (Hm q) as [q' Ht].
  destruct (Ht _ _ _ H) as (evs & p & Et & Hs & _). exists evs, p. auto.
Qed.

Lemma safe_bind {A B} (m : M W A) (k : A -> M W B) :
  safe step m -> (forall a, safe step (k a)) -> safe step (bind m k).
Proof.
  intros Hm Hk q s r s' H. unfold bind in H.
  destruct (m s) as [[a|e] s1] eqn:Hms.
  - destruct (Hm q _ _ _ Hms) as (evs1 & p1 & Et1 & Hs1).
    destruct (Hk a p1 _ _ _ H) as (evs2 & p2 & Et2 & Hs2).
    exists (evs1 ++ evs2), p2. split.
    + rewrite Et2, Et1, <- app_assoc. reflexivity.
    + rewrite scan_app, Hs1. exact Hs2.
  - destruct (Hm q _ _ _ Hms) as (evs1 & p1 & Et1 & Hs1).
    inversion H. subst. exists evs1, p1. auto.
Qed.

Lemma safe_for_each {A S} (body : A -> S -> M W S) (l : list A) :
  (forall x acc, safe step (body x acc)) ->
  forall acc, safe step (for_each l body acc).
Proof.
  intros Hbody. induction l as [|x l IH]; intros acc; simpl.
  - apply tracks_safe. intros q. exists q. apply tracks_ret.
  - apply safe_bind; [apply Hbody | exact IH].
Qed.

End Tracking.

(** Follows a monitor through a computation built from calls, script-level
    operations, loops and branches. *)
Ltac tracking :=
  repeat first
    [ apply tracks_ret
    | apply tracks_lift
    | apply tracks_print
    | apply tracks_call; intros; reflexivity
    | apply tracks_no_grad
    | apply tracks_for_each; intros
    | eapply tracks_bind; [|intros]
    | match goal with
      | |- tracks _ (if ?b then _ else _) _ _ => destruct b
      | |- tracks _ (match ?x with _ => _ end) _ _ => destruct x
      end ].

Section ModeProof.

Variable W : Type.
Variable handle : forall A : Type, ext A -> W -> outcome A * W.
Variable is_grad_enabled : W -> bool.
Variable set_grad_enabled : bool -> W -> W.
Variable int_of_str : string -> option Z.
Variable float_of_str : string -> option float.

Lemma train_mode g epoch q :
  tracks mode_step (train W handle g epoch) q (Some Training).
Proof. unfold train, train_step, batch_loss. tracking. Qed.

Lemma test_mode g loader q :
  tracks mode_step (test W handle is_grad_enabled set_grad_enabled g loader)
    q (Some Evaluation).
Proof. unfold test, pow_half, test_step, batch_score. tracking. Qed.

Lemma test_changes_nothing g loader :
  tracks (forbid changes_training)
    (test W handle is_grad_enabled set_grad_enabled g loader) tt tt.
Proof. unfold test, pow_half, test_step, batch_score. tracking. Qed.

Lemma setup_mode args q : tracks mode_step (setup W handle args) q q.
Proof. unfold setup, text_encoder, SimpleTextToEmbedding_init. tracking. Qed.

Lemma epoch_body_mode g epoch best q :
  tracks mode_step
    (epoch_body W handle is_grad_enabled set_grad_enabled g epoch best)
    q (Some Evaluation).
Proof.
  unfold epoch_body.
  eapply tracks_bind; [apply train_mode | intros].
  eapply tracks_bind; [apply test_mode | intros].
  eapply tracks_bind; [apply test_mode | intros].
  eapply tracks_bind; [apply test_mode | intros].
  tracking.
Qed.

Lemma script_mode argv :
  safe mode_step (script W handle is_grad_enabled set_grad_enabled
                    int_of_str float_of_str argv).
Proof.
  unfold script.
  apply safe_bind; [apply tracks_safe; intros q; exists q; apply tracks_lift|].
  intros ns.
  apply safe_bind; [apply tracks_safe; intros q; exists q; apply tracks_lift|].
  intros args.
  apply safe_bind; [apply tracks_safe; intros q; exists q; apply setup_mode|].
  intros g. unfold epoch_loop.
  apply safe_bind.
  { apply safe_for_each. intros epoch best. apply tracks_safe. intros q.
    exists (Some Evaluation). apply epoch_body_mode. }
  intros best. apply tracks_safe. intros q. exists q. tracking.
Qed.

End ModeProof.

(** X1.  Evaluation changes nothing of the training: in every run of
    [test(loader)], whether it returns or raises, no call is a [zero_grad],
    a [backward], an optimizer [step] or a [model.train()]. *)
Theorem test_never_trains W handle is_grad_enabled set_grad_enabled
    (g : globals) (loader : obj) (s : state W) :
  let run := test W handle is_grad_enabled set_grad_enabled g loader s in
  exists evs,
    trace (snd run) = trace s ++ evs /\
    Forall (fun ev => changes_training ev = false) evs.
Proof.
  intros run.
  destruct (test_changes_nothing W handle is_grad_enabled set_grad_enabled
              g loader s (fst run) (snd run)) as (evs & [] & Et & Hs & _).
  { unfold run. apply surjective_pairing. }
  exists evs. split; [exact Et|]. apply scan_forbid. exact Hs.
Qed.

(** X2.  The mode of the network fits every call: in every run of the script,
    on any command line, whether it ends normally or with an exception, the
    optimizer calls ([zero_grad], [backward], [step]) and the training
    losses come only after [model.train()] with no [model.eval()] in
    between, and [argmax] and the summed squared error only after
    [model.eval()] with no [model.train()] in between. *)
Theorem mode_fits_every_call W handle is_grad_enabled set_grad_enabled
    int_of_str float_of_str (argv : list string) (s : state W) :
  let run := script W handle is_grad_enabled set_grad_enabled
               int_of_str float_of_str argv s in
  exists evs q,
    trace (snd run) = trace s ++ evs /\ scan mode_step None evs = Some q.
Proof.
  intros run.
  apply (script_mode W handle is_grad_enabled set_grad_enabled
           int_of_str float_of_str argv None s (fst run) (snd run)).
  unfold run. apply surjective_pairing.
Qed.

(** ** The gradient mode during [test] *)

Section GradOff.

Variable W : Type.
Variable handle handle' : forall A : Type, ext A -> W -> outcome A * W.
Variable is_grad_enabled : W -> bool.
Variable set_grad_enabled : bool -> W -> W.

Hypothesis handle_keeps_mode : forall A (c : ext A) w,
  is_grad_enabled (snd (handle A c w)) = is_grad_enabled w.
Hypothesis handles_agree : forall A (c : ext A) w,
  is_grad_enabled w = false -> handle A c w = handle' A c w.

#[local] Abbreviation agree := (agree_off is_grad_enabled).

Lemma agree_ret {A} (a : A) : agree (@ret W A a) (ret a).
Proof. intros s Hs. split; [reflexivity | exact Hs]. Qed.

Lemma agree_lift {A} (o : outcome A) : agree (@lift W A o) (lift o).
Proof. intros s Hs. split; [reflexivity | exact Hs]. Qed.

Lemma agree_call {A} (c : ext A) : agree (call handle c) (call handle' c).
Proof.
  intros s Hs. unfold call. rewrite <- (handles_agree A c _ Hs).
  pose proof (handle_keeps_mode A c (world s)) as Hk.
  destruct (handle A c (world s)) as [r w]. simpl in *.
  split; [reflexivity | congruence].
Qed.

Lemma agree_bind {A B} (m m' : M W A) (k k' : A -> M W B) :
  agree m m' -> (forall a, agree (k a) (k' a)) -> agree (bind m k) (bind m' k').
Proof.
  intros Hm Hk s Hs. destruct (Hm s Hs) as [Heq Hoff]. unfold bind.
  rewrite <- Heq. destruct (m s) as [[a|e] s1]; simpl in *.
  - apply Hk. exact Hoff.
  - split; [reflexivity | exact Hoff].
Qed.

Lemma agree_for_each {A S} (body body' : A -> S -> M W S) (l : list A) :
  (forall x acc, agree (body x acc) (body' x acc)) ->
  forall acc, agree (for_each l body acc) (for_each l body' acc).
Proof.
  intros Hbody. induction l as [|x l IH]; intros acc; simpl.
  - apply agree_ret.
  - apply agree_bind; [apply Hbody | exact IH].
Qed.

End GradOff.

(** Shows that two computations built alike from calls, script-level
    operations, loops and branches agree while the gradient mode is off. *)
Ltac agreement :=
  repeat first
    [ apply agree_ret
    | apply agree_lift
    | apply agree_call; assumption
    | apply agree_for_each; intros
    | apply agree_bind; [|intros]
    | match goal with
      | |- agree_off _ (if ?b then _ else _) _ => destruct b
      | |- agree_off _ (match ?x with _ => _ end) _ => destruct x
      end ].

(** X3.  [test] runs with the gradient mode off and puts it back.  When the
    framework itself leaves the gradient mode alone, what it would do with
    the gradient mode on plays no part in a call of [test]: two frameworks
    that agree while the mode is off give the same run, whether [test]
    returns or raises; and the mode after the call is the mode before it. *)
Theorem test_runs_without_gradients W
    (handle handle' : forall A : Type, ext A -> W -> outcome A * W)
    (is_grad_enabled : W -> bool) (set_grad_enabled : bool -> W -> W)
    (g : globals) (loader : obj) (s : state W) :
  (forall b w, is_grad_enabled (set_grad_enabled b w) = b) ->
  (forall A (c : ext A) w,
     is_grad_enabled (snd (handle A c w)) = is_grad_enabled w) ->
  (forall A (c : ext A) w,
     is_grad_enabled w = false -> handle A c w = handle' A c w) ->
  test W handle is_grad_enabled set_grad_enabled g loader s =
  test W handle' is_grad_enabled set_grad_enabled g loader s /\
  is_grad_enabled
    (world (snd (test W handle is_grad_enabled set_grad_enabled g loader s))) =
  is_grad_enabled (world s).
Proof.
  intros Hlaw Hkeep Hagree. unfold test, no_grad.
  match goal with
  | |- (let '(_, _) := ?m ?s0 in _) = (let '(_, _) := ?m' ?s0 in _) /\ _ =>
      assert (Hbody : agree_off is_grad_enabled m m')
  end.
  { unfold pow_half, test_step, batch_score. agreement. }
  destruct (Hbody (with_world (set_grad_enabled false) s)) as [Heq _].
  { simpl. apply Hlaw. }
  rewrite <- Heq.
  match goal with
  | |- context [let '(_, _) := ?x in _] => destruct x as [r s1]
  end.
  split; [reflexivity|]. simpl. apply Hlaw.
Qed.

Lemma test_runs_without_gradients_witness :
  let g := Demo.globals_of Demo.classifier in
  test Lab.W (Lab.handle Demo.classifier)
    Lab.is_grad_enabled Lab.set_grad_enabled g 6%N Lab.start =
  test Lab.W (Lab.strict Demo.classifier)
    Lab.is_grad_enabled Lab.set_grad_enabled g 6%N Lab.start /\
  Lab.is_grad_enabled
    (world (snd (test Lab.W (Lab.handle Demo.classifier)
                   Lab.is_grad_enabled Lab.set_grad_enabled g 6%N Lab.start))) =
  Lab.is_grad_enabled (world Lab.start).
Proof.
  apply (test_runs_without_gradients Lab.W
           (Lab.handle Demo.classifier) (Lab.strict Demo.classifier)
           Lab.is_grad_enabled Lab.set_grad_enabled
           (Demo.globals_of Demo.classifier) 6%N Lab.start).
  - intros b w. reflexivity.
  - intros A c w. reflexivity.
  - intros A c w Hw. unfold Lab.is_grad_enabled in Hw. subst w. reflexivity.
Defined.

(** ** Empty loaders *)

(** X4.  [train] on an empty training loader divides zero by zero: when
    [model.train()] returns and the loader gives no batch, [train(epoch)]
    raises ZeroDivisionError after these two calls, with no optimizer call
    and nothing printed; and so does the epoch loop in its first epoch,
    whenever [args.epochs] is at least one. *)
Theorem train_on_empty_loader W
    (handle : forall A : Type, ext A -> W -> outcome A * W)
    (is_grad_enabled : W -> bool) (set_grad_enabled : bool -> W -> W)
    (g : globals) (epoch : Z) (s : state W) (w1 w2 : W) :
  handle _ (ModelTrain (g_model g)) (world s) = (Ok tt, w1) ->
  handle _ (Iterate (g_train_loader g)
              (Some ("Epoch: " ++ PyFormat.str_int epoch)%string)) w1
    = (Ok [], w2) ->
  let s' :=
    {| world := w2;
       trace := trace s ++
         [ Called (ModelTrain (g_model g)) (Ok tt);
           Called (Iterate (g_train_loader g)
                     (Some ("Epoch: " ++ PyFormat.str_int epoch)%string)) (Ok []) ];
       stdout := stdout s |} in
  train W handle g epoch s = (Raise ZeroDivisionError, s') /\
  (epoch = 1 ->
   forall epochs, 1 <= epochs ->
     epoch_loop W handle is_grad_enabled set_grad_enabled g epochs s
       = (Raise ZeroDivisionError, s')).
Proof.
  intros H1 H2 s'.
  assert (Htrain : train W handle g epoch s = (Raise ZeroDivisionError, s')).
  { unfold train, bind, call. rewrite H1. simpl. rewrite H2. simpl.
    unfold s'. rewrite <- app_assoc. reflexivity. }
  split; [exact Htrain|].
  intros He epochs Hep. unfold epoch_loop, range.
  replace (Z.to_nat (epochs + 1 - 1)) with (S (Z.to_nat (epochs - 1))) by lia.
  simpl. unfold epoch_body at 1, bind at 1, bind at 1, bind at 1.
  subst epoch. change (1 + Z.of_nat 0) with 1.
  rewrite Htrain. reflexivity.
Qed.

Lemma train_on_empty_loader_witness :
  let g := Demo.globals_of Demo.classifier in
  let s' :=
    {| world := true;
       trace := trace Lab.start ++
         [ Called (ModelTrain (g_model g)) (Ok tt);
           Called (Iterate (g_train_loader g)
                     (Some ("Epoch: " ++ PyFormat.str_int 1)%string)) (Ok []) ];
       stdout := stdout Lab.start |} in
  train Lab.W (Lab.empty Demo.classifier) g 1 Lab.start
    = (Raise ZeroDivisionError, s') /\
  (1 = 1 ->
   forall epochs, 1 <= epochs ->
     epoch_loop Lab.W (Lab.empty Demo.classifier)
       Lab.is_grad_enabled Lab.set_grad_enabled g epochs Lab.start
       = (Raise ZeroDivisionError, s')).
Proof.
  apply (train_on_empty_loader Lab.W (Lab.empty Demo.classifier)
           Lab.is_grad_enabled Lab.set_grad_enabled
           (Demo.globals_of Demo.classifier) 1 Lab.start true true).
  - reflexivity.
  - reflexivity.
Defined.

(** X5.  [test] on an empty loader divides zero by zero, for classification
    and for regression alike: when [model.eval()] returns and the loader
    gives no batch, [test(loader)] raises ZeroDivisionError after these two
    calls; nothing is printed, and the gradient mode is put back. *)
Theorem test_on_empty_loader W
    (handle : forall A : Type, ext A -> W -> outcome A * W)
    (is_grad_enabled : W -> bool) (set_grad_enabled : bool -> W -> W)
    (g : globals) (loader : obj) (s : state W) (w1 w2 : W) :
  handle _ (ModelEval (g_model g)) (set_grad_enabled false (world s))
    = (Ok tt, w1) ->
  handle _ (Iterate loader None) w1 = (Ok [], w2) ->
  test W handle is_grad_enabled set_grad_enabled g loader s =
    (Raise ZeroDivisionError,
     {| world := set_grad_enabled (is_grad_enabled (world s)) w2;
        trace := trace s ++
          [ Called (ModelEval (g_model g)) (Ok tt);
            Called (Iterate loader None) (Ok []) ];
        stdout := stdout s |}).
Proof.
  intros H1 H2. unfold test, no_grad, bind, call, with_world. simpl.
  rewrite H1. simpl. rewrite H2. simpl.
  rewrite <- app_assoc.
  destruct (g_is_classification g); reflexivity.
Qed.

Lemma test_on_empty_loader_witness :
  test Lab.W (Lab.empty Demo.regression) Lab.is_grad_enabled
    Lab.set_grad_enabled (Demo.globals_of Demo.regression) 6%N Lab.start =
    (Raise ZeroDivisionError,
     {| world := Lab.set_grad_enabled (Lab.is_grad_enabled (world Lab.start)) false;
        trace := trace Lab.start ++
          [ Called (ModelEval (g_model (Demo.globals_of Demo.regression))) (Ok tt);
            Called (Iterate 6%N None) (Ok []) ];
        stdout := stdout Lab.start |}).
Proof.
  apply (test_on_empty_loader Lab.W (Lab.empty Demo.regression)
           Lab.is_grad_enabled Lab.set_grad_enabled
           (Demo.globals_of Demo.regression) 6%N Lab.start false false).
  - reflexivity.
  - reflexivity.
Defined.

(** ** The command line, word after word *)

Section CommandLine.

Import Argparse.

Variable int_of_str : string -> option Z.
Variable float_of_str : string -> option float.

#[local] Abbreviation consume := (consume int_of_str float_of_str).
#[local] Abbreviation parse_args := (parse_args int_of_str float_of_str).
#[local] Abbreviation get_value := (get_value int_of_str float_of_str).

Lemma parser_dest_inj a a' :
  In a parser -> In a' parser -> dest a = dest a' -> a = a'.
Proof.
  intros Hin Hin'. unfold parser, ArgumentParser, add_argument in Hin, Hin'.
  simpl in Hin, Hin'.
  repeat (destruct Hin as [<- | Hin];
          [repeat (destruct Hin' as [<- | Hin'];
                   [first [reflexivity | discriminate]|]);
           destruct Hin'|]).
  destruct Hin.
Qed.

Lemma added_arguments_parser a :
  In a added_arguments -> In a parser /\ act a <> help.
Proof.
  unfold added_arguments. rewrite List.filter_In. intros [Hin Hact].
  split; [exact Hin|]. destruct (act a); congruence.
Qed.

Lemma get_value_type t choices s v :
  get_value t choices s = Some v -> has_type (store t choices) v = true.
Proof.
  unfold Argparse.get_value, convert. destruct t; simpl.
  - destruct choices as [allowed|].
    + destruct (bool_decide _); [|discriminate]. intros H. inversion H. reflexivity.
    + intros H. inversion H. reflexivity.
  - destruct (int_of_str s); simpl; [|discriminate].
    destruct choices as [allowed|].
    + destruct (bool_decide _); [|discriminate]. intros H. inversion H. reflexivity.
    + intros H. inversion H. reflexivity.
  - destruct (float_of_str s); simpl; [|discriminate].
    destruct choices as [allowed|].
    + destruct (bool_decide _); [|discriminate]. intros H. inversion H. reflexivity.
    + intros H. inversion H. reflexivity.
Qed.

Lemma well_typed_insert a v ns :
  In a parser -> has_type (act a) v = true -> well_typed ns ->
  well_typed (<[dest a := v]> ns).
Proof.
  intros Hin Hv Hns a' Ha'.
  destruct (decide (dest a = dest a')) as [Heq | Hne].
  - apply added_arguments_parser in Ha' as [Hin' _].
    pose proof (parser_dest_inj _ _ Hin Hin' Heq) as <-.
    exists v. rewrite lookup_insert_eq. split; [reflexivity | exact Hv].
  - rewrite lookup_insert_ne by exact Hne. apply Hns. exact Ha'.
Qed.

Lemma well_typed_defaults : well_typed (defaults parser).
Proof.
  intros a Hin. unfold added_arguments, parser, ArgumentParser, add_argument in Hin.
  simpl in Hin.
  repeat (destruct Hin as [<- | Hin]; [eexists; split; reflexivity|]).
  destruct Hin.
Qed.

Lemma well_typed_to_args ns : well_typed ns -> exists args, to_args ns = Ok args.
Proof.
  intros Hns. unfold to_args.
  assert (Hget : forall a, In a added_arguments ->
            match act a with
            | store type_str _ => exists x, get_str ns (dest a) = Ok x
            | store type_int _ => exists x, get_int ns (dest a) = Ok x
            | store type_float _ => exists x, get_float ns (dest a) = Ok x
            | store_true => exists x, get_bool ns (dest a) = Ok x
            | help => True
            end).
  { intros a Hin. destruct (Hns a Hin) as (v & Hlook & Hty).
    unfold get_str, get_int, get_float, get_bool. rewrite Hlook.
    destruct (act a) as [[] ?| |]; destruct v; try discriminate; eauto. }
  assert (Hall : Forall (fun a => In a added_arguments) added_arguments)
    by (apply List.Forall_forall; auto).
  unfold added_arguments at 2, parser, ArgumentParser, add_argument in Hall.
  simpl in Hall.
  repeat match goal with
  | H : Forall _ (_ :: _) |- _ =>
      let Hin := fresh "Hin" in
      apply Forall_cons_iff in H as [Hin H];
      apply Hget in Hin; simpl in Hin; destruct Hin as [? Hin]; rewrite Hin
  end.
  simpl. eauto.
Qed.

Lemma consume_well_typed words ns ns' :
  well_typed ns -> consume parser words ns false = Ok ns' -> well_typed ns'.
Proof.
  intros Hns. apply (consume_preserves int_of_str float_of_str well_typed parser)
    with (n := length words); [| |lia|exact Hns].
  - intros a ns0 Hin Hact HP. apply well_typed_insert; auto.
    rewrite Hact. reflexivity.
  - intros a t choices s v ns0 Hin Hact Hv HP. apply well_typed_insert; auto.
    rewrite Hact. eapply get_value_type. exact Hv.
Qed.

Lemma parse_args_well_typed argv ns :
  parse_args argv = Ok ns -> well_typed ns.
Proof.
  unfold Argparse.parse_args. destruct (any_ambiguous _ _); [discriminate|].
  apply consume_well_typed. apply well_typed_defaults.
Qed.

Lemma consume_app p : forall n words ns extras ns1 words',
  (length words <= n)%nat ->
  consume p words ns extras = Ok ns1 ->
  consume p (words ++ words') ns extras = consume p words' ns1 false.
Proof.
  induction n as [|n IH]; intros words ns extras ns1 words' Hlen.
  - destruct words; [|simpl in Hlen; lia]. simpl.
    destruct extras; [discriminate|]. intros H. inversion H. reflexivity.
  - destruct words as [|w rest].
    { simpl. destruct extras; [discriminate|]. intros H. inversion H. reflexivity. }
    simpl in Hlen. rewrite <- app_comm_cons. simpl.
    destruct (String.eqb w "--"); [discriminate|].
    destruct (classify p w) as [| a explicit | |] eqn:Hclass; try discriminate.
    + intros H. pose proof H as H'.
      apply (consume_accepts _ _ _ (length rest)) in H' as [Hx _]; [|lia].
      discriminate.
    + destruct (act a) as [t choices| |] eqn:Hact.
      * destruct explicit as [v|].
        -- destruct (get_value t choices v) as [x|]; [|discriminate].
           apply IH. lia.
        -- destruct rest as [|v rest']; [discriminate|].
           rewrite <- app_comm_cons.
           destruct (classify p v); try discriminate.
           destruct (String.eqb v "--"); [discriminate|].
           destruct (get_value t choices v) as [x|]; [|discriminate].
           apply IH. simpl in Hlen. lia.
      * destruct explicit; [discriminate|]. apply IH. lia.
      * destruct explicit; [destruct (negb _ && _)|]; discriminate.
    + intros H. pose proof H as H'.
      apply (consume_accepts _ _ _ (length rest)) in H' as [Hx _]; [|lia].
      discriminate.
Qed.

(** A command line that parses has no separator. *)
Lemma consume_no_separator p : forall n words ns extras ns1,
  (length words <= n)%nat ->
  consume p words ns extras = Ok ns1 ->
  before_separator words = words.
Proof.
  induction n as [|n IH]; intros words ns extras ns1 Hlen.
  - destruct words; [|simpl in Hlen; lia]. reflexivity.
  - destruct words as [|w rest]; [reflexivity|].
    simpl in Hlen. simpl.
    destruct (String.eqb w "--"); [discriminate|].
    destruct (classify p w) as [| a explicit | |] eqn:Hclass; try discriminate.
    + intros H. f_equal. eapply IH; [|exact H]. lia.
    + destruct (act a) as [t choices| |] eqn:Hact.
      * destruct explicit as [v|].
        -- destruct (get_value t choices v) as [x|]; [|discriminate].
           intros H. f_equal. eapply IH; [|exact H]. lia.
        -- destruct rest as [|v rest']; [discriminate|].
           destruct (classify p v); try discriminate.
           simpl.
           destruct (String.eqb v "--"); [discriminate|].
           destruct (get_value t choices v) as [x|]; [|discriminate].
           intros H. do 2 f_equal. eapply IH; [|exact H]. simpl in Hlen. lia.
      * destruct explicit; [discriminate|].
        intros H. f_equal. eapply IH; [|exact H]. lia.
      * destruct explicit; [destruct (negb _ && _)|]; discriminate.
    + intros H. f_equal. eapply IH; [|exact H]. lia.
Qed.

Lemma before_separator_app words words' :
  before_separator words = words ->
  before_separator (words ++ words') = words ++ before_separator words'.
Proof.
  induction words as [|w words IH]; [reflexivity|]. simpl.
  destruct (String.eqb w "--"); [discriminate|].
  intros H. inversion H as [H']. rewrite H'. f_equal. apply IH. exact H'.
Qed.

Lemma any_ambiguous_app p words words' :
  before_separator words = words ->
  any_ambiguous p (words ++ words') =
  any_ambiguous p words || any_ambiguous p words'.
Proof.
  intros H. unfold any_ambiguous.
  rewrite (before_separator_app _ _ H), H. apply existsb_app.
Qed.

(** A command line that parses, followed by more words: the words that
    follow are read as if they came first, on the namespace reached so
    far. *)
Lemma parse_args_app argv ns words :
  parse_args argv = Ok ns ->
  parse_args (argv ++ words) =
  if any_ambiguous parser words then Raise (SystemExit 2)
  else consume parser words ns false.
Proof.
  unfold Argparse.parse_args.
  destruct (any_ambiguous parser argv) eqn:Hargv; [discriminate|].
  intros H.
  rewrite any_ambiguous_app, Hargv
    by (eapply (consume_no_separator _ (length argv)); [|exact H]; lia).
  simpl. destruct (any_ambiguous parser words); [reflexivity|].
  apply (consume_app _ (length argv)); [lia | exact H].
Qed.

Lemma classify_flag a flag :
  In a parser -> In flag (option_strings a) ->
  classify parser flag = Optional a None /\ String.eqb flag "--" = false.
Proof.
  intros Hin. unfold parser, ArgumentParser, add_argument in Hin. simpl in Hin.
  repeat (destruct Hin as [<- | Hin];
          [simpl; intros Hf;
           repeat (destruct Hf as [<- | Hf]; [split; vm_compute; reflexivity|]);
           destruct Hf|]).
  destruct Hin.
Qed.

End CommandLine.




(** X7.  Options are read from left to right and the last one wins: after a
    command line that parses, one more option with its value, for any option
    [flag] that takes a value and any word [v] that is no option itself,
    stores the converted value under the name of the option, in place of
    what was there, and leaves the other names as they were; when [v] cannot
    be converted to the type of the option, or is not among its choices,
    the parser exits with status 2. *)
Theorem later_option_wins (int_of_str : string -> option Z)
    (float_of_str : string -> option float) (argv : list string)
    (ns : Argparse.namespace) (a : Argparse.argument) (flag v : string)
    (t : Argparse.arg_type) (choices : option (list Argparse.pyval)) :
  Argparse.parse_args int_of_str float_of_str argv = Ok ns ->
  In a Argparse.added_arguments ->
  In flag (Argparse.option_strings a) ->
  Argparse.act a = Argparse.store t choices ->
  Argparse.classify Argparse.parser v = Argparse.Positional ->
  v <> "--"%string ->
  Argparse.parse_args int_of_str float_of_str (argv ++ [flag; v]) =
  match Argparse.get_value int_of_str float_of_str t choices v with
  | Some x => Ok (<[Argparse.dest a := x]> ns)
  | None => Raise (SystemExit 2)
  end.
Proof.
  intros Hns Ha Hflag Hact Hv Hdash.
  apply added_arguments_parser in Ha as [Hin _].
  destruct (classify_flag a flag Hin Hflag) as [Hclass Hnd].
  rewrite (parse_args_app _ _ _ _ [flag; v] Hns).
  apply String.eqb_neq in Hdash.
  unfold Argparse.any_ambiguous. cbn [Argparse.before_separator].
  rewrite Hnd, Hdash. cbn [existsb]. rewrite Hclass, Hv. cbn [orb].
  cbn [Argparse.consume]. rewrite Hnd, Hclass, Hact, Hv, Hdash.
  destruct (Argparse.get_value _ _ t choices v); reflexivity.
Qed.

Lemma later_option_wins_witness :
  Argparse.parse_args Demo.int_of_str Demo.float_of_str
    (["--epochs"; "1"; "--compile"]%string ++ ["--epochs"; "2"]%string) =
  match Argparse.get_value Demo.int_of_str Demo.float_of_str
          Argparse.type_int None "2"%string with
  | Some x =>
      Ok (<["epochs"%string := x]>
            (<["compile"%string := Argparse.PBool true]>
               (<["epochs"%string := Argparse.PInt 1]>
                  (Argparse.defaults Argparse.parser))))
  | None => Raise (SystemExit 2)
  end.
Proof.
  apply (later_option_wins Demo.int_of_str Demo.float_of_str
           ["--epochs"; "1"; "--compile"]%string
           (<["compile"%string := Argparse.PBool true]>
              (<["epochs"%string := Argparse.PInt 1]>
                 (Argparse.defaults Argparse.parser)))
           {| Argparse.option_strings := ["--epochs"%string];
              Argparse.dest := "epochs";
              Argparse.act := Argparse.store Argparse.type_int None;
              Argparse.default := Some (Argparse.PInt 100) |}
           "--epochs"%string "2"%string Argparse.type_int None).
  - vm_compute. reflexivity.
  - vm_compute. tauto.
  - simpl. tauto.
  - reflexivity.
  - vm_compute. reflexivity.
  - discriminate.
Defined.

(** X8.  A command line that ends badly exits with status 2.  After a
    command line that parses: an option that takes a value and comes last,
    with no value behind it; one more word that is no option of the script
    (a positional word or an unknown option); and [--compile=v], a value
    for the flag that takes none. *)
Theorem malformed_tail_exits (int_of_str : string -> option Z)
    (float_of_str : string -> option float) (argv : list string)
    (ns : Argparse.namespace) :
  Argparse.parse_args int_of_str float_of_str argv = Ok ns ->
  (forall a flag t choices,
     In a Argparse.added_arguments ->
     Argparse.act a = Argparse.store t choices ->
     In flag (Argparse.option_strings a) ->
     Argparse.parse_args int_of_str float_of_str (argv ++ [flag])
       = Raise (SystemExit 2)) /\
  (forall w,
     w <> "--"%string ->
     Argparse.classify Argparse.parser w = Argparse.Positional \/
     Argparse.classify Argparse.parser w = Argparse.Unknown ->
     Argparse.parse_args int_of_str float_of_str (argv ++ [w])
       = Raise (SystemExit 2)) /\
  (forall v,
     Argparse.parse_args int_of_str float_of_str
       (argv ++ [("--compile=" ++ v)%string]) = Raise (SystemExit 2)).
Proof.
  intros Hns. split; [|split].
  - intros a flag t choices Ha Hact Hflag.
    apply added_arguments_parser in Ha as [Hin _].
    destruct (classify_flag a flag Hin Hflag) as [Hclass Hnd].
    rewrite (parse_args_app _ _ _ _ [flag] Hns).
    unfold Argparse.any_ambiguous. cbn [Argparse.before_separator].
    rewrite Hnd. cbn [existsb]. rewrite Hclass. cbn [orb].
    cbn [Argparse.consume]. rewrite Hnd, Hclass, Hact. reflexivity.
  - intros w Hdash Hw.
    rewrite (parse_args_app _ _ _ _ [w] Hns).
    apply String.eqb_neq in Hdash.
    unfold Argparse.any_ambiguous. cbn [Argparse.before_separator].
    rewrite Hdash. cbn [existsb].
    destruct Hw as [Hw | Hw]; rewrite Hw; cbn [orb];
      cbn [Argparse.consume]; rewrite Hdash, Hw; reflexivity.
  - intros v.
    rewrite (parse_args_app _ _ _ _ [("--compile=" ++ v)%string] Hns).
    assert (Hclass : Argparse.classify Argparse.parser ("--compile=" ++ v)%string =
              Argparse.Optional
                {| Argparse.option_strings := ["--compile"%string];
                   Argparse.dest := "compile";
                   Argparse.act := Argparse.store_true;
                   Argparse.default := Some (Argparse.PBool false) |} (Some v)).
    { vm_compute. reflexivity. }
    assert (Hsep : String.eqb ("--compile=" ++ v) "--" = false)
      by (vm_compute; reflexivity).
    unfold Argparse.any_ambiguous. cbn [Argparse.before_separator].
    rewrite Hsep. cbn [existsb]. rewrite Hclass. cbn [orb].
    cbn [Argparse.consume]. rewrite Hclass, Hsep.
    reflexivity.
Qed.

Lemma malformed_tail_exits_witness :
  (forall a flag t choices,
     In a Argparse.added_arguments ->
     Argparse.act a = Argparse.store t choices ->
     In flag (Argparse.option_strings a) ->
     Argparse.parse_args Demo.int_of_str Demo.float_of_str ([] ++ [flag])
       = Raise (SystemExit 2)) /\
  (forall w,
     w <> "--"%string ->
     Argparse.classify Argparse.parser w = Argparse.Positional \/
     Argparse.classify Argparse.parser w = Argparse.Unknown ->
     Argparse.parse_args Demo.int_of_str Demo.float_of_str ([] ++ [w])
       = Raise (SystemExit 2)) /\
  (forall v,
     Argparse.parse_args Demo.int_of_str Demo.float_of_str
       ([] ++ [("--compile=" ++ v)%string]) = Raise (SystemExit 2)).
Proof.
  apply (malformed_tail_exits Demo.int_of_str Demo.float_of_str []
           (Argparse.defaults Argparse.parser)).
  reflexivity.
Defined.

(** X9.  Help ends the script at once: after a command line that parses,
    [-h] or [--help], whatever follows it short of an ambiguous
    abbreviation, makes the script leave with status 0, with no call to the
    framework and nothing printed on standard output by the script
    itself. *)
Theorem help_exits_first W handle is_grad_enabled set_grad_enabled
    (int_of_str : string -> option Z) (float_of_str : string -> option float)
    (argv rest : list string) (ns : Argparse.namespace) (h : string)
    (s : state W) :
  Argparse.parse_args int_of_str float_of_str argv = Ok ns ->
  Argparse.any_ambiguous Argparse.parser rest = false ->
  h = "-h"%string \/ h = "--help"%string ->
  Argparse.parse_args int_of_str float_of_str (argv ++ h :: rest)
    = Raise (SystemExit 0) /\
  script W handle is_grad_enabled set_grad_enabled int_of_str float_of_str
    (argv ++ h :: rest) s = (Raise (SystemExit 0), s).
Proof.
  intros Hns Hrest Hh.
  assert (Hparse : Argparse.parse_args int_of_str float_of_str (argv ++ h :: rest)
                   = Raise (SystemExit 0)).
  { rewrite (parse_args_app _ _ _ _ (h :: rest) Hns).
    unfold Argparse.any_ambiguous in *.
    destruct Hh as [-> | ->]; cbn [Argparse.before_separator];
      match goal with
      | |- context [String.eqb ?h "--"] =>
          change (String.eqb h "--") with false
      end;
      cbv iota; cbn [existsb]; rewrite Hrest; reflexivity. }
  split; [exact Hparse|].
  unfold script, bind, lift. rewrite Hparse. reflexivity.
Qed.

Lemma help_exits_first_witness :
  Argparse.parse_args Demo.int_of_str Demo.float_of_str
    (["--epochs"; "2"]%string ++ "-h"%string :: ["--lr"; "x"]%string)
    = Raise (SystemExit 0) /\
  Demo.run Demo.classifier
    (["--epochs"; "2"]%string ++ "-h"%string :: ["--lr"; "x"]%string)
    = (Raise (SystemExit 0), Demo.start).
Proof.
  apply (help_exits_first Demo.W (Demo.handle Demo.classifier)
           Demo.is_grad_enabled Demo.set_grad_enabled
           Demo.int_of_str Demo.float_of_str
           ["--epochs"; "2"]%string ["--lr"; "x"]%string
           (<["epochs"%string := Argparse.PInt 2]>
              (Argparse.defaults Argparse.parser))
           "-h"%string Demo.start).
  - vm_compute. reflexivity.
  - vm_compute. reflexivity.
  - left. reflexivity.
Defined.

Lemma abbreviations_ok :
  forallb (fun a =>
    forallb (fun flag => forallb (abbreviation_ok a) (proper_prefixes flag))
      (Argparse.option_strings a)) Argparse.added_arguments = true.
Proof. vm_compute. reflexivity. Qed.

(** X10.  Options can be abbreviated.  Every beginning of an option string of
    the script, from two dashes and one letter on, is read as that option,
    but for [--c], which could be [--channels] or [--compile]: it is
    ambiguous, and a command line with it after words that parse exits with
    status 2. *)
Theorem options_can_be_abbreviated (int_of_str : string -> option Z)
    (float_of_str : string -> option float) :
  (forall a flag p,
     In a Argparse.added_arguments ->
     In flag (Argparse.option_strings a) ->
     In p (proper_prefixes flag) ->
     (3 <= String.length p)%nat ->
     p <> "--c"%string ->
     Argparse.classify Argparse.parser p = Argparse.Optional a None) /\
  Argparse.classify Argparse.parser "--c" = Argparse.Ambiguous /\
  (forall argv ns rest,
     Argparse.parse_args int_of_str float_of_str argv = Ok ns ->
     Argparse.parse_args int_of_str float_of_str (argv ++ "--c"%string :: rest)
       = Raise (SystemExit 2)).
Proof.
  split; [|split].
  - intros a flag p Ha Hflag Hp Hlen Hc.
    pose proof abbreviations_ok as Hall.
    rewrite forallb_forall in Hall. specialize (Hall a Ha).
    rewrite forallb_forall in Hall. specialize (Hall flag Hflag).
    rewrite forallb_forall in Hall. specialize (Hall p Hp).
    unfold abbreviation_ok in Hall.
    apply orb_true_iff in Hall as [Hall | Hall].
    + apply orb_true_iff in Hall as [Hall | Hall].
      * apply Nat.ltb_lt in Hall. lia.
      * apply String.eqb_eq in Hall. contradiction.
    + destruct (Argparse.classify Argparse.parser p) as [|a' [v|]| |] eqn:Hclass;
        try discriminate.
      apply String.eqb_eq in Hall.
      apply classify_In in Hclass.
      apply added_arguments_parser in Ha as [Hin _].
      rewrite (parser_dest_inj a' a Hclass Hin Hall). reflexivity.
  - vm_compute. reflexivity.
  - intros argv ns rest Hns.
    rewrite (parse_args_app _ _ _ _ ("--c"%string :: rest) Hns).
    reflexivity.
Qed.

(** ** The start of the script *)

Section Start.

Variable W : Type.
Variable handle : forall A : Type, ext A -> W -> outcome A * W.
Variable is_grad_enabled : W -> bool.
Variable set_grad_enabled : bool -> W -> W.
Variable int_of_str : string -> option Z.
Variable float_of_str : string -> option float.

Lemma setup_seed_first args s r s' :
  setup W handle args s = (r, s') ->
  exists r0 evs,
    trace s' = trace s ++ Called (ManualSeed (arg_seed args)) r0 :: evs.
Proof.
  unfold setup. unfold bind at 1. unfold call at 1.
  destruct (handle _ (ManualSeed (arg_seed args)) (world s)) as [[[]|e] w].
  - match goal with
    | |- ?m ?s1 = _ -> _ =>
        assert (Hm : propagates m)
          by (unfold text_encoder, SimpleTextToEmbedding_init; propagation)
    end.
    intros H. destruct (Hm _ _ _ H) as (evs & Et & _).
    exists (Ok tt), evs. rewrite Et. simpl. rewrite <- app_assoc. reflexivity.
  - intros H. inversion H. subst. simpl. exists (Raise e), []. reflexivity.
Qed.

Lemma script_seed_first argv ns args s :
  Argparse.parse_args int_of_str float_of_str argv = Ok ns ->
  Argparse.to_args ns = Ok args ->
  exists r0 evs,
    trace (snd (script W handle is_grad_enabled set_grad_enabled
                  int_of_str float_of_str argv s)) =
    trace s ++ Called (ManualSeed (arg_seed args)) r0 :: evs.
Proof.
  intros Hns Hargs. unfold script, bind at 1, lift at 1. rewrite Hns.
  unfold bind at 1, lift at 1. rewrite Hargs. unfold bind at 1.
  destruct (setup W handle args s) as [[g|e] s0] eqn:Hsetup.
  - destruct (setup_seed_first _ _ _ _ Hsetup) as (r0 & evs & Et).
    destruct (epoch_loop W handle is_grad_enabled set_grad_enabled g
                (arg_epochs args) s0) as [r s'] eqn:Hloop.
    destruct (propagates_epoch_loop _ _ _ _ _ _ _ _ _ Hloop) as (evs' & Et' & _).
    exists r0, (evs ++ evs'). simpl. rewrite Et', Et, <- app_assoc. reflexivity.
  - destruct (setup_seed_first _ _ _ _ Hsetup) as (r0 & evs & Et).
    exists r0, evs. exact Et.
Qed.

End Start.

(** X11.  The command line is read before anything else, and the seed is set
    before any other call.  In every run of the script: when the command
    line does not parse (an error, or help), the script ends with that
    exit and has called nothing and printed nothing; when it parses, the
    first call to the framework is [torch.manual_seed(args.seed)]. *)
Theorem command_line_then_seed W handle is_grad_enabled set_grad_enabled
    (int_of_str : string -> option Z) (float_of_str : string -> option float)
    (argv : list string) (s : state W) :
  let run := script W handle is_grad_enabled set_grad_enabled
               int_of_str float_of_str argv s in
  match Argparse.parse_args int_of_str float_of_str argv with
  | Raise e => run = (Raise e, s)
  | Ok ns =>
      exists args evs,
        Argparse.to_args ns = Ok args /\
        trace (snd run) = trace s ++ evs /\
        first_seed evs = Some (arg_seed args)
  end.
Proof.
  intros run.
  destruct (Argparse.parse_args int_of_str float_of_str argv) as [ns|e] eqn:Hns.
  - destruct (well_typed_to_args ns (parse_args_well_typed _ _ _ _ Hns))
      as [args Hargs].
    destruct (script_seed_first W handle is_grad_enabled set_grad_enabled
                int_of_str float_of_str argv ns args s Hns Hargs)
      as (r0 & evs & Et).
    exists args, (Called (ManualSeed (arg_seed args)) r0 :: evs).
    split; [exact Hargs|]. split; [exact Et | reflexivity].
  - unfold run, script, bind, lift. rewrite Hns. reflexivity.
Qed.

(** ** The set-up, call by call *)

Section SetupTrace.

Variable W : Type.
Variable handle : forall A : Type, ext A -> W -> outcome A * W.

(** The calls of a set-up that returns, in order. *)
Lemma setup_trace args s g s' :
  setup W handle args s = (Ok g, s') ->
  exists (cuda : bool) tok net dir raw ds tf train_ds val_ds test_ds ft,
    let dev := if cuda then Cuda else Cpu in
    let encoder := {| tokenizer := tok; model := net; emb_device := dev |} in
    let path := osp_join dir [".."; ".."; "data"; arg_dataset args]%string in
    let file := (remove_slashes (arg_model args) ++ "_data.pt")%string in
    let ds' := {| ds_ref := ds_ref ds; tensor_frame := tf;
                  is_classification := is_classification ds;
                  num_classes := num_classes ds;
                  col_stats := col_stats ds |} in
    rename_text_embedded (tensor_frame ds) = Ok tf /\
    g_device g = dev /\
    g_is_classification g = is_classification ds /\
    trace s' = trace s ++
      [ Called (ManualSeed (arg_seed args)) (Ok tt);
        Called CudaIsAvailable (Ok cuda);
        Called (TokenizerFromPretrained (arg_model args)) (Ok tok);
        Called (ModelFromPretrained (arg_model args)) (Ok net);
        Called (ModuleTo net dev) (Ok tt);
        Called ScriptDir (Ok dir);
        Called (MultimodalTextBenchmark path (arg_dataset args) 5000
                  text_embedded
                  {| text_embedder := encoder; cfg_batch_size := 5 |}) (Ok raw);
        Called (Materialize raw (osp_join path [file])) (Ok ds);
        Called (Slice ds' None (Some (Argparse.float_literal 4 5))) (Ok train_ds);
        Called (Slice ds' (Some (Argparse.float_literal 4 5))
                  (Some (Argparse.float_literal 9 10))) (Ok val_ds);
        Called (Slice ds' (Some (Argparse.float_literal 9 10)) None) (Ok test_ds);
        Called (DataLoader (tensor_frame train_ds) (arg_batch_size args) true)
          (Ok (g_train_loader g));
        Called (DataLoader (tensor_frame val_ds) (arg_batch_size args) false)
          (Ok (g_val_loader g));
        Called (DataLoader (tensor_frame test_ds) (arg_batch_size args) false)
          (Ok (g_test_loader g));
        Called (FTTransformer (arg_channels args)
                  (if is_classification ds then num_classes ds else 1)
                  (arg_num_layers args) (col_stats ds)
                  (col_names_dict (tensor_frame train_ds)) stype_encoder_dict)
          (Ok ft);
        Called (ModuleTo ft dev) (Ok tt) ] ++
      (if arg_compile args
       then [Called (TorchCompile ft) (Ok (g_model g))] else []) ++
      [ Called (AdamW (g_model g) (arg_lr args)) (Ok (g_optimizer g)) ] /\
    (arg_compile args = false -> g_model g = ft).
Proof.
  unfold setup, text_encoder, SimpleTextToEmbedding_init. intros H.
  run_inv handle.
  match goal with
  | Hc : (if arg_compile args then _ else _) _ = (Ok _, _) |- _ =>
      destruct (arg_compile args); run_inv handle
  end.
  - do 11 eexists. cbv zeta.
    split; [eassumption|]. split; [reflexivity|]. split; [reflexivity|].
    split; [chain_states; reflexivity | discriminate].
  - do 11 eexists. cbv zeta.
    split; [eassumption|]. split; [reflexivity|]. split; [reflexivity|].
    split; [chain_states; reflexivity | reflexivity].
Qed.

End SetupTrace.

(** X12.  The optimizer is built on the network that is trained.  When the
    set-up returns: [FTTransformer] was called once; [torch.compile] was
    called exactly when [args.compile] is set, once, on the network that
    [FTTransformer] built; the network that [train] and [test] run is the
    compiled one in that case and the built one otherwise; and the one
    optimizer is [AdamW] on that network with the learning rate
    [args.lr]. *)
Theorem optimizer_on_trained_network W handle (args : Args) (s : state W)
    (g : globals) (s' : state W) :
  setup W handle args s = (Ok g, s') ->
  exists evs out ft,
    trace s' = trace s ++ evs /\
    omap built evs = [(out, ft)] /\
    omap compiled evs =
      (if arg_compile args then [(ft, g_model g)] else []) /\
    (arg_compile args = false -> g_model g = ft) /\
    omap optimized evs = [(g_model g, arg_lr args, g_optimizer g)].
Proof.
  intros H.
  destruct (setup_trace _ _ _ _ _ _ H)
    as (cuda & tok & net & dir & raw & ds & tf & d1 & d2 & d3 & ft &
        _ & _ & _ & Et & Hm).
  eexists. exists (if is_classification ds then num_classes ds else 1), ft.
  split; [exact Et|].
  destruct (arg_compile args); repeat split; auto.
Qed.

Lemma optimizer_on_trained_network_witness :
  let g := Demo.globals_of Demo.classifier in
  let run := setup Demo.W (Demo.handle Demo.classifier)
               Argparse.default_args Demo.start in
  exists evs out ft,
    trace (snd run) = trace Demo.start ++ evs /\
    omap built evs = [(out, ft)] /\
    omap compiled evs =
      (if arg_compile Argparse.default_args then [(ft, g_model g)] else []) /\
    (arg_compile Argparse.default_args = false -> g_model g = ft) /\
    omap optimized evs =
      [(g_model g, arg_lr Argparse.default_args, g_optimizer g)].
Proof.
  apply (optimizer_on_trained_network Demo.W (Demo.handle Demo.classifier)
           Argparse.default_args Demo.start (Demo.globals_of Demo.classifier)).
  vm_compute. reflexivity.
Defined.

(** X13.  One device for everything.  When the set-up returns, the device is
    [cuda] exactly when [torch.cuda.is_available()] said so, and [cpu]
    otherwise; the text model and the network were both moved to it, and it
    is the device that [train] and [test] move every batch to. *)
Theorem one_device W handle (args : Args) (s : state W)
    (g : globals) (s' : state W) :
  setup W handle args s = (Ok g, s') ->
  exists evs (cuda : bool),
    trace s' = trace s ++ evs /\
    omap cuda_reply evs = [cuda] /\
    g_device g = (if cuda then Cuda else Cpu) /\
    omap moved_to evs = [g_device g; g_device g] /\
    (forall tb, omap moved_to (train_batch_events g tb) = [g_device g]) /\
    (forall eb, omap moved_to (test_batch_events g eb) = [g_device g]).
Proof.
  intros H.
  destruct (setup_trace _ _ _ _ _ _ H)
    as (cuda & tok & net & dir & raw & ds & tf & d1 & d2 & d3 & ft &
        _ & Hdev & _ & Et & _).
  eexists. exists cuda. split; [exact Et|].
  split; [destruct (arg_compile args); reflexivity|].
  split; [exact Hdev|].
  split; [rewrite Hdev; destruct (arg_compile args); reflexivity|].
  split.
  - intros tb. unfold train_batch_events, loss_event.
    destruct (g_is_classification g); reflexivity.
  - intros eb. unfold test_batch_events, score_event.
    destruct (g_is_classification g); reflexivity.
Qed.

Lemma one_device_witness :
  let g := Demo.globals_of Demo.classifier in
  let run := setup Demo.W (Demo.handle Demo.classifier)
               Argparse.default_args Demo.start in
  exists evs (cuda : bool),
    trace (snd run) = trace Demo.start ++ evs /\
    omap cuda_reply evs = [cuda] /\
    g_device g = (if cuda then Cuda else Cpu) /\
    omap moved_to evs = [g_device g; g_device g] /\
    (forall tb, omap moved_to (train_batch_events g tb) = [g_device g]) /\
    (forall eb, omap moved_to (test_batch_events g eb) = [g_device g]).
Proof.
  apply (one_device Demo.W (Demo.handle Demo.classifier)
           Argparse.default_args Demo.start (Demo.globals_of Demo.classifier)).
  vm_compute. reflexivity.
Defined.

(** X14.  The output size follows the task.  When the set-up returns, the
    network was built with as many output channels as the materialized
    dataset has classes when its task is classification, and with one
    output channel otherwise; and the flag that [train], [test] and the
    epoch loop branch on is the task of that dataset. *)
Theorem output_channels_follow_task W handle (args : Args) (s : state W)
    (g : globals) (s' : state W) :
  setup W handle args s = (Ok g, s') ->
  exists evs ds ft,
    trace s' = trace s ++ evs /\
    omap materialized evs = [ds] /\
    g_is_classification g = is_classification ds /\
    omap built evs =
      [(if g_is_classification g then num_classes ds else 1, ft)].
Proof.
  intros H.
  destruct (setup_trace _ _ _ _ _ _ H)
    as (cuda & tok & net & dir & raw & ds & tf & d1 & d2 & d3 & ft &
        _ & _ & Hcls & Et & _).
  eexists. exists ds, ft. split; [exact Et|].
  rewrite Hcls. destruct (arg_compile args); repeat split.
Qed.

Lemma output_channels_follow_task_witness :
  let g := Demo.globals_of Demo.regression in
  let run := setup Demo.W (Demo.handle Demo.regression)
               Argparse.default_args Demo.start in
  exists evs ds ft,
    trace (snd run) = trace Demo.start ++ evs /\
    omap materialized evs = [ds] /\
    g_is_classification g = is_classification ds /\
    omap built evs =
      [(if g_is_classification g then num_classes ds else 1, ft)].
Proof.
  apply (output_channels_follow_task Demo.W (Demo.handle Demo.regression)
           Argparse.default_args Demo.start (Demo.globals_of Demo.regression)).
  vm_compute. reflexivity.
Defined.

(** ** The rename and the split *)

Lemma rename_Ok tf tf' :
  rename_text_embedded tf = Ok tf' ->
  exists names feat,
    col_names_dict tf !! text_embedded = Some names /\
    feat_dict tf !! text_embedded = Some feat /\
    tf' = {| feat_dict := <[embedding := feat]> (delete text_embedded (feat_dict tf));
             col_names_dict :=
               <[embedding := names]> (delete text_embedded (col_names_dict tf));
             labels := labels tf |}.
Proof.
  unfold rename_text_embedded, dict_pop.
  destruct (col_names_dict tf !! text_embedded) as [names|]; [|discriminate].
  simpl. destruct (feat_dict tf !! text_embedded) as [feat|]; [|discriminate].
  simpl. intros H. inversion H. eauto.
Qed.

Lemma rename_Raise tf e :
  rename_text_embedded tf = Raise e ->
  e = KeyError "text_embedded" /\
  (col_names_dict tf !! text_embedded = None \/
   feat_dict tf !! text_embedded = None).
Proof.
  unfold rename_text_embedded, dict_pop.
  destruct (col_names_dict tf !! text_embedded) as [names|].
  - simpl. destruct (feat_dict tf !! text_embedded) as [feat|]; [discriminate|].
    simpl. intros H. inversion H. auto.
  - simpl. intros H. inversion H. auto.
Qed.

Lemma rename_missing tf :
  col_names_dict tf !! text_embedded = None \/
  feat_dict tf !! text_embedded = None ->
  rename_text_embedded tf = Raise (KeyError "text_embedded").
Proof.
  unfold rename_text_embedded, dict_pop. intros [H | H].
  - rewrite H. reflexivity.
  - destruct (col_names_dict tf !! text_embedded); simpl; [|reflexivity].
    rewrite H. reflexivity.
Qed.

(** X15.  The rename cannot be run twice, and needs the text column.  Lines 87
    and 88 raise [KeyError] exactly when [text_embedded] is missing from
    [col_names_dict] or from [feat_dict]; and since they remove that key,
    running them again on the frame they gave raises [KeyError]. *)
Theorem rename_needs_text_embedded (tf : TensorFrame) :
  (rename_text_embedded tf = Raise (KeyError "text_embedded") <->
   col_names_dict tf !! text_embedded = None \/
   feat_dict tf !! text_embedded = None) /\
  (forall e, rename_text_embedded tf = Raise e -> e = KeyError "text_embedded") /\
  (forall tf', rename_text_embedded tf = Ok tf' ->
     rename_text_embedded tf' = Raise (KeyError "text_embedded")).
Proof.
  split; [|split].
  - split; [|apply rename_missing].
    intros H. apply rename_Raise in H as [_ H]. exact H.
  - intros e H. apply rename_Raise in H as [H _]. exact H.
  - intros tf' H. apply rename_Ok in H as (names & feat & _ & _ & ->).
    apply rename_missing. left. simpl.
    rewrite lookup_insert_ne by discriminate. apply lookup_delete_eq.
Qed.

(** X16.  The split is taken of the renamed dataset, and only the training
    loader shuffles.  When the set-up returns: the three slices [[:0.8]],
    [[0.8:0.9]] and [[0.9:]] were taken, in this order, of the materialized
    dataset with its frame renamed, so with no [text_embedded] key left; and
    the three loaders were built on the frames of the slices that came
    back, all with [args.batch_size], the first with [shuffle=True], the
    other two without; they are the training, the validation and the test
    loader of the epoch loop. *)
Theorem split_and_loaders W handle (args : Args) (s : state W)
    (g : globals) (s' : state W) :
  setup W handle args s = (Ok g, s') ->
  exists evs ds ds' train_ds val_ds test_ds,
    let p80 := Argparse.float_literal 4 5 in
    let p90 := Argparse.float_literal 9 10 in
    trace s' = trace s ++ evs /\
    omap materialized evs = [ds] /\
    rename_text_embedded (tensor_frame ds) = Ok (tensor_frame ds') /\
    col_names_dict (tensor_frame ds') !! text_embedded = None /\
    feat_dict (tensor_frame ds') !! text_embedded = None /\
    omap sliced evs =
      [(ds', None, Some p80); (ds', Some p80, Some p90); (ds', Some p90, None)] /\
    omap slice_reply evs = [train_ds; val_ds; test_ds] /\
    omap loaded evs =
      [ (tensor_frame train_ds, arg_batch_size args, true, g_train_loader g);
        (tensor_frame val_ds, arg_batch_size args, false, g_val_loader g);
        (tensor_frame test_ds, arg_batch_size args, false, g_test_loader g) ].
Proof.
  intros H.
  destruct (setup_trace _ _ _ _ _ _ H)
    as (cuda & tok & net & dir & raw & ds & tf & d1 & d2 & d3 & ft &
        Hren & _ & _ & Et & _).
  eexists. exists ds.
  exists {| ds_ref := ds_ref ds; tensor_frame := tf;
            is_classification := is_classification ds;
            num_classes := num_classes ds; col_stats := col_stats ds |}.
  exists d1, d2, d3. cbv zeta.
  split; [exact Et|].
  split; [destruct (arg_compile args); reflexivity|].
  split; [exact Hren|].
  pose proof Hren as Hren'.
  apply rename_Ok in Hren' as (names & feat & _ & _ & ->). simpl.
  split; [rewrite lookup_insert_ne by discriminate; apply lookup_delete_eq|].
  split; [rewrite lookup_insert_ne by discriminate; apply lookup_delete_eq|].
  destruct (arg_compile args); repeat split.
Qed.

Lemma split_and_loaders_witness :
  let g := Demo.globals_of Demo.classifier in
  let run := setup Demo.W (Demo.handle Demo.classifier)
               Argparse.default_args Demo.start in
  exists evs ds ds' train_ds val_ds test_ds,
    let p80 := Argparse.float_literal 4 5 in
    let p90 := Argparse.float_literal 9 10 in
    trace (snd run) = trace Demo.start ++ evs /\
    omap materialized evs = [ds] /\
    rename_text_embedded (tensor_frame ds) = Ok (tensor_frame ds') /\
    col_names_dict (tensor_frame ds') !! text_embedded = None /\
    feat_dict (tensor_frame ds') !! text_embedded = None /\
    omap sliced evs =
      [(ds', None, Some p80); (ds', Some p80, Some p90); (ds', Some p90, None)] /\
    omap slice_reply evs = [train_ds; val_ds; test_ds] /\
    omap loaded evs =
      [ (tensor_frame train_ds, arg_batch_size Argparse.default_args, true,
         g_train_loader g);
        (tensor_frame val_ds, arg_batch_size Argparse.default_args, false,
         g_val_loader g);
        (tensor_frame test_ds, arg_batch_size Argparse.default_args, false,
         g_test_loader g) ].
Proof.
  apply (split_and_loaders Demo.W (Demo.handle Demo.classifier)
           Argparse.default_args Demo.start (Demo.globals_of Demo.classifier)).
  vm_compute. reflexivity.
Defined.

(** ** A dataset without a text column *)

Section Steps.

Variable W : Type.
Variable handle : forall A : Type, ext A -> W -> outcome A * W.

(** One call and what follows it, in a run with any outcome. *)
Lemma bind_call_run {A B} (c : ext A) (k : A -> M W B) s r s' :
  bind (call handle c) k s = (r, s') ->
  (exists e, r = Raise e /\ trace s' = trace s ++ [Called c (Raise e)]) \/
  (exists a s1, trace s1 = trace s ++ [Called c (Ok a)] /\ k a s1 = (r, s')).
Proof.
  unfold bind, call. destruct (handle A c (world s)) as [[a|e] w]; intros H.
  - right. eexists a, _. split; [|exact H]. reflexivity.
  - left. exists e. inversion H. subst. split; reflexivity.
Qed.

Lemma bind_assoc {A B C} (m : M W A) (k1 : A -> M W B) (k2 : B -> M W C) s :
  bind (bind m k1) k2 s = bind m (fun a => bind (k1 a) k2) s.
Proof. unfold bind. destruct (m s) as [[a|e] s1]; reflexivity. Qed.

Lemma bind_ret {A B} (a : A) (k : A -> M W B) s : bind (ret a) k s = k a s.
Proof. reflexivity. Qed.

End Steps.

(** Steps over the next call of a run whose calls are [evs], known to hold
    a call that the run has not made yet. *)
Ltac next_call H Et Hds :=
  let Et' := fresh "Et'" in
  let Hs1 := fresh "Hs" in
  repeat rewrite bind_assoc in H;
  apply bind_call_run in H as [(? & _ & Et') | (? & ? & Hs1 & H)];
  [ try match goal with
        | Hprev : trace ?s0 = trace _ ++ _ :: _ |- _ =>
            match type of Et' with
            | trace _ = trace s0 ++ _ => rewrite Hprev, <- app_assoc in Et'
            end
        end;
    rewrite Et' in Et; apply app_inv_head in Et; subst; simpl in Hds;
    discriminate
  | try match goal with
        | Hprev : trace ?s0 = trace _ ++ _ :: _ |- _ =>
            match type of Hs1 with
            | trace _ = trace s0 ++ _ =>
                rewrite Hprev, <- app_assoc in Hs1; simpl in Hs1; clear Hprev
            end
        end ].

(** X17.  A dataset without a text column stops the set-up.  In every run of
    the set-up in which [materialize] returned a dataset whose frame lacks
    the key [text_embedded] in [col_names_dict] or in [feat_dict], the
    set-up raises [KeyError] and [materialize] is its last call: no slice is
    taken, no loader and no network is built. *)
Theorem setup_needs_a_text_column W handle (args : Args) (s : state W)
    (r : outcome globals) (s' : state W) (evs : list event) (ds : Dataset) :
  setup W handle args s = (r, s') ->
  trace s' = trace s ++ evs ->
  omap materialized evs = [ds] ->
  col_names_dict (tensor_frame ds) !! text_embedded = None \/
  feat_dict (tensor_frame ds) !! text_embedded = None ->
  r = Raise (KeyError "text_embedded") /\
  exists evs0 raw path, evs = evs0 ++ [Called (Materialize raw path) (Ok ds)].
Proof.
  intros H Et Hds Hmiss.
  unfold setup, text_encoder, SimpleTextToEmbedding_init in H.
  do 5 next_call H Et Hds. rewrite bind_ret in H.
  do 3 next_call H Et Hds.
  unfold bind at 1, lift at 1 in H.
  match type of H with
  | context [rename_text_embedded (tensor_frame ?d)] =>
      destruct (rename_text_embedded (tensor_frame d)) as [tf|e] eqn:Hren
  end.
  - exfalso.
    match type of H with
    | ?m _ = _ => assert (Hm : propagates m) by propagation
    end.
    destruct (Hm _ _ _ H) as (evs' & Et' & _).
    rewrite Et', Hs0, <- app_assoc in Et. apply app_inv_head in Et. subst evs.
    simpl in Hds. injection Hds as Hds _. subst.
    apply rename_missing in Hmiss. congruence.
  - inversion H. subst. rewrite Hs0 in Et. apply app_inv_head in Et. subst evs.
    simpl in Hds. injection Hds as Hds. subst.
    apply rename_Raise in Hren as [-> _]. split; [reflexivity|].
    eexists (_ :: _ :: _ :: _ :: _ :: _ :: [_]), _, _. reflexivity.
Qed.

Lemma setup_needs_a_text_column_witness :
  let run := setup Lab.W (Lab.no_text Demo.classifier)
               Argparse.default_args Lab.start in
  fst run = Raise (KeyError "text_embedded") /\
  exists evs0 raw path,
    trace (snd run) =
      evs0 ++ [Called (Materialize raw path)
                 (Ok {| ds_ref := 3%N;
                        tensor_frame := Lab.no_text_frame Demo.classifier;
                        is_classification := true;
                        num_classes := 2; col_stats := 4%N |})].
Proof.
  apply (setup_needs_a_text_column Lab.W (Lab.no_text Demo.classifier)
           Argparse.default_args Lab.start
           (fst (setup Lab.W (Lab.no_text Demo.classifier)
                   Argparse.default_args Lab.start))
           (snd (setup Lab.W (Lab.no_text Demo.classifier)
                   Argparse.default_args Lab.start))
           (trace (snd (setup Lab.W (Lab.no_text Demo.classifier)
                          Argparse.default_args Lab.start)))).
  - vm_compute. reflexivity.
  - reflexivity.
  - vm_compute. reflexivity.
  - left. vm_compute. reflexivity.
Defined.


(** ** Paths *)

Lemma append_assoc (a b c : string) : ((a ++ b) ++ c = a ++ (b ++ c))%string.
Proof.
  induction a as [|x a IH]; [reflexivity|].
  change (String x ((a ++ b) ++ c) = String x (a ++ (b ++ c)))%string.
  f_equal. exact IH.
Qed.

Lemma length_snoc (x : string) (c : ascii) :
  String.length (x ++ String c "") = S (String.length x).
Proof. induction x as [|a x IH]; simpl; [reflexivity | rewrite IH; reflexivity]. Qed.

Lemma last_char_snoc (x : string) (c : ascii) :
  String.substring (String.length (x ++ String c "") - 1) 1 (x ++ String c "")
  = String c "".
Proof.
  induction x as [|a x IH].
  - reflexivity.
  - rewrite length_snoc in IH. simpl in IH. rewrite Nat.sub_0_r in IH.
    simpl. rewrite Nat.sub_0_r, length_snoc. simpl. exact IH.
Qed.

Lemma snoc_not_empty (x : string) (c : ascii) :
  String.eqb (x ++ String c "") "" = false.
Proof. destruct x; reflexivity. Qed.

(** A component joined to a path that ends in a character other than a
    slash. *)
Lemma join2_snoc (x : string) (c : ascii) (b : string) :
  Ascii.eqb c "/" = false -> String.prefix "/" b = false ->
  join2 (x ++ String c "") b = ((x ++ String c "") ++ "/" ++ b)%string.
Proof.
  intros Hc Hb. unfold join2. rewrite Hb, snoc_not_empty, last_char_snoc.
  simpl. rewrite Hc. reflexivity.
Qed.

Lemma join2_relative (a b : string) :
  String.prefix "/" b = false ->
  join2 a b = (a ++ b)%string \/ join2 a b = (a ++ "/" ++ b)%string.
Proof.
  intros Hb. unfold join2. rewrite Hb.
  destruct (String.eqb a "") eqn:Ha.
  - apply String.eqb_eq in Ha. subst. left. reflexivity.
  - destruct (String.eqb _ "/"); [left | right]; reflexivity.
Qed.

Lemma join2_absolute (a b : string) :
  String.prefix "/" b = true -> join2 a b = b.
Proof. intros Hb. unfold join2. rewrite Hb. reflexivity. Qed.

Lemma has_slash_app (a b : string) :
  has_slash (a ++ b) = has_slash a || has_slash b.
Proof.
  induction a as [|c a IH]; simpl; [reflexivity|].
  rewrite IH, orb_assoc. reflexivity.
Qed.

Lemma remove_slashes_no_slash (s : string) : has_slash (remove_slashes s) = false.
Proof.
  induction s as [|c s IH]; simpl; [reflexivity|].
  destruct (Ascii.eqb c "/") eqn:Hc; simpl; [exact IH|].
  rewrite Hc, IH. reflexivity.
Qed.

Lemma no_slash_relative (s : string) :
  has_slash s = false -> String.prefix "/" s = false.
Proof.
  destruct s as [|c s]; [reflexivity|].
  change (has_slash (String c s)) with (Ascii.eqb c "/" || has_slash s).
  change (String.prefix "/" (String c s))
    with (match ascii_dec "/" c with
          | left _ => String.prefix "" s
          | right _ => false
          end).
  intros H. apply orb_false_iff in H as [Hc _].
  destruct (ascii_dec "/" c) as [<- | _]; [discriminate | reflexivity].
Qed.

(** The directory of the dataset: [osp.join(dir, "..", "..", "data", name)]. *)
Lemma dataset_root_path (dir name : string) :
  let root := osp_join dir [".."; ".."; "data"; name]%string in
  (String.prefix "/" name = true -> root = name) /\
  (String.prefix "/" name = false ->
   root = (dir ++ "../../data/" ++ name)%string \/
   root = (dir ++ "/../../data/" ++ name)%string).
Proof.
  cbv zeta. unfold osp_join. cbn [fold_left]. split.
  - apply join2_absolute.
  - intros Hname.
    assert (H1 : exists x, join2 dir ".." = (x ++ ".")%string /\
                 (x = (dir ++ ".")%string \/ x = (dir ++ "/.")%string)).
    { destruct (join2_relative dir ".." eq_refl) as [-> | ->].
      - exists (dir ++ ".")%string. rewrite append_assoc. auto.
      - exists (dir ++ "/.")%string. rewrite append_assoc. auto. }
    destruct H1 as (x & -> & Hx).
    rewrite (join2_snoc x "." ".." eq_refl eq_refl).
    replace ((x ++ ".") ++ "/" ++ "..")%string
      with ((x ++ "./.") ++ ".")%string
      by (rewrite !append_assoc; reflexivity).
    rewrite (join2_snoc _ "." "data" eq_refl eq_refl).
    replace (((x ++ "./.") ++ ".") ++ "/" ++ "data")%string
      with ((x ++ "./../dat") ++ "a")%string
      by (rewrite !append_assoc; reflexivity).
    rewrite (join2_snoc _ "a" name eq_refl Hname).
    destruct Hx as [-> | ->]; [left | right];
      rewrite !append_assoc; reflexivity.
Qed.

(** X18.  Where the dataset is looked for.  When the set-up returns, the root
    directory given to [MultimodalTextBenchmark] is [../../data/<dataset>]
    under the directory of the script for a dataset name that does not
    start with a slash; a dataset name that starts with a slash is an
    absolute path and is itself the root, whatever the directory of the
    script. *)
Theorem dataset_root_directory W handle (args : Args) (s : state W)
    (g : globals) (s' : state W) :
  setup W handle args s = (Ok g, s') ->
  exists evs dir root,
    trace s' = trace s ++ evs /\
    omap script_dir_reply evs = [dir] /\
    omap dataset_root evs = [root] /\
    (String.prefix "/" (arg_dataset args) = true -> root = arg_dataset args) /\
    (String.prefix "/" (arg_dataset args) = false ->
     root = (dir ++ "../../data/" ++ arg_dataset args)%string \/
     root = (dir ++ "/../../data/" ++ arg_dataset args)%string).
Proof.
  intros H.
  destruct (setup_trace _ _ _ _ _ _ H)
    as (cuda & tok & net & dir & raw & ds & tf & d1 & d2 & d3 & ft &
        _ & _ & _ & Et & _).
  eexists. exists dir, (osp_join dir [".."; ".."; "data"; arg_dataset args]%string).
  split; [exact Et|].
  split; [destruct (arg_compile args); reflexivity|].
  split; [destruct (arg_compile args); reflexivity|].
  apply dataset_root_path.
Qed.

Lemma dataset_root_directory_witness :
  let run := setup Demo.W (Demo.handle Demo.classifier)
               Argparse.default_args Demo.start in
  exists evs dir root,
    trace (snd run) = trace Demo.start ++ evs /\
    omap script_dir_reply evs = [dir] /\
    omap dataset_root evs = [root] /\
    (String.prefix "/" (arg_dataset Argparse.default_args) = true ->
     root = arg_dataset Argparse.default_args) /\
    (String.prefix "/" (arg_dataset Argparse.default_args) = false ->
     root = (dir ++ "../../data/" ++ arg_dataset Argparse.default_args)%string \/
     root = (dir ++ "/../../data/" ++ arg_dataset Argparse.default_args)%string).
Proof.
  apply (dataset_root_directory Demo.W (Demo.handle Demo.classifier)
           Argparse.default_args Demo.start (Demo.globals_of Demo.classifier)).
  vm_compute. reflexivity.
Defined.

(** X19.  The cache file lies in the root directory of the dataset.  When the
    set-up returns, [materialize] got the path of the file
    [<model>_data.pt] directly in the root directory given to
    [MultimodalTextBenchmark], where [<model>] is [args.model] with its
    slashes removed: the file name has no slash, so a model name with
    slashes names no subdirectory and never replaces the root. *)
Theorem cache_file_in_root W handle (args : Args) (s : state W)
    (g : globals) (s' : state W) :
  setup W handle args s = (Ok g, s') ->
  exists evs root path,
    let file := (remove_slashes (arg_model args) ++ "_data.pt")%string in
    trace s' = trace s ++ evs /\
    omap dataset_root evs = [root] /\
    omap materialize_path evs = [path] /\
    has_slash file = false /\
    (path = (root ++ file)%string \/ path = (root ++ "/" ++ file)%string).
Proof.
  intros H.
  destruct (setup_trace _ _ _ _ _ _ H)
    as (cuda & tok & net & dir & raw & ds & tf & d1 & d2 & d3 & ft &
        _ & _ & _ & Et & _).
  eexists. eexists. eexists. cbv zeta.
  split; [exact Et|].
  split; [destruct (arg_compile args); reflexivity|].
  split; [destruct (arg_compile args); reflexivity|].
  assert (Hfile : has_slash (remove_slashes (arg_model args) ++ "_data.pt") = false).
  { rewrite has_slash_app, remove_slashes_no_slash. reflexivity. }
  split; [exact Hfile|].
  unfold osp_join at 1. cbn [fold_left].
  apply join2_relative, no_slash_relative, Hfile.
Qed.

Lemma cache_file_in_root_witness :
  let run := setup Demo.W (Demo.handle Demo.classifier)
               Argparse.default_args Demo.start in
  exists evs root path,
    let file :=
      (remove_slashes (arg_model Argparse.default_args) ++ "_data.pt")%string in
    trace (snd run) = trace Demo.start ++ evs /\
    omap dataset_root evs = [root] /\
    omap materialize_path evs = [path] /\
    has_slash file = false /\
    (path = (root ++ file)%string \/ path = (root ++ "/" ++ file)%string).
Proof.
  apply (cache_file_in_root Demo.W (Demo.handle Demo.classifier)
           Argparse.default_args Demo.start (Demo.globals_of Demo.classifier)).
  vm_compute. reflexivity.
Defined.

(** ** The text embedder, input by input *)

Section EmbedTrace.

Variable W : Type.
Variable handle : forall A : Type, ext A -> W -> outcome A * W.

Lemma move_inputs_trace d (entries : list (string * value)) : forall inputs s r s',
  for_each entries (move_input W handle d) inputs s = (Ok r, s') ->
  r = inputs /\
  trace s' = trace s ++
    map (fun t => Called (TensorTo t d) (Ok tt)) (tensor_inputs entries) /\
  stdout s' = stdout s.
Proof.
  induction entries as [|[k v] entries IH]; intros inputs s r s' H.
  - simpl in H. apply ret_Ok in H as [-> ->]. split; [reflexivity|].
    simpl. rewrite app_nil_r. split; reflexivity.
  - simpl in H. apply bind_Ok in H as (inputs1 & s1 & Hmove & Hrest).
    unfold move_input in Hmove. simpl in Hmove.
    destruct v as [t|o].
    + apply bind_Ok in Hmove as ([] & s2 & Hcall & Hret).
      apply ret_Ok in Hret as [-> ->].
      apply (call_Ok _ handle) in Hcall as [Et Eo].
      destruct (IH _ _ _ _ Hrest) as (-> & Et' & Eo').
      split; [reflexivity|]. split.
      * rewrite Et', Et, <- app_assoc. reflexivity.
      * rewrite Eo', Eo. reflexivity.
    + apply ret_Ok in Hmove as [-> ->]. eapply IH. exact Hrest.
Qed.

End EmbedTrace.

(** X20.  The embedder moves every tensor of the tokenizer output, and only
    those.  A call of [SimpleTextToEmbedding.__call__] that returns has
    tokenized the sentences; moved to [self.device] each value of the
    tokenizer output that is a tensor, once, in key order, and no other
    value; called the text model on the output with its keys as they were;
    and detached the first-token hidden state and moved it to the CPU,
    whatever [self.device] is. *)
Theorem embedder_moves_every_tensor W handle (self : SimpleTextToEmbedding)
    (sentences : list string) (s : state W) (t : Tensor) (s' : state W) :
  SimpleTextToEmbedding_call W handle self sentences s = (Ok t, s') ->
  exists inputs out,
    trace s' = trace s ++
      Called (Tokenize (tokenizer self) sentences) (Ok inputs) ::
      map (fun t' => Called (TensorTo t' (emb_device self)) (Ok tt))
        (tensor_inputs inputs) ++
      [ Called (TextModelCall (model self) inputs) (Ok out);
        Called (Detach t) (Ok tt);
        Called (TensorTo t Cpu) (Ok tt) ] /\
    Torch.select_first (last_hidden_state out) = Ok t /\
    stdout s' = stdout s.
Proof.
  unfold SimpleTextToEmbedding_call. intros H.
  apply bind_Ok in H as (inputs & s1 & H1 & H).
  apply bind_Ok in H as (inputs' & s2 & H2 & H).
  apply bind_Ok in H as (out & s3 & H3 & H).
  apply bind_Ok in H as (first & s4 & H4 & H).
  apply lift_Ok in H4 as [Hsel ->].
  apply bind_Ok in H as ([] & s5 & H5 & H).
  apply bind_Ok in H as ([] & s6 & H6 & H).
  apply ret_Ok in H as [-> ->].
  apply move_inputs_trace in H2 as (-> & Et2 & Eo2).
  apply (call_Ok _ handle) in H1 as [Et1 Eo1].
  apply (call_Ok _ handle) in H3 as [Et3 Eo3].
  apply (call_Ok _ handle) in H5 as [Et5 Eo5].
  apply (call_Ok _ handle) in H6 as [Et6 Eo6].
  exists inputs, out. split; [|split; [exact Hsel|]].
  - rewrite Et6, Et5, Et3, Et2, Et1. repeat rewrite <- app_assoc. reflexivity.
  - rewrite Eo6, Eo5, Eo3, Eo2, Eo1. reflexivity.
Qed.

Lemma embedder_moves_every_tensor_witness :
  let self := {| tokenizer := 1%N; model := 2%N; emb_device := Cuda |} in
  let t := FloatTensor [1; 2] [Demo.half; PyFloat.one] in
  let run := SimpleTextToEmbedding_call Demo.W (Demo.handle Demo.classifier)
               self ["a house"%string] Demo.start in
  exists inputs out,
    trace (snd run) = trace Demo.start ++
      Called (Tokenize (tokenizer self) ["a house"%string]) (Ok inputs) ::
      map (fun t' => Called (TensorTo t' (emb_device self)) (Ok tt))
        (tensor_inputs inputs) ++
      [ Called (TextModelCall (model self) inputs) (Ok out);
        Called (Detach t) (Ok tt);
        Called (TensorTo t Cpu) (Ok tt) ] /\
    Torch.select_first (last_hidden_state out) = Ok t /\
    stdout (snd run) = stdout Demo.start.
Proof.
  apply (embedder_moves_every_tensor Demo.W (Demo.handle Demo.classifier)
           {| tokenizer := 1%N; model := 2%N; emb_device := Cuda |}
           ["a house"%string] Demo.start
           (FloatTensor [1; 2] [Demo.half; PyFloat.one])).
  vm_compute. reflexivity.
Defined.

(** ** The best metrics, epoch after epoch *)

Lemma SFcompare_refl x : x <> S754_nan -> SFcompare x x = Some Eq.
Proof.
  float_cases x; intros Hx; try reflexivity; try congruence;
    rewrite SFcompare_finite; unfold fcmp;
    rewrite Z.compare_refl, Pos.compare_refl; reflexivity.
Qed.

(** A number that compares with another one is no NaN: it equals itself. *)
Lemma compare_number a b c : PyNum.compare a b = Some c -> PyNum.eq a a = true.
Proof.
  unfold PyNum.eq. destruct a as [m|x].
  - intros _. simpl. rewrite Z.compare_refl. reflexivity.
  - intros H. simpl.
    assert (Hx : x <> S754_nan).
    { intros ->. destruct b; simpl in H; discriminate. }
    rewrite (SFcompare_refl x Hx). reflexivity.
Qed.

Lemma update_best_better is_cls v t best :
  PyNum.eq (fst best) (fst best) = true ->
  let best' := update_best is_cls v t best in
  PyNum.eq (fst best') (fst best') = true /\
  no_better is_cls (fst best) (fst best').
Proof.
  intros Hnum. cbv zeta. rewrite update_best_spec.
  destruct (improves is_cls v (fst best)) eqn:Himp; simpl.
  - split; [|right; exact Himp].
    apply improves_spec in Himp. eapply compare_number. exact Himp.
  - split; [exact Hnum | left; exact Hnum].
Qed.

Lemma best_after_snoc is_cls ms m :
  best_after is_cls (ms ++ [m]) =
  update_best is_cls (em_val_metric m) (em_test_metric m) (best_after is_cls ms).
Proof. unfold best_after. rewrite fold_left_app. reflexivity. Qed.

Lemma best_after_number is_cls ms :
  PyNum.eq (fst (best_after is_cls ms)) (fst (best_after is_cls ms)) = true.
Proof.
  induction ms as [|m ms IH] using rev_ind.
  - destruct is_cls; reflexivity.
  - rewrite best_after_snoc. apply update_best_better. exact IH.
Qed.

(** X21.  The best validation metric only gets better and is never NaN.  In a
    run of the epoch loop that returns, the pair of best metrics is the one
    that the epochs lead to one after the other; after every epoch the best
    validation metric is a number that equals itself, so no NaN, also when
    validation metrics are NaN; and from one epoch to the next it stays as
    it is or strictly improves: greater for the accuracy, smaller for the
    error. *)
Theorem best_only_gets_better W handle is_grad_enabled set_grad_enabled
    (g : globals) (epochs : Z) (s : state W) (best : num * num) (s' : state W) :
  for_each (range 1 (epochs + 1))
    (epoch_body W handle is_grad_enabled set_grad_enabled g)
    (initial_best (g_is_classification g)) s = (Ok best, s') ->
  exists ms,
    runs_epochs W handle is_grad_enabled set_grad_enabled g
      (range 1 (epochs + 1)) s ms s' /\
    best = best_after (g_is_classification g) ms /\
    forall k,
      let b := best_after (g_is_classification g) (take k ms) in
      let b' := best_after (g_is_classification g) (take (S k) ms) in
      PyNum.eq (fst b) (fst b) = true /\
      no_better (g_is_classification g) (fst b) (fst b').
Proof.
  intros H.
  destruct (epochs_Ok _ _ _ _ _ _ _ _ _ _ H) as (ms & Hruns & Hbest).
  exists ms. split; [exact Hruns|]. split; [exact Hbest|].
  intros k. cbv zeta. split; [apply best_after_number|].
  destruct (ms !! k) as [m|] eqn:Hk.
  - rewrite (take_S_r _ _ _ Hk), best_after_snoc.
    apply update_best_better, best_after_number.
  - apply lookup_ge_None in Hk.
    rewrite !take_ge by lia. left. apply best_after_number.
Qed.

Lemma best_only_gets_better_witness :
  let g := Demo.globals_of Demo.diverged in
  let run :=
    for_each (range 1 (2 + 1))
      (epoch_body Demo.W (Demo.handle Demo.diverged)
         Demo.is_grad_enabled Demo.set_grad_enabled g)
      (initial_best false) Demo.start in
  exists ms,
    runs_epochs Demo.W (Demo.handle Demo.diverged)
      Demo.is_grad_enabled Demo.set_grad_enabled g
      (range 1 (2 + 1)) Demo.start ms (snd run) /\
    (Float PyFloat.inf, Float PyFloat.inf) = best_after false ms /\
    forall k,
      let b := best_after false (take k ms) in
      let b' := best_after false (take (S k) ms) in
      PyNum.eq (fst b) (fst b) = true /\
      no_better false (fst b) (fst b').
Proof.
  apply (best_only_gets_better Demo.W (Demo.handle Demo.diverged)
           Demo.is_grad_enabled Demo.set_grad_enabled
           (Demo.globals_of Demo.diverged) 2 Demo.start).
  vm_compute. reflexivity.
Defined.

(** X22.  No epoch, one line.  When [args.epochs] is zero or negative, the
    epoch loop calls nothing, neither [train] nor [test], and prints the one
    line of the best metrics with their initial values: [0.0000] twice for
    the accuracy, [inf] twice for the error. *)
Theorem no_epochs_one_line W handle is_grad_enabled set_grad_enabled
    (g : globals) (epochs : Z) (s : state W) :
  epochs <= 0 ->
  epoch_loop W handle is_grad_enabled set_grad_enabled g epochs s =
    (Ok tt,
     {| world := world s; trace := trace s;
        stdout := stdout s ++ [initial_line (g_is_classification g)] |}).
Proof.
  intros He. unfold epoch_loop, range.
  replace (Z.to_nat (epochs + 1 - 1)) with 0%nat by lia.
  unfold initial_line. destruct (g_is_classification g); reflexivity.
Qed.

Lemma no_epochs_one_line_witness :
  epoch_loop Demo.W (Demo.handle Demo.regression)
    Demo.is_grad_enabled Demo.set_grad_enabled
    (Demo.globals_of Demo.regression) 0 Demo.start =
    (Ok tt,
     {| world := world Demo.start; trace := trace Demo.start;
        stdout := stdout Demo.start ++
          [initial_line (g_is_classification (Demo.globals_of Demo.regression))] |}).
Proof.
  apply (no_epochs_one_line Demo.W (Demo.handle Demo.regression)
           Demo.is_grad_enabled Demo.set_grad_enabled
           (Demo.globals_of Demo.regression) 0 Demo.start).
  lia.
Defined.

(** X23.  Without an improvement the last line shows the initial values.  In
    a run of the epoch loop that returns and in which no validation metric
    is strictly better than the initial value (an accuracy of zero in every
    epoch, or an error that is [inf] or NaN in every epoch), the last line
    is [Best Val Acc: 0.0000, Best Test Acc: 0.0000] or
    [Best Val RMSE: inf, Best Test RMSE: inf], whatever the test metrics
    were. *)
Theorem no_improvement_line W handle is_grad_enabled set_grad_enabled
    (g : globals) (epochs : Z) (s s' : state W) :
  epoch_loop W handle is_grad_enabled set_grad_enabled g epochs s = (Ok tt, s') ->
  exists ms s1,
    runs_epochs W handle is_grad_enabled set_grad_enabled g
      (range 1 (epochs + 1)) s ms s1 /\
    ((forall m, In m ms ->
        improves (g_is_classification g) (em_val_metric m)
          (fst (initial_best (g_is_classification g))) = false) ->
     stdout s' = stdout s ++
       map (printed_epoch (metric_name (g_is_classification g))) ms ++
       [initial_line (g_is_classification g)]).
Proof.
  intros H.
  destruct (epoch_loop_Ok _ _ _ _ _ _ _ _ H)
    as (ms & best & s1 & _ & Hruns & _ & [Hsel _] & Eo).
  exists ms, s1. split; [exact Hruns|].
  intros Hnone. rewrite Eo, (Hsel Hnone).
  unfold initial_line. destruct (g_is_classification g); reflexivity.
Qed.

Lemma no_improvement_line_witness :
  let g := Demo.globals_of Demo.diverged in
  let run := epoch_loop Demo.W (Demo.handle Demo.diverged)
               Demo.is_grad_enabled Demo.set_grad_enabled g 1 Demo.start in
  stdout (snd run) =
    [ "Train Loss: 0.5000, Train RMSE: nan, Val RMSE: nan, Test RMSE: nan";
      "Best Val RMSE: inf, Best Test RMSE: inf" ]%string /\
  exists ms s1,
    runs_epochs Demo.W (Demo.handle Demo.diverged)
      Demo.is_grad_enabled Demo.set_grad_enabled g
      (range 1 (1 + 1)) Demo.start ms s1 /\
    ((forall m, In m ms ->
        improves (g_is_classification g) (em_val_metric m)
          (fst (initial_best (g_is_classification g))) = false) ->
     stdout (snd run) = stdout Demo.start ++
       map (printed_epoch (metric_name (g_is_classification g))) ms ++
       [initial_line (g_is_classification g)]).
Proof.
  split; [vm_compute; reflexivity|].
  apply (no_improvement_line Demo.W (Demo.handle Demo.diverged)
           Demo.is_grad_enabled Demo.set_grad_enabled
           (Demo.globals_of Demo.diverged) 1 Demo.start).
  vm_compute. reflexivity.
Defined.

(** ** The loaders, epoch after epoch *)

Lemma omap_concat_nil {A B C} (f : A -> option B) (h : C -> list A) (l : list C) :
  (forall x, omap f (h x) = []) -> omap f (concat (map h l)) = [].
Proof.
  intros Hh. induction l as [|x l IH]; simpl; [reflexivity|].
  rewrite omap_app, Hh, IH. reflexivity.
Qed.

Section Iterations.

Variable W : Type.
Variable handle : forall A : Type, ext A -> W -> outcome A * W.
Variable is_grad_enabled : W -> bool.
Variable set_grad_enabled : bool -> W -> W.
Variable g : globals.

Lemma train_iterates epoch s r s' :
  train W handle g epoch s = (Ok r, s') ->
  exists evs,
    trace s' = trace s ++ evs /\
    omap iterated evs =
      [(g_train_loader g, Some ("Epoch: " ++ PyFormat.str_int epoch)%string)].
Proof.
  intros H. apply train_Ok in H as (batches & bs & _ & _ & Et & _).
  eexists. split; [exact Et|]. simpl. f_equal.
  apply omap_concat_nil. intros b. unfold train_batch_events, loss_event.
  destruct (g_is_classification g); reflexivity.
Qed.

Lemma test_iterates loader s r s' :
  test W handle is_grad_enabled set_grad_enabled g loader s = (Ok r, s') ->
  exists evs,
    trace s' = trace s ++ evs /\ omap iterated evs = [(loader, None)].
Proof.
  intros H.
  apply test_Ok in H as (batches & bs & tail & _ & _ & Et & _ & _ & Hr & _).
  assert (Htail : omap iterated tail = []).
  { destruct (g_is_classification g).
    - destruct Hr as [_ ->]. reflexivity.
    - destruct Hr as (q & [[_ ->] | [_ (p & -> & _)]] & _); reflexivity. }
  eexists. split; [exact Et|]. simpl. f_equal.
  rewrite omap_app, Htail, app_nil_r.
  apply omap_concat_nil. intros b. unfold test_batch_events, score_event.
  destruct (g_is_classification g); reflexivity.
Qed.

Lemma runs_epochs_iterate epochs s ms s' :
  runs_epochs W handle is_grad_enabled set_grad_enabled g epochs s ms s' ->
  exists evs,
    trace s' = trace s ++ evs /\
    omap iterated evs = flat_map (epoch_iterations g) epochs.
Proof.
  induction 1 as [|epoch epochs s s1 s2 s3 s4 s5 s' m ms line
                    Htrain Htm Hvm Hxm Hline Hprint Hruns (evs & Et & Hit)].
  - exists []. rewrite app_nil_r. split; reflexivity.
  - apply train_iterates in Htrain as (e1 & Et1 & H1).
    apply test_iterates in Htm as (e2 & Et2 & H2).
    apply test_iterates in Hvm as (e3 & Et3 & H3).
    apply test_iterates in Hxm as (e4 & Et4 & H4).
    apply print_Ok in Hprint as [Et5 _].
    exists (e1 ++ e2 ++ e3 ++ e4 ++ evs). split.
    + rewrite Et, Et5, Et4, Et3, Et2, Et1. repeat rewrite <- app_assoc.
      reflexivity.
    + rewrite !omap_app, H1, H2, H3, H4, Hit. reflexivity.
Qed.

End Iterations.

(** X24.  Four passes over the data in every epoch.  In a run of the epoch
    loop that returns, the loaders were iterated in this order, for the
    epochs 1 to [args.epochs] one after the other and nothing else: the
    training loader under a progress bar labelled [Epoch: <epoch>], for
    training; then, without a progress bar, the training loader again, the
    validation loader and the test loader, for the three metrics. *)
Theorem four_passes_per_epoch W handle is_grad_enabled set_grad_enabled
    (g : globals) (epochs : Z) (s : state W) (best : num * num) (s' : state W) :
  for_each (range 1 (epochs + 1))
    (epoch_body W handle is_grad_enabled set_grad_enabled g)
    (initial_best (g_is_classification g)) s = (Ok best, s') ->
  exists evs,
    trace s' = trace s ++ evs /\
    omap iterated evs = flat_map (epoch_iterations g) (range 1 (epochs + 1)) /\
    length (omap iterated evs) = (4 * Z.to_nat epochs)%nat.
Proof.
  intros H.
  destruct (epochs_Ok _ _ _ _ _ _ _ _ _ _ H) as (ms & Hruns & _).
  destruct (runs_epochs_iterate _ _ _ _ _ _ _ _ _ Hruns) as (evs & Et & Hit).
  exists evs. split; [exact Et|]. split; [exact Hit|].
  rewrite Hit.
  assert (Hlen : forall l, length (flat_map (epoch_iterations g) l)
                           = (4 * length l)%nat).
  { induction l as [|x l IH]; simpl; [reflexivity | rewrite IH; lia]. }
  rewrite Hlen, range_length. f_equal. f_equal. lia.
Qed.

Lemma four_passes_per_epoch_witness :
  let g := Demo.globals_of Demo.classifier in
  let run :=
    for_each (range 1 (2 + 1))
      (epoch_body Demo.W (Demo.handle Demo.classifier)
         Demo.is_grad_enabled Demo.set_grad_enabled g)
      (initial_best (g_is_classification g)) Demo.start in
  exists evs,
    trace (snd run) = trace Demo.start ++ evs /\
    omap iterated evs = flat_map (epoch_iterations g) (range 1 (2 + 1)) /\
    length (omap iterated evs) = (4 * Z.to_nat 2)%nat.
Proof.
  apply (four_passes_per_epoch Demo.W (Demo.handle Demo.classifier)
           Demo.is_grad_enabled Demo.set_grad_enabled
           (Demo.globals_of Demo.classifier) 2 Demo.start
           (Float Demo.half, Float Demo.half)).
  vm_compute. reflexivity.
Defined.

(** ** Perfect scores *)










(** ** A loss that is no number *)

Lemma weighted_loss_sum_nan bs : forall acc,
  PyFloat.is_nan acc = true \/
  Exists (fun b => PyFloat.is_nan (tb_loss_value b) = true) bs ->
  PyFloat.is_nan
    (fold_left (fun acc b =>
       PyFloat.add acc
         (PyFloat.mul (tb_loss_value b) (PyFloat.of_Z (tb_size b)))) bs acc)
  = true.
Proof.
  induction bs as [|b bs IH]; intros acc H.
  - destruct H as [H | H]; [exact H | inversion H].
  - simpl. apply IH.
    destruct H as [H | H].
    + left. destruct acc; try discriminate. reflexivity.
    + inversion H as [? ? Hb | ? ? Hbs]; subst.
      * left. destruct (tb_loss_value b); try discriminate.
        destruct acc; reflexivity.
      * right. exact Hbs.
Qed.

(** X26.  One NaN loss makes the training loss NaN.  In a call of [train]
    that returns, when [float(loss)] is NaN for at least one batch, the
    returned average is NaN, whatever the other batches gave, and it is
    printed as [nan]. *)
Theorem nan_loss_gives_nan W handle (g : globals) (epoch : Z)
    (s : state W) (r : num) (s' : state W) :
  train W handle g epoch s = (Ok r, s') ->
  exists bs : list train_batch,
    Forall train_batch_read bs /\
    trace s' = trace s ++
      Called (ModelTrain (g_model g)) (Ok tt) ::
      Called (Iterate (g_train_loader g)
                (Some ("Epoch: " ++ PyFormat.str_int epoch)%string))
        (Ok (map tb_frame bs)) ::
      concat (map (train_batch_events g) bs) /\
    (Exists (fun b => PyFloat.is_nan (tb_loss_value b) = true) bs ->
     r = Float PyFloat.nan /\ PyFormat.num_4f r = Ok "nan"%string).
Proof.
  intros H.
  destruct (train_Ok _ _ _ _ _ _ _ H)
    as (batches & bs & Hmap & Hread & Et & _ & _ & _ & Hr).
  exists bs. split; [exact Hread|]. split; [rewrite Hmap; exact Et|].
  intros Hnan.
  assert (Hr' : r = Float PyFloat.nan).
  { subst r. f_equal. unfold weighted_average, weighted_loss_sum.
    pose proof (weighted_loss_sum_nan bs PyFloat.zero (or_intror Hnan)) as Hs.
    destruct (fold_left _ bs PyFloat.zero); try discriminate. reflexivity. }
  split; [exact Hr'|]. rewrite Hr'. reflexivity.
Qed.

Lemma nan_loss_gives_nan_witness :
  let g := Demo.globals_of Demo.classifier in
  let run := train Lab.W (Lab.nan_loss Demo.classifier) g 1 Lab.start in
  exists bs : list train_batch,
    Forall train_batch_read bs /\
    trace (snd run) = trace Lab.start ++
      Called (ModelTrain (g_model g)) (Ok tt) ::
      Called (Iterate (g_train_loader g)
                (Some ("Epoch: " ++ PyFormat.str_int 1)%string))
        (Ok (map tb_frame bs)) ::
      concat (map (train_batch_events g) bs) /\
    (Exists (fun b => PyFloat.is_nan (tb_loss_value b) = true) bs ->
     Float PyFloat.nan = Float PyFloat.nan /\
     PyFormat.num_4f (Float PyFloat.nan) = Ok "nan"%string).
Proof.
  apply (nan_loss_gives_nan Lab.W (Lab.nan_loss Demo.classifier)
           (Demo.globals_of Demo.classifier) 1 Lab.start (Float PyFloat.nan)).
  vm_compute. reflexivity.
Defined.

(** ** Options that the command line does not name *)

Section Unmentioned.

Import Argparse.

Variable int_of_str : string -> option Z.
Variable float_of_str : string -> option float.

Lemma consume_frame (a : argument) : In a parser -> forall n words ns extras ns',
  (length words <= n)%nat ->
  (forall w e, In w words -> classify parser w <> Optional a e) ->
  Argparse.consume int_of_str float_of_str parser words ns extras = Ok ns' ->
  ns' !! dest a = ns !! dest a.
Proof.
  intros Ha. induction n as [|n IH]; intros words ns extras ns' Hlen Hno.
  - destruct words; [|simpl in Hlen; lia]. simpl.
    destruct extras; [discriminate|]. intros H. inversion H. reflexivity.
  - destruct words as [|w rest]; simpl.
    { destruct extras; [discriminate|]. intros H. inversion H. reflexivity. }
    simpl in Hlen.
    assert (Hrest : forall w' e, In w' rest -> classify parser w' <> Optional a e)
      by (intros w' e Hin; apply Hno; right; exact Hin).
    destruct (String.eqb w "--"); [discriminate|].
    destruct (classify parser w) as [| a0 explicit | |] eqn:Hclass;
      try discriminate.
    + apply IH; [lia | exact Hrest].
    + assert (Hne : dest a0 <> dest a).
      { intros Heq. apply (Hno w explicit); [left; reflexivity|].
        rewrite Hclass. f_equal.
        apply parser_dest_inj; [eapply classify_In; exact Hclass | exact Ha | exact Heq]. }
      destruct (act a0) as [t choices| |] eqn:Hact.
      * destruct explicit as [v|].
        -- destruct (Argparse.get_value _ _ t choices v) as [x|]; [|discriminate].
           intros H. apply IH in H; [|lia|exact Hrest].
           rewrite H. apply lookup_insert_ne. exact Hne.
        -- destruct rest as [|v rest']; [discriminate|].
           destruct (classify parser v); try discriminate.
           destruct (String.eqb v "--"); [discriminate|].
           destruct (Argparse.get_value _ _ t choices v) as [x|]; [|discriminate].
           intros H. apply IH in H; [|simpl in Hlen; lia|].
           ++ rewrite H. apply lookup_insert_ne. exact Hne.
           ++ intros w' e Hin. apply Hrest. right. exact Hin.
      * destruct explicit; [discriminate|].
        intros H. apply IH in H; [|lia|exact Hrest].
        rewrite H. apply lookup_insert_ne. exact Hne.
      * destruct explicit; [destruct (negb _ && _)|]; discriminate.
    + apply IH; [lia | exact Hrest].
Qed.

Lemma defaults_lookup a :
  In a added_arguments -> defaults parser !! dest a = default a.
Proof.
  intros Hin. unfold added_arguments, parser, ArgumentParser, add_argument in Hin.
  simpl in Hin.
  repeat (destruct Hin as [<- | Hin]; [reflexivity|]).
  destruct Hin.
Qed.

End Unmentioned.

(** X27.  An option that the command line does not name keeps its default.
    After a command line that parses, every argument of the script that no
    word of the command line is read as, in full or abbreviated, has the
    value that [add_argument] gave as its default. *)
Theorem unnamed_option_keeps_default (int_of_str : string -> option Z)
    (float_of_str : string -> option float) (argv : list string)
    (ns : Argparse.namespace) (a : Argparse.argument) :
  Argparse.parse_args int_of_str float_of_str argv = Ok ns ->
  In a Argparse.added_arguments ->
  (forall w e, In w argv ->
     Argparse.classify Argparse.parser w <> Argparse.Optional a e) ->
  ns !! Argparse.dest a = Argparse.default a.
Proof.
  intros H Ha Hno. unfold Argparse.parse_args in H.
  destruct (Argparse.any_ambiguous _ _); [discriminate|].
  pose proof Ha as Hin. apply added_arguments_parser in Hin as [Hin _].
  rewrite (consume_frame int_of_str float_of_str a Hin (length argv)
             argv _ _ _ (le_n _) Hno H).
  apply defaults_lookup. exact Ha.
Qed.

Lemma unnamed_option_keeps_default_witness :
  (<["epochs"%string := Argparse.PInt 2]> (Argparse.defaults Argparse.parser)
     : Argparse.namespace) !! "seed"%string = Some (Argparse.PInt 0).
Proof.
  apply (unnamed_option_keeps_default Demo.int_of_str Demo.float_of_str
           ["--epochs"; "2"]%string
           (<["epochs"%string := Argparse.PInt 2]>
              (Argparse.defaults Argparse.parser))
           {| Argparse.option_strings := ["--seed"%string];
              Argparse.dest := "seed";
              Argparse.act := Argparse.store Argparse.type_int None;
              Argparse.default := Some (Argparse.PInt 0) |}).
  - vm_compute. reflexivity.
  - vm_compute. tauto.
  - intros w e [<- | [<- | []]]; vm_compute; discriminate.
Defined.
